(** * AL language-server wrapper: a shallow embedding of [al_lsp_wrapper.py]

    The development follows the Python source function by function.

    - [PyStr]   the [str] methods the wrapper calls ([strip], [lower],
                [find], [replace], [split], slices), on strings whose
                characters are the code points below U+0100;
    - [Re]      a backtracking matcher for the fragment of [re] used by the
                five hover patterns, with [re.search]'s leftmost, greedy,
                first-alternative-first order;
    - [json]    the values [json.loads] produces ([None] is [JNull]);
    - [PurePath] and [Platform]: [pathlib] paths and the file system the
                wrapper reads;
    - [World]   the wrapper object together with the two oracles that stand
                for the outside: the messages the AL server will deliver on
                its stdout, and the answers of the clock;
    - the methods of [ALLSPWrapper] in a state-and-exception monad. *)

From Stdlib Require Import String Ascii List ZArith QArith Lia Bool Arith.
From Equations Require Import Equations.
Import ListNotations.
Open Scope string_scope.
Open Scope list_scope.
Open Scope nat_scope.

(* ===================================================================== *)
(** * Python [str] *)
(* ===================================================================== *)

Module PyStr.

(** The double-quote character, and the one-character string of it. *)
Definition dquote : ascii := "034"%char.
Definition dquotes : string := String dquote EmptyString.

(** [Py_UNICODE_ISSPACE] on the code points below U+0100: TAB..CR,
    FS..US, space, NEL and NBSP.  Used by [str.strip] and by [\s]. *)
Definition isspace (c : ascii) : bool :=
  let n := nat_of_ascii c in
  ((9 <=? n) && (n <=? 13)) || ((28 <=? n) && (n <=? 32))
  || (n =? 133) || (n =? 160).

(** [str.lower] on one code point below U+0100: A..Z and the Latin-1
    capitals U+00C0..U+00DE (the multiplication sign U+00D7 apart). *)
Definition lower_char (c : ascii) : ascii :=
  let n := nat_of_ascii c in
  if ((65 <=? n) && (n <=? 90))
     || ((192 <=? n) && (n <=? 222) && negb (n =? 215))
  then ascii_of_nat (n + 32) else c.

Fixpoint lower (s : string) : string :=
  match s with
  | EmptyString => EmptyString
  | String c s' => String (lower_char c) (lower s')
  end.

Fixpoint lstrip (s : string) : string :=
  match s with
  | EmptyString => EmptyString
  | String c s' => if isspace c then lstrip s' else s
  end.

(** [rstrip] drops the white space at the end: a character is kept when
    something that is not white space follows or it is not white space. *)
Fixpoint rstrip (s : string) : string :=
  match s with
  | EmptyString => EmptyString
  | String c s' =>
      match rstrip s' with
      | EmptyString => if isspace c then EmptyString else String c EmptyString
      | r => String c r
      end
  end.

Definition strip (s : string) : string := rstrip (lstrip s).

(** Truth value of a [str]: non-empty. *)
Definition truthy (s : string) : bool :=
  match s with EmptyString => false | _ => true end.

Fixpoint startswith (p s : string) : bool :=
  match p, s with
  | EmptyString, _ => true
  | String a p', String b s' => Ascii.eqb a b && startswith p' s'
  | String _ _, EmptyString => false
  end.

Fixpoint skip (n : nat) (s : string) : string :=
  match n, s with
  | O, _ => s
  | S n', String _ s' => skip n' s'
  | S _, EmptyString => EmptyString
  end.

Fixpoint take (n : nat) (s : string) : string :=
  match n, s with
  | O, _ => EmptyString
  | S n', String c s' => String c (take n' s')
  | S _, EmptyString => EmptyString
  end.

Definition endswith (p s : string) : bool :=
  (String.length p <=? String.length s)
  && String.eqb (skip (String.length s - String.length p) s) p.

(** A slice bound as Python normalises it: a negative index counts from
    the end, and the result is clamped to [0, len]. *)
Definition bound (len : nat) (i : Z) : nat :=
  if (i <? 0)%Z then Z.to_nat (Z.max 0 (Z.of_nat len + i))
  else Nat.min len (Z.to_nat i).

(** [s[i:j]], an omitted bound being [None]. *)
Definition slice (i j : option Z) (s : string) : string :=
  let len := String.length s in
  let lo := match i with Some i => bound len i | None => 0 end in
  let hi := match j with Some j => bound len j | None => len end in
  take (hi - lo) (skip lo s).

(** [c in s] for a one-character [c]. *)
Fixpoint contains (c : ascii) (s : string) : bool :=
  match s with
  | EmptyString => false
  | String a s' => Ascii.eqb a c || contains c s'
  end.

(** [s.find(c)] for a one-character [c]: the first index, or -1. *)
Fixpoint find (c : ascii) (s : string) : Z :=
  match s with
  | EmptyString => (-1)%Z
  | String a s' =>
      if Ascii.eqb a c then 0%Z
      else let r := find c s' in if (r <? 0)%Z then (-1)%Z else (r + 1)%Z
  end.

(** [s.replace(old, new)] for a non-empty [old]: occurrences are replaced
    from the left and do not overlap.  [pending] counts the characters of
    an occurrence already replaced that are still to be passed over. *)
Fixpoint replace_go (old new : string) (pending : nat) (s : string) : string :=
  match s with
  | EmptyString => EmptyString
  | String c s' =>
      match pending with
      | S n => replace_go old new n s'
      | O =>
          if startswith old s
          then new ++ replace_go old new (String.length old - 1) s'
          else String c (replace_go old new 0 s')
      end
  end.

Definition replace (old new s : string) : string := replace_go old new 0 s.

(** [s.split(sep)] and [s.split(sep, maxsplit)] for a one-character [sep]:
    the pieces between separators, empty pieces included; once [maxsplit]
    separators are used the rest is one piece. *)
Fixpoint split (sep : ascii) (maxsplit : option nat) (s : string) : list string :=
  match s with
  | EmptyString => [EmptyString]
  | String c s' =>
      match maxsplit with
      | Some O => [s]
      | _ =>
          if Ascii.eqb c sep
          then EmptyString :: split sep (option_map Nat.pred maxsplit) s'
          else match split sep maxsplit s' with
               | p :: ps => String c p :: ps
               | [] => [String c EmptyString]
               end
      end
  end.

(** [sep.join(parts)]. *)
Fixpoint join (sep : string) (parts : list string) : string :=
  match parts with
  | [] => EmptyString
  | [p] => p
  | p :: rest => p ++ sep ++ join sep rest
  end.

(** [parts[-1]]: the last element of a non-empty list. *)
Definition last_part (parts : list string) : string := List.last parts EmptyString.

End PyStr.

(* ===================================================================== *)
(** * The fragment of [re] used by the hover patterns *)
(* ===================================================================== *)

Module Re.

(** A member of a bracket expression: a character or a range. *)
Inductive item :=
| Ch (c : ascii)
| Range (lo hi : ascii).

(** A character class: [\s], or a set [[...]] or [[^...]]. *)
Inductive cclass :=
| Space
| Chars (negated : bool) (items : list item).

Definition item_matches (it : item) (c : ascii) : bool :=
  match it with
  | Ch a => Ascii.eqb a c
  | Range lo hi =>
      (nat_of_ascii lo <=? nat_of_ascii c) && (nat_of_ascii c <=? nat_of_ascii hi)
  end.

Definition in_class (cl : cclass) (c : ascii) : bool :=
  match cl with
  | Space => PyStr.isspace c
  | Chars negated items => xorb negated (existsb (fun it => item_matches it c) items)
  end.

(** The patterns repeat character classes only, so repetition is over a
    class; every repetition is greedy.  There is one capturing group. *)
Inductive regex :=
| Lit (s : string)          (* literal text *)
| One (cl : cclass)         (* one character of the class *)
| Star (cl : cclass)        (* cl*  *)
| Plus (cl : cclass)        (* cl+  *)
| Seq (r1 r2 : regex)       (* r1 r2 *)
| Alt (r1 r2 : regex)       (* r1|r2 *)
| Opt (r : regex)           (* (?:r)? *)
| Group (r : regex)         (* (r), group 1 *)
| Bol.                      (* ^ *)

(** What [re.search] returns: the span of the match and group 1 ([None]
    when the group took no part in the match). *)
Record Match := { m_start : nat; m_end : nat; group1 : option string }.

Section Matcher.

Context {R : Type}.

Fixpoint lit (p : string) (pos : nat) (s : string)
  (k : nat -> string -> option R) : option R :=
  match p, s with
  | EmptyString, _ => k pos s
  | String a p', String b s' => if Ascii.eqb a b then lit p' (S pos) s' k else None
  | String _ _, EmptyString => None
  end.

(** Greedy repetition: take one more character whenever the class allows,
    and give characters back one at a time when what follows fails. *)
Fixpoint star (cl : cclass) (pos : nat) (s : string)
  (k : nat -> string -> option R) : option R :=
  match s with
  | String c s' =>
      if in_class cl c
      then match star cl (S pos) s' k with
           | Some m => Some m
           | None => k pos s
           end
      else k pos s
  | EmptyString => k pos s
  end.

(** [run r pos s cap k]: match [r] at offset [pos], where [s] is the rest
    of the subject, then continue with [k]; the first success in the
    matcher's order of preference is the answer. *)
Fixpoint run (r : regex) (pos : nat) (s : string) (cap : option string)
  (k : nat -> string -> option string -> option R) : option R :=
  match r with
  | Lit p => lit p pos s (fun pos' s' => k pos' s' cap)
  | One cl =>
      match s with
      | String c s' => if in_class cl c then k (S pos) s' cap else None
      | EmptyString => None
      end
  | Star cl => star cl pos s (fun pos' s' => k pos' s' cap)
  | Plus cl =>
      match s with
      | String c s' =>
          if in_class cl c then star cl (S pos) s' (fun pos' s' => k pos' s' cap)
          else None
      | EmptyString => None
      end
  | Seq r1 r2 => run r1 pos s cap (fun pos' s' cap' => run r2 pos' s' cap' k)
  | Alt r1 r2 =>
      match run r1 pos s cap k with
      | Some m => Some m
      | None => run r2 pos s cap k
      end
  | Opt r1 =>
      match run r1 pos s cap k with
      | Some m => Some m
      | None => k pos s cap
      end
  | Group r1 =>
      run r1 pos s cap (fun pos' s' _ => k pos' s' (Some (PyStr.take (pos' - pos) s)))
  | Bol => if pos =? 0 then k pos s cap else None
  end.

End Matcher.

(** [re.search]: the match at the leftmost offset that has one. *)
Fixpoint search_from (r : regex) (pos : nat) (s : string) : option Match :=
  match run r pos s None
          (fun e _ cap => Some {| m_start := pos; m_end := e; group1 := cap |}) with
  | Some m => Some m
  | None =>
      match s with
      | String _ s' => search_from r (S pos) s'
      | EmptyString => None
      end
  end.

Definition search (r : regex) (s : string) : option Match := search_from r 0 s.

Declare Scope re_scope.
Delimit Scope re_scope with re.
Infix "+++" := Seq (at level 60, right associativity) : re_scope.

End Re.

(* ===================================================================== *)
(** * Python values read from JSON *)
(* ===================================================================== *)

(** A [float]: the value it denotes.  Only its truth value and its
    comparison with an [int] are observed. *)
Inductive pyfloat :=
| FNan
| FInf (negative : bool)
| FFinite (q : Q).

#[warnings="-register-all"]
Inductive json :=
| JNull
| JBool (b : bool)
| JInt (n : Z)
| JFloat (f : pyfloat)
| JStr (s : string)
| JArr (items : list json)
| JObj (fields : list (string * json)).

(** A [dict] with string keys, in insertion order. *)
Definition dict := list (string * json).

Module Py.

(** [d.get(k)], [None] standing for a missing key. *)
Fixpoint get (k : string) (d : dict) : option json :=
  match d with
  | [] => None
  | (k', v) :: d' => if String.eqb k' k then Some v else get k d'
  end.

(** [d.get(k, default)]. *)
Definition get_default (k : string) (default : json) (d : dict) : json :=
  match get k d with Some v => v | None => default end.

(** [d.get(k)] as Python sees it: [None] when the key is missing. *)
Definition get_none (k : string) (d : dict) : json := get_default k JNull d.

(** [k in d]. *)
Definition has_key (k : string) (d : dict) : bool :=
  match get k d with Some _ => true | None => false end.

(** [d[k] = v]: the value of an existing key is replaced in place, a new
    key goes to the end. *)
Fixpoint set_item (k : string) (v : json) (d : dict) : dict :=
  match d with
  | [] => [(k, v)]
  | (k', v') :: d' =>
      if String.eqb k' k then (k', v) :: d' else (k', v') :: set_item k v d'
  end.

Definition float_truthy (f : pyfloat) : bool :=
  match f with
  | FFinite q => negb (Qeq_bool q 0)
  | _ => true
  end.

(** Truth value: [None], [False], zero and the empty string, list and
    dict are false. *)
Definition truthy (v : json) : bool :=
  match v with
  | JNull => false
  | JBool b => b
  | JInt n => negb (n =? 0)%Z
  | JFloat f => float_truthy f
  | JStr s => PyStr.truthy s
  | JArr items => match items with [] => false | _ => true end
  | JObj fields => match fields with [] => false | _ => true end
  end.

(** [v == n] for an [int] [n]: [True == 1], [False == 0], and a float is
    compared by value. *)
Definition eq_int (v : json) (n : Z) : bool :=
  match v with
  | JInt m => (m =? n)%Z
  | JBool b => ((if b then 1 else 0) =? n)%Z
  | JFloat (FFinite q) => Qeq_bool q (inject_Z n)
  | _ => false
  end.

End Py.

(* ===================================================================== *)
(** * Exceptions *)
(* ===================================================================== *)

(** The exceptions the modelled code can raise; every [except Exception]
    of the source catches all of them. *)
Inductive exn :=
| AttributeError   (* a method looked up on a value that has none *)
| TypeError        (* a value of the wrong type given to a builtin *)
| KeyError         (* [d[k]] on a missing key *)
| ValueError       (* [as_uri] on a relative path *)
| OSError          (* a file that cannot be opened or read *)
| BrokenPipeError  (* a write to a child that is gone *)
| RecursionError.  (* the interpreter's recursion limit *)

Inductive outcome (A : Type) :=
| Ok (a : A)
| Raise (e : exn).
Arguments Ok {A} a.
Arguments Raise {A} e.

Definition obind {A B} (x : outcome A) (f : A -> outcome B) : outcome B :=
  match x with
  | Ok a => f a
  | Raise e => Raise e
  end.

Notation "'let!' x ':=' e 'in' k" := (obind e (fun x => k))
  (at level 10, x name, e at level 100, k at level 200).

(** [v.get(...)] and the other [dict] methods exist on a [dict] only. *)
Definition as_dict (v : json) : outcome dict :=
  match v with
  | JObj d => Ok d
  | _ => Raise AttributeError
  end.

(** [v.lower()], [v.find(...)], [v.startswith(...)] exist on a [str] only. *)
Definition as_str (v : json) : outcome string :=
  match v with
  | JStr s => Ok s
  | _ => Raise AttributeError
  end.

(** [v[k]] for a string [k]: the value of the key in a [dict]; no other
    value can be indexed by a string. *)
Definition subscript (k : string) (v : json) : outcome json :=
  match v with
  | JObj d =>
      match Py.get k d with
      | Some x => Ok x
      | None => Raise KeyError
      end
  | _ => Raise TypeError
  end.

(** Whether [needle] occurs in [s]. *)
Fixpoint occurs (needle s : string) : bool :=
  PyStr.startswith needle s
  || match s with
     | EmptyString => false
     | String _ s' => occurs needle s'
     end.

Definition is_str (k : string) (v : json) : bool :=
  match v with
  | JStr s => String.eqb s k
  | _ => false
  end.

(** [k in v] for a string [k]: a key of a dict, an item of a list, a
    substring of a string; a number, a boolean and [None] raise. *)
Definition py_in (k : string) (v : json) : outcome bool :=
  match v with
  | JObj d => Ok (Py.has_key k d)
  | JArr items => Ok (existsb (is_str k) items)
  | JStr s => Ok (occurs k s)
  | _ => Raise TypeError
  end.

(** [for x in v]: the items of a list, the keys of a dict, the characters
    of a string; nothing else is iterable. *)
Fixpoint chars (s : string) : list json :=
  match s with
  | EmptyString => []
  | String c s' => JStr (String c EmptyString) :: chars s'
  end.

Definition iterate (v : json) : outcome (list json) :=
  match v with
  | JArr items => Ok items
  | JObj fields => Ok (map (fun kv => JStr (fst kv)) fields)
  | JStr s => Ok (chars s)
  | _ => Raise TypeError
  end.

(* ===================================================================== *)
(** * The definition fallback: name extraction and outline search *)
(* ===================================================================== *)

Module Patterns.
Import Re.
Open Scope re_scope.

Definition letter_ : list item := [Range "A" "Z"; Range "a" "z"; Ch "_"].
Definition word_ : list item := [Range "A" "Z"; Range "a" "z"; Range "0" "9"; Ch "_"].

(** The group every pattern ends its keyword part with: a quoted name (a
    double quote, one or more characters that are not one, a double
    quote) or else an identifier [[A-Za-z_][A-Za-z0-9_]*]. *)
Definition quoted : regex :=
  Lit PyStr.dquotes +++ Plus (Chars true [Ch PyStr.dquote]) +++ Lit PyStr.dquotes.
Definition identifier : regex :=
  One (Chars false letter_) +++ Star (Chars false word_).
Definition name_group : regex := Group (Alt quoted identifier).

(** [(?:local\s+)?procedure\s+(...)] *)
Definition procedure_ : regex :=
  Opt (Lit "local" +++ Plus Space) +++ Lit "procedure" +++ Plus Space +++ name_group.
(** [trigger\s+(...)] *)
Definition trigger_ : regex :=
  Lit "trigger" +++ Plus Space +++ name_group.
(** [field\s*\([^)]+\)\s+(...)] *)
Definition field_ : regex :=
  Lit "field" +++ Star Space +++ Lit "(" +++ Plus (Chars true [Ch ")"])
  +++ Lit ")" +++ Plus Space +++ name_group.
(** [var\s+(...)\s*:] *)
Definition var_ : regex :=
  Lit "var" +++ Plus Space +++ name_group +++ Star Space +++ Lit ":".
(** [^] then any run of characters that are neither letters, underscore
    nor the double quote, then [(...)]. *)
Definition generic_ : regex :=
  Bol +++ Star (Chars true (letter_ ++ [Ch PyStr.dquote])) +++ name_group.

Definition patterns : list regex :=
  [procedure_; trigger_; field_; var_; generic_].

End Patterns.

(** The loop [for pattern in patterns: match = re.search(...); if match:]
    of [_extract_symbol_from_hover]: the first pattern that matches decides. *)
Fixpoint first_match (patterns : list Re.regex) (content : string) : option Re.Match :=
  match patterns with
  | [] => None
  | pattern :: rest =>
      match Re.search pattern content with
      | Some m => Some m
      | None => first_match rest content
      end
  end.

(** The quotes are removed when the name both starts and ends with a
    double quote: [name = name[1:-1]]. *)
Definition unquote_name (name : string) : string :=
  if PyStr.startswith PyStr.dquotes name && PyStr.endswith PyStr.dquotes name
  then PyStr.slice (Some 1%Z) (Some (-1)%Z) name
  else name.

Definition _extract_symbol_from_hover (hover_result : json) : outcome string :=
  let! hover := as_dict hover_result in
  let contents := Py.get_default "contents" (JObj []) hover in
  let! content :=
    match contents with
    | JObj d => Ok (Some (Py.get_default "value" (JStr "") d))
    | JStr s => Ok (Some (JStr s))
    | _ => Ok None
    end in
  match content with
  | None => Ok ""
  | Some content =>
      if negb (Py.truthy content) then Ok ""
      else
        match content with
        | JStr text =>
            match first_match Patterns.patterns text with
            | Some m =>
                match Re.group1 m with
                | Some name => Ok (unquote_name name)
                | None => Raise AttributeError
                end
            | None => Ok ""
            end
        | _ => Raise TypeError
        end
  end.

Definition _clean_symbol_name (name : string) : string :=
  let idx := PyStr.find "(" name in
  if (idx >? 0)%Z then PyStr.strip (PyStr.slice None (Some idx) name)
  else name.

(** [name.lower() == symbol_name.lower() or
     cleaned_name.lower() == symbol_name.lower()] *)
Definition name_matches (name symbol_name : string) : bool :=
  String.eqb (PyStr.lower name) (PyStr.lower symbol_name)
  || String.eqb (PyStr.lower (_clean_symbol_name name)) (PyStr.lower symbol_name).

(** The three [if ... in sym: return ...] of a matching symbol: its
    [location], else its [selectionRange], else its [range], the last two
    with the URI of the document; [None] when it has none of the three and
    the search goes on. *)
Definition own_location (sym : dict) (file_uri : json) : option json :=
  match Py.get "location" sym with
  | Some location => Some location
  | None =>
      match Py.get "selectionRange" sym with
      | Some r => Some (JObj [("uri", file_uri); ("range", r)])
      | None =>
          match Py.get "range" sym with
          | Some r => Some (JObj [("uri", file_uri); ("range", r)])
          | None => None
          end
      end
  end.

(** Nesting depth of a value: the recursion of [_find_symbol_location]
    goes one level down for each list of children. *)
Fixpoint depth (v : json) : nat :=
  match v with
  | JArr items => S (fold_right (fun x acc => Nat.max (depth x) acc) 0 items)
  | JObj fields => S (fold_right (fun kv acc => Nat.max (depth (snd kv)) acc) 0 fields)
  | _ => 0
  end.

(** The [for sym in symbols] loop of [_find_symbol_location]; [recurse]
    is the recursive call on the children of a symbol.  The result is the
    Python value returned, [JNull] being [None]. *)
Fixpoint scan_symbols (recurse : json -> outcome json) (symbol_name : string)
  (file_uri : json) (items : list json) : outcome json :=
  match items with
  | [] => Ok JNull
  | sym :: rest =>
      let! sym := as_dict sym in
      let! name := as_str (Py.get_default "name" (JStr "") sym) in
      match (if name_matches name symbol_name
             then own_location sym file_uri else None) with
      | Some location => Ok location
      | None =>
          let children := Py.get_default "children" (JArr []) sym in
          let! result := if Py.truthy children then recurse children else Ok JNull in
          if Py.truthy result then Ok result
          else scan_symbols recurse symbol_name file_uri rest
      end
  end.

(** [_find_symbol_location], with the depth of recursion that is left. *)
Fixpoint find_symbol_location_at (fuel : nat) (symbols : json)
  (symbol_name : string) (file_uri : json) {struct fuel} : outcome json :=
  match fuel with
  | O => Raise RecursionError
  | S fuel' =>
      let! items := iterate symbols in
      scan_symbols
        (fun children => find_symbol_location_at fuel' children symbol_name file_uri)
        symbol_name file_uri items
  end.

(** The recursion is as deep as the outline is nested, and no deeper: the
    depth of the value bounds it (see [find_symbol_location_fuel]). *)
Definition _find_symbol_location (symbols : json) (symbol_name : string)
  (file_uri : json) : outcome json :=
  find_symbol_location_at (S (depth symbols)) symbols symbol_name file_uri.

Definition _is_empty_definition_result (result : json) : bool :=
  match result with
  | JNull => true
  | JArr [] => true
  | _ => false
  end.

(* ===================================================================== *)
(** * [pathlib] paths and the platform *)
(* ===================================================================== *)

Module Pathlib.

(** A parsed path: drive, root and the components after them. *)
Record PurePath := mkPath { drive : string; root : string; tail : list string }.

(** [p.parent]: the path itself when there is no component left. *)
Definition parent (p : PurePath) : PurePath :=
  match tail p with
  | [] => p
  | _ => mkPath (drive p) (root p) (removelast (tail p))
  end.

(** [p / name] for a single relative component. *)
Definition joinpath (p : PurePath) (name : string) : PurePath :=
  mkPath (drive p) (root p) (tail p ++ [name]).

(** [p.name]. *)
Definition name (p : PurePath) : string := List.last (tail p) "".

Fixpoint parts_eqb (a b : list string) : bool :=
  match a, b with
  | [], [] => true
  | x :: a', y :: b' => String.eqb x y && parts_eqb a' b'
  | _, _ => false
  end.

(** [p == q]. *)
Definition eqb (p q : PurePath) : bool :=
  String.eqb (drive p) (drive q) && String.eqb (root p) (root q)
  && parts_eqb (tail p) (tail q).

End Pathlib.
Export Pathlib.

(** What the wrapper asks of the operating system and of library code
    that is not modelled further.  The file system is read, never written,
    by the code modelled here. *)
Record Platform := {
  is_windows : bool;                       (* platform.system() == "Windows" *)
  unquote : string -> string;              (* urllib.parse.unquote *)
  Path : string -> PurePath;               (* Path(s) *)
  str : PurePath -> string;                (* str(p) *)
  is_absolute : PurePath -> bool;          (* p.is_absolute() *)
  uri_text : PurePath -> string;           (* p.as_uri() of an absolute p *)
  exists_ : PurePath -> bool;              (* p.exists() *)
  read_text : PurePath -> option string;   (* open(p).read(); None: it raises *)
  resolve : PurePath -> PurePath;          (* p.resolve() *)
  getpid : Z;                              (* os.getpid() *)
  cwd : PurePath;                          (* Path.cwd() *)
  glob : PurePath -> string -> list PurePath;   (* list(p.glob(pattern)) *)
  find_call_hierarchy_executable : option string
}.

(** [p.as_uri()]: a relative path has no file URI. *)
Definition as_uri (os : Platform) (p : PurePath) : outcome string :=
  if is_absolute os p then Ok (uri_text os p) else Raise ValueError.

Definition inspect {A} (a : A) : {b : A | a = b} := exist _ a eq_refl.

(** The [while current != current.parent] loop of [find_project_for_file]:
    it stops, with no project, at the path that is its own parent. *)
Equations? walk_up (os : Platform) (current : PurePath) : option string
  by wf (length (tail current)) lt :=
walk_up os current with inspect (Pathlib.eqb current (parent current)) => {
  | exist _ true _ => None
  | exist _ false Hne =>
      if exists_ os (joinpath current "app.json") then Some (str os current)
      else walk_up os (parent current) }.
Proof.
  destruct current as [d r [|x t]]; unfold parent in *; cbn [tail] in *.
  - unfold Pathlib.eqb in Hne; cbn in Hne.
    rewrite !String.eqb_refl in Hne. discriminate.
  - rewrite removelast_firstn_len, length_firstn. simpl. lia.
Qed.

(** [find_project_for_file(file_path)]: the walk starts at the directory
    of the file. *)
Definition find_project_for_file (os : Platform) (file_path : string) : option string :=
  walk_up os (parent (Path os file_path)).

(* ===================================================================== *)
(** * Child processes, the wrapper's state, and the monad *)
(* ===================================================================== *)

(** A child process seen through its pipes.  [stdin] is what has been
    written to it, oldest first.  [stdout] is the script of what it will
    deliver, one entry per frame read: the parsed body, or [JNull] for a
    read that ends with [None] (no Content-Length, a body that is not
    JSON, a timeout); when the script is used up the stream is at its end
    and every read gives [None].  [writes_left] is the number of writes
    that will still succeed, [None] when the pipe never breaks. *)
Record Process := {
  stdin : list json;
  stdout : list json;
  writes_left : option nat;
  running : bool                         (* process.poll() is None *)
}.

(** [stdin.write(...); stdin.flush()]; [None] when the pipe is broken. *)
Definition write_to (msg : json) (p : Process) : option Process :=
  match writes_left p with
  | Some O => None
  | Some (S n) =>
      Some {| stdin := stdin p ++ [msg]; stdout := stdout p;
              writes_left := Some n; running := running p |}
  | None =>
      Some {| stdin := stdin p ++ [msg]; stdout := stdout p;
              writes_left := None; running := running p |}
  end.

Definition with_stdout (out : list json) (p : Process) : Process :=
  {| stdin := stdin p; stdout := out;
     writes_left := writes_left p; running := running p |}.

(** One frame read from the child. *)
Definition read_from (p : Process) : json * Process :=
  match stdout p with
  | [] => (JNull, p)
  | m :: rest => (m, with_stdout rest p)
  end.

(** The [CallHierarchyServer] object. *)
Record CallHierarchyServer := {
  ch_process : option Process;
  ch_request_id : Z;
  ch_initialized : bool;
  ch_root_uri : option string
}.

(** The [ALLSPWrapper] object and the oracles of the outside world:
    [clock] answers the successive deadline tests
    [time.time() - start < timeout] (after the list the deadline has
    passed), and [spawn] is what starting the call-hierarchy executable
    gives ([None]: [Popen] raises).  The AL server has been started, as
    [main] does before it reads the first request. *)
Record World := {
  process : Process;
  request_id : Z;
  initialized : bool;
  root_path : option string;
  root_uri : json;
  workspace_root : json;
  opened_files : list string;
  initialized_projects : list string;
  call_hierarchy_server : option CallHierarchyServer;
  clock : list bool;
  spawn : option Process
}.

Definition set_process (p : Process) (w : World) : World :=
  {| process := p; request_id := request_id w; initialized := initialized w;
     root_path := root_path w; root_uri := root_uri w;
     workspace_root := workspace_root w; opened_files := opened_files w;
     initialized_projects := initialized_projects w;
     call_hierarchy_server := call_hierarchy_server w;
     clock := clock w; spawn := spawn w |}.

Definition set_request_id (n : Z) (w : World) : World :=
  {| process := process w; request_id := n; initialized := initialized w;
     root_path := root_path w; root_uri := root_uri w;
     workspace_root := workspace_root w; opened_files := opened_files w;
     initialized_projects := initialized_projects w;
     call_hierarchy_server := call_hierarchy_server w;
     clock := clock w; spawn := spawn w |}.

Definition set_opened_files (l : list string) (w : World) : World :=
  {| process := process w; request_id := request_id w; initialized := initialized w;
     root_path := root_path w; root_uri := root_uri w;
     workspace_root := workspace_root w; opened_files := l;
     initialized_projects := initialized_projects w;
     call_hierarchy_server := call_hierarchy_server w;
     clock := clock w; spawn := spawn w |}.

Definition set_initialized_projects (l : list string) (w : World) : World :=
  {| process := process w; request_id := request_id w; initialized := initialized w;
     root_path := root_path w; root_uri := root_uri w;
     workspace_root := workspace_root w; opened_files := opened_files w;
     initialized_projects := l;
     call_hierarchy_server := call_hierarchy_server w;
     clock := clock w; spawn := spawn w |}.

Definition set_call_hierarchy_server (s : option CallHierarchyServer) (w : World) : World :=
  {| process := process w; request_id := request_id w; initialized := initialized w;
     root_path := root_path w; root_uri := root_uri w;
     workspace_root := workspace_root w; opened_files := opened_files w;
     initialized_projects := initialized_projects w;
     call_hierarchy_server := s;
     clock := clock w; spawn := spawn w |}.

Definition set_clock (c : list bool) (w : World) : World :=
  {| process := process w; request_id := request_id w; initialized := initialized w;
     root_path := root_path w; root_uri := root_uri w;
     workspace_root := workspace_root w; opened_files := opened_files w;
     initialized_projects := initialized_projects w;
     call_hierarchy_server := call_hierarchy_server w;
     clock := c; spawn := spawn w |}.

Definition set_roots (root_path_ : option string) (root_uri_ workspace_root_ : json)
  (w : World) : World :=
  {| process := process w; request_id := request_id w; initialized := initialized w;
     root_path := root_path_; root_uri := root_uri_;
     workspace_root := workspace_root_; opened_files := opened_files w;
     initialized_projects := initialized_projects w;
     call_hierarchy_server := call_hierarchy_server w;
     clock := clock w; spawn := spawn w |}.

Definition set_initialized (b : bool) (w : World) : World :=
  {| process := process w; request_id := request_id w; initialized := b;
     root_path := root_path w; root_uri := root_uri w;
     workspace_root := workspace_root w; opened_files := opened_files w;
     initialized_projects := initialized_projects w;
     call_hierarchy_server := call_hierarchy_server w;
     clock := clock w; spawn := spawn w |}.

(** A method of the wrapper: it reads and updates the state, and returns
    or raises.  The state changes made before an exception stay. *)
Definition State (S A : Type) : Type := S -> outcome A * S.
Definition M : Type -> Type := State World.

Definition ret {S A} (a : A) : State S A := fun w => (Ok a, w).
Definition raise {S A} (e : exn) : State S A := fun w => (Raise e, w).
Definition lift {S A} (x : outcome A) : State S A := fun w => (x, w).

Definition bind {S A B} (m : State S A) (f : A -> State S B) : State S B :=
  fun w =>
    match m w with
    | (Ok a, w') => f a w'
    | (Raise e, w') => (Raise e, w')
    end.

(** [try: body  except Exception: handler]. *)
Definition try_except {S A} (body handler : State S A) : State S A :=
  fun w =>
    match body w with
    | (Ok a, w') => (Ok a, w')
    | (Raise _, w') => handler w'
    end.

Declare Scope wrapper_scope.
Delimit Scope wrapper_scope with wrapper.
Notation "x <- m ;; k" := (bind m (fun x => k))
  (at level 61, m at next level, right associativity) : wrapper_scope.
Notation "m ;; k" := (bind m (fun _ => k))
  (at level 61, right associativity) : wrapper_scope.
Open Scope wrapper_scope.

(** Membership in and addition to a [set] of strings. *)
Definition mem (x : string) (l : list string) : bool := existsb (String.eqb x) l.
Definition add (x : string) (l : list string) : list string :=
  if mem x l then l else l ++ [x].

(* ===================================================================== *)
(** * [ALLSPWrapper]: messages to and from the AL server *)
(* ===================================================================== *)

Definition jtrue : json := JBool true.
Definition jfalse : json := JBool false.

Definition send_message (msg : json) : M unit :=
  fun w =>
    match write_to msg (process w) with
    | Some p => (Ok tt, set_process p w)
    | None => (Raise BrokenPipeError, w)
    end.

Definition read_message : M json :=
  fun w => let (m, p) := read_from (process w) in (Ok m, set_process p w).

(** The [while True] loop of [send_request] over the frames to come: each
    step is one [read_message].  [None] ends the wait; a response with the
    awaited id is returned; any other object is passed over (a
    notification is logged by [handle_notification], which changes no
    state); [response.get] raises on a value that is not an object. *)
Fixpoint await_response (rid : Z) (script : list json)
  : outcome (option dict) * list json :=
  match script with
  | [] => (Ok None, [])
  | response :: rest =>
      match response with
      | JNull => (Ok None, rest)
      | JObj d =>
          if Py.eq_int (Py.get_none "id" d) rid then (Ok (Some d), rest)
          else await_response rid rest
      | _ => (Raise AttributeError, rest)
      end
  end.

Definition send_request (method params : json) : M (option dict) :=
  fun w =>
    let w := set_request_id (request_id w + 1)%Z w in
    let request :=
      JObj [("jsonrpc", JStr "2.0"); ("id", JInt (request_id w));
            ("method", method); ("params", params)] in
    (send_message request ;;
     fun w =>
       let (r, rest) := await_response (request_id w) (stdout (process w)) in
       (r, set_process (with_stdout rest (process w)) w)) w.

Definition send_notification (method params : json) : M unit :=
  send_message (JObj [("jsonrpc", JStr "2.0"); ("method", method); ("params", params)]).

(** [response and "result" in response] for what [send_request] returns. *)
Definition has_result (response : option dict) : bool :=
  match response with
  | Some d => Py.truthy (JObj d) && Py.has_key "result" d
  | None => false
  end.

(* ===================================================================== *)
(** * [ALLSPWrapper]: projects and documents *)
(* ===================================================================== *)

Section Wrapper.

Variable os : Platform.

Definition _uri_to_path (uri : string) : string :=
  let file_path := PyStr.replace "file://" "" (PyStr.replace "file:///" "" uri) in
  let file_path := unquote os file_path in
  if is_windows os && PyStr.startswith "/" file_path
  then PyStr.slice (Some 1%Z) None file_path
  else file_path.

Definition _ensure_file_opened (uri : string) : M unit :=
  fun w =>
    if mem uri (opened_files w) then (Ok tt, w)
    else
      let file_path := _uri_to_path uri in
      try_except
        (content <- (match read_text os (Path os file_path) with
                     | Some text => ret text
                     | None => raise OSError
                     end) ;;
         send_notification (JStr "textDocument/didOpen")
           (JObj [("textDocument",
                   JObj [("uri", JStr uri); ("languageId", JStr "al");
                         ("version", JInt 1); ("text", JStr content)])]) ;;
         fun w => (Ok tt, set_opened_files (add uri (opened_files w)) w))
        (ret tt) w.

(** The settings of the [workspace/didChangeConfiguration] notification. *)
Definition configuration (workspace_path : string) : json :=
  JObj [("settings",
    JObj [("workspacePath", JStr workspace_path);
          ("alResourceConfigurationSettings",
           JObj [("assemblyProbingPaths", JArr [JStr "./.netpackages"]);
                 ("codeAnalyzers", JArr []);
                 ("enableCodeAnalysis", jfalse);
                 ("backgroundCodeAnalysis", JStr "Project");
                 ("packageCachePaths", JArr [JStr "./.alpackages"]);
                 ("ruleSetPath", JNull);
                 ("enableCodeActions", jtrue);
                 ("incrementalBuild", jfalse);
                 ("outputAnalyzerStatistics", jtrue);
                 ("enableExternalRulesets", jtrue)]);
          ("setActiveWorkspace", jtrue);
          ("expectedProjectReferenceDefinitions", JArr []);
          ("activeWorkspaceClosure", JArr [JStr workspace_path])])].

(** Opening [app.json] of a project: the [if app_json_path.exists(): try:
    ... except] block shared by [_ensure_project_initialized] and
    [_post_initialize]. *)
Definition open_manifest (project_root : string) : M unit :=
  let app_json_path := joinpath (Path os project_root) "app.json" in
  if exists_ os app_json_path then
    try_except
      (app_json_content <- (match read_text os app_json_path with
                            | Some text => ret text
                            | None => raise OSError
                            end) ;;
       uri <- lift (as_uri os app_json_path) ;;
       send_notification (JStr "textDocument/didOpen")
         (JObj [("textDocument",
                 JObj [("uri", JStr uri); ("languageId", JStr "json");
                       ("version", JInt 1); ("text", JStr app_json_content)])]))
      (ret tt)
  else ret tt.

(** The [try: ... self.send_request("al/setActiveWorkspace", ...) except]
    block shared by the same two methods. *)
Definition set_active_workspace (project_root : string) : M unit :=
  try_except
    (workspace_uri <- lift (as_uri os (resolve os (Path os project_root))) ;;
     send_request (JStr "al/setActiveWorkspace")
       (JObj [("currentWorkspaceFolderPath",
               JObj [("uri", JStr workspace_uri);
                     ("name", JStr (Pathlib.name (Path os project_root)));
                     ("index", JInt 0)]);
              ("settings",
               JObj [("workspacePath", JStr project_root);
                     ("setActiveWorkspace", jtrue)])]) ;;
     ret tt)
    (ret tt).

(** The project root a file belongs to, as [_ensure_project_initialized]
    records it: [str(Path(find_project_for_file(...)).resolve())]. *)
Definition resolved_project_root (file_uri : string) : option string :=
  match find_project_for_file os (_uri_to_path file_uri) with
  | Some project_root =>
      if PyStr.truthy project_root
      then Some (str os (resolve os (Path os project_root)))
      else None
  | None => None
  end.

Definition _ensure_project_initialized (file_uri : json) : M (option string) :=
  file_uri <- lift (as_str file_uri) ;;
  match resolved_project_root file_uri with
  | None => ret None
  | Some project_root =>
      fun w =>
        if mem project_root (initialized_projects w) then (Ok (Some project_root), w)
        else
          (send_notification (JStr "workspace/didChangeConfiguration")
             (configuration project_root) ;;
           open_manifest project_root ;;
           set_active_workspace project_root ;;
           (fun w => (Ok (Some project_root),
                      set_initialized_projects
                        (add project_root (initialized_projects w)) w))) w
  end.

Definition check_project_loaded : M json :=
  try_except
    (response <- send_request (JStr "al/hasProjectClosureLoadedRequest") (JObj []) ;;
     match response with
     | Some d =>
         if has_result response then
           match Py.get_none "result" d with
           | JBool b => ret (JBool b)
           | JObj result => ret (Py.get_default "loaded" jfalse result)
           | JNull => ret jtrue
           | _ => ret jfalse
           end
         else ret jfalse
     | None => ret jfalse
     end)
    (ret jtrue).

(** [_wait_for_project_load]: one answer of the clock for each test of the
    [while] condition; [time.sleep] changes nothing else. *)
Fixpoint wait_loop (answers : list bool) (w : World) : outcome bool * World :=
  match answers with
  | [] => (Ok false, set_clock [] w)
  | false :: later => (Ok false, set_clock later w)
  | true :: later =>
      match check_project_loaded (set_clock later w) with
      | (Ok loaded, w') => if Py.truthy loaded then (Ok true, w') else wait_loop later w'
      | (Raise e, w') => (Raise e, w')
      end
  end.

Definition _wait_for_project_load : M bool := fun w => wait_loop (clock w) w.

(* ===================================================================== *)
(** * [ALLSPWrapper]: the request handlers *)
(* ===================================================================== *)

Definition _try_document_symbol_fallback (params : json) : M json :=
  try_except
    (text_document <- lift (subscript "textDocument" params) ;;
     position <- lift (subscript "position" params) ;;
     let hover_params := JObj [("textDocument", text_document); ("position", position)] in
     hover_response <- send_request (JStr "textDocument/hover") hover_params ;;
     if negb (has_result hover_response) then ret JNull
     else
       let hover_result :=
         match hover_response with Some d => Py.get_none "result" d | None => JNull end in
       if negb (Py.truthy hover_result) then ret JNull
       else
         symbol_name <- lift (_extract_symbol_from_hover hover_result) ;;
         if negb (PyStr.truthy symbol_name) then ret JNull
         else
           let doc_symbol_params := JObj [("textDocument", text_document)] in
           symbols_response <-
             send_request (JStr "textDocument/documentSymbol") doc_symbol_params ;;
           if negb (has_result symbols_response) then ret JNull
           else
             let symbols :=
               match symbols_response with Some d => Py.get_none "result" d | None => JNull end in
             if negb (Py.truthy symbols) then ret JNull
             else
               uri <- lift (subscript "uri" text_document) ;;
               location <- lift (_find_symbol_location symbols symbol_name uri) ;;
               if Py.truthy location then ret location else ret JNull)
    (ret JNull).

(** [self.send_request(method, params) or {}]. *)
Definition or_empty (response : option dict) : dict :=
  match response with
  | Some d => d
  | None => []
  end.

(** [uri = params["textDocument"]["uri"]]. *)
Definition document_uri (params : json) : outcome json :=
  let! text_document := subscript "textDocument" params in
  subscript "uri" text_document.

Definition handle_definition (params : json) : M dict :=
  uri <- lift (document_uri params) ;;
  _ensure_project_initialized uri ;;
  uri_text <- lift (as_str uri) ;;
  _ensure_file_opened uri_text ;;
  attempt <- try_except
    (text_document <- lift (subscript "textDocument" params) ;;
     position <- lift (subscript "position" params) ;;
     let al_params :=
       JObj [("textDocumentPositionParams",
              JObj [("textDocument", text_document); ("position", position)])] in
     response <- send_request (JStr "al/gotodefinition") al_params ;;
     match response with
     | Some d =>
         if has_result response then
           let result := Py.get_none "result" d in
           if negb (_is_empty_definition_result result) then ret (Some d)
           else
             fallback_location <- _try_document_symbol_fallback params ;;
             if Py.truthy fallback_location
             then ret (Some [("jsonrpc", JStr "2.0"); ("result", fallback_location)])
             else ret (Some d)
         else ret None
     | None => ret None
     end)
    (ret None) ;;
  match attempt with
  | Some response => ret response
  | None =>
      response <- send_request (JStr "textDocument/definition") params ;;
      ret (or_empty response)
  end.

Definition handle_hover (params : json) : M dict :=
  uri <- lift (document_uri params) ;;
  _ensure_project_initialized uri ;;
  uri_text <- lift (as_str uri) ;;
  _ensure_file_opened uri_text ;;
  response <- send_request (JStr "textDocument/hover") params ;;
  ret (or_empty response).

Definition handle_document_symbol (params : json) : M dict :=
  uri <- lift (document_uri params) ;;
  _ensure_project_initialized uri ;;
  uri_text <- lift (as_str uri) ;;
  _ensure_file_opened uri_text ;;
  response <- send_request (JStr "textDocument/documentSymbol") params ;;
  ret (or_empty response).

Definition handle_references (params : json) : M dict :=
  uri <- lift (document_uri params) ;;
  _ensure_project_initialized uri ;;
  uri_text <- lift (as_str uri) ;;
  _ensure_file_opened uri_text ;;
  response <- send_request (JStr "textDocument/references") params ;;
  ret (or_empty response).

Definition empty_query_message : string :=
  "workspaceSymbol received empty query. This is a known Claude Code LSP tool bug - "
  ++ "the tool doesn't pass the 'query' parameter needed for symbol search. "
  ++ "WORKAROUND: Use 'documentSymbol' to list symbols in a specific file, "
  ++ "or use Grep to search for symbol names across the workspace.".

Definition empty_query_error : dict :=
  [("jsonrpc", JStr "2.0");
   ("error", JObj [("code", JInt (-32602)); ("message", JStr empty_query_message)])].

(** [if not query or not query.strip()]. *)
Definition query_is_empty (query : json) : outcome bool :=
  if negb (Py.truthy query) then Ok true
  else let! text := as_str query in Ok (negb (PyStr.truthy (PyStr.strip text))).

(** ['\\' in query or '/' in query or query.endswith('.al')]. *)
Definition looks_like_path (query : string) : bool :=
  PyStr.contains "\" query || PyStr.contains "/" query || PyStr.endswith ".al" query.

(** The body of the file-path workaround: the name part of
    [ObjectType ObjectId Name.al]. *)
Definition query_from_path (query : string) : string :=
  let filename := PyStr.last_part (PyStr.split "/" None (PyStr.replace "\" "/" query)) in
  let filename :=
    if PyStr.endswith ".al" filename
    then PyStr.slice None (Some (-3)%Z) filename else filename in
  let parts := PyStr.split " " (Some 2) filename in
  if 3 <=? length parts then nth 2 parts "" else filename.

(** [isinstance(result, list) and len(result) > 0]. *)
Definition is_nonempty_list (result : json) : bool :=
  match result with
  | JArr (_ :: _) => true
  | _ => false
  end.

(** [response.get("result") if response else None]. *)
Definition result_of (response : option dict) : json :=
  match response with
  | Some d => if Py.truthy (JObj d) then Py.get_none "result" d else JNull
  | None => JNull
  end.

Definition handle_workspace_symbol (params : json) : M dict :=
  params <- lift (as_dict params) ;;
  let query := Py.get_default "query" (JStr "") params in
  empty <- lift (query_is_empty query) ;;
  if (empty : bool) then ret empty_query_error
  else
    query <- lift (as_str query) ;;
    let query := if looks_like_path query then query_from_path query else query in
    (fun w =>
       match root_path w with
       | Some root =>
           if PyStr.truthy root then
             (root_uri <- lift (as_uri os (Path os root)) ;;
              let dummy_uri := (root_uri ++ "/app.json")%string in
              _ensure_project_initialized (JStr dummy_uri) ;;
              ret tt) w
           else (Ok tt, w)
       | None => (Ok tt, w)
       end) ;;
    _wait_for_project_load ;;
    let search_params := JObj [("query", JStr query)] in
    response <- send_request (JStr "workspace/symbol") search_params ;;
    if is_nonempty_list (result_of response) then ret (or_empty response)
    else
      al_response <- send_request (JStr "al/symbolSearch") (JObj [("query", JStr query)]) ;;
      if is_nonempty_list (result_of al_response) then ret (or_empty al_response)
      else ret [("jsonrpc", JStr "2.0"); ("result", JArr [])].

(* ===================================================================== *)
(** * [CallHierarchyServer] *)
(* ===================================================================== *)

Definition CH : Type -> Type := State CallHierarchyServer.

Definition ch_fresh : CallHierarchyServer :=
  {| ch_process := None; ch_request_id := 0; ch_initialized := false;
     ch_root_uri := None |}.

Definition ch_set_process (p : option Process) (s : CallHierarchyServer) :=
  {| ch_process := p; ch_request_id := ch_request_id s;
     ch_initialized := ch_initialized s; ch_root_uri := ch_root_uri s |}.

Definition ch_set_request_id (n : Z) (s : CallHierarchyServer) :=
  {| ch_process := ch_process s; ch_request_id := n;
     ch_initialized := ch_initialized s; ch_root_uri := ch_root_uri s |}.

Definition ch_set_initialized (b : bool) (s : CallHierarchyServer) :=
  {| ch_process := ch_process s; ch_request_id := ch_request_id s;
     ch_initialized := b; ch_root_uri := ch_root_uri s |}.

Definition ch_set_root_uri (u : option string) (s : CallHierarchyServer) :=
  {| ch_process := ch_process s; ch_request_id := ch_request_id s;
     ch_initialized := ch_initialized s; ch_root_uri := u |}.

Definition ch_is_alive (s : CallHierarchyServer) : bool :=
  match ch_process s with
  | Some p => running p
  | None => false
  end.

(** [start]: [spawned] is what [subprocess.Popen] gives. *)
Definition ch_start (spawned : option Process) : CH bool :=
  fun s =>
    match spawned with
    | Some p => (Ok true, ch_set_process (Some p) s)
    | None => (Ok false, s)
    end.

Definition ch_send_message (msg : json) : CH bool :=
  fun s =>
    match ch_process s with
    | Some p =>
        if running p then
          match write_to msg p with
          | Some p' => (Ok true, ch_set_process (Some p') s)
          | None => (Ok false, s)
          end
        else (Ok false, s)
    | None => (Ok false, s)
    end.

(** [read_message]: every failure, the timeout included, gives [None]. *)
Definition ch_read_message : CH json :=
  fun s =>
    match ch_process s with
    | Some p =>
        if running p then
          let (m, p') := read_from p in (Ok m, ch_set_process (Some p') s)
        else (Ok JNull, s)
    | None => (Ok JNull, s)
    end.

(** [params or {}]. *)
Definition or_empty_params (params : json) : json :=
  if Py.truthy params then params else JObj [].

(** [send_request] of the call-hierarchy server: the next message read is
    the answer, whatever its id. *)
Definition ch_send_request (method params : json) : CH json :=
  fun s =>
    if negb (ch_is_alive s) then (Ok JNull, s)
    else
      let s := ch_set_request_id (ch_request_id s + 1)%Z s in
      let request :=
        JObj [("jsonrpc", JStr "2.0"); ("id", JInt (ch_request_id s));
              ("method", method); ("params", or_empty_params params)] in
      (sent <- ch_send_message request ;;
       if (sent : bool) then ch_read_message else ret JNull) s.

Definition ch_send_notification (method params : json) : CH unit :=
  ch_send_message
    (JObj [("jsonrpc", JStr "2.0"); ("method", method);
           ("params", or_empty_params params)]) ;;
  ret tt.

(** [response and k in response]. *)
Definition truthy_and_has (k : string) (response : json) : outcome bool :=
  if Py.truthy response then py_in k response else Ok false.

(** [if response and "error" in response: log(f"... {response['error']}")]:
    the log line subscripts the response, which only an object allows. *)
Definition log_error (response : json) : outcome unit :=
  let! failed := truthy_and_has "error" response in
  if (failed : bool) then let! _ := subscript "error" response in Ok tt
  else Ok tt.

Definition ch_initialize (root_uri : string) (workspace_folders : json) : CH bool :=
  fun s =>
    if ch_initialized s then (Ok true, s)
    else
      (response <- ch_send_request (JStr "initialize")
         (JObj [("processId", JInt (getpid os)); ("capabilities", JObj []);
                ("rootUri", JStr root_uri); ("workspaceFolders", workspace_folders)]) ;;
       negotiated <- lift (truthy_and_has "result" response) ;;
       if (negotiated : bool) then
         result <- lift (subscript "result" response) ;;
         result <- lift (as_dict result) ;;
         caps <- lift (as_dict (Py.get_default "capabilities" (JObj []) result)) ;;
         if Py.truthy (Py.get_none "callHierarchyProvider" caps) then
           ch_send_notification (JStr "initialized") (JObj []) ;;
           fun s => (Ok true, ch_set_initialized true s)
         else ret false
       else lift (log_error response) ;; ret false)
      (ch_set_root_uri (Some root_uri) s).

Definition ch_request (method params : json) : CH json :=
  fun s =>
    if negb (ch_is_alive s) then (Ok JNull, s)
    else
      (response <- ch_send_request method params ;;
       lift (log_error response) ;;
       ret response) s.

Definition ch_stop : CH unit :=
  fun s =>
    match ch_process s with
    | Some _ => (Ok tt, ch_set_initialized false (ch_set_process None s))
    | None => (Ok tt, s)
    end.

Definition ch_shutdown : CH unit :=
  (fun s =>
     if ch_is_alive s then
       try_except
         (ch_send_request (JStr "shutdown") JNull ;;
          ch_send_notification (JStr "exit") JNull)
         (ret tt) s
     else (Ok tt, s)) ;;
  ch_stop.

(** [a or b] for two optional strings. *)
Definition json_of_option (a : option string) : json :=
  match a with
  | Some s => JStr s
  | None => JNull
  end.

(** [Path(v)]: only a string is a path. *)
Definition path_arg (v : json) : outcome string :=
  match v with
  | JStr s => Ok s
  | _ => Raise TypeError
  end.

Definition _start_call_hierarchy_server : M unit :=
  fun w =>
    match find_call_hierarchy_executable os with
    | None => (Ok tt, w)
    | Some call_hierarchy_exe =>
        if negb (PyStr.truthy call_hierarchy_exe) then (Ok tt, w)
        else
          match ch_start (spawn w) ch_fresh with
          | (Ok true, server) =>
              let w := set_call_hierarchy_server (Some server) w in
              let workspace_path :=
                if Py.truthy (workspace_root w) then workspace_root w
                else json_of_option (root_path w) in
              if Py.truthy workspace_path then
                match (let! path := path_arg workspace_path in
                       let! workspace_uri := as_uri os (Path os path) in
                       Ok (workspace_uri, Pathlib.name (Path os path))) with
                | Ok (workspace_uri, workspace_name) =>
                    let workspace_folders :=
                      JArr [JObj [("uri", JStr workspace_uri);
                                  ("name", JStr workspace_name)]] in
                    match ch_initialize workspace_uri workspace_folders server with
                    | (Ok true, server) =>
                        (Ok tt, set_call_hierarchy_server (Some server) w)
                    | (Ok false, server) =>
                        match ch_shutdown server with
                        | (Ok _, _) => (Ok tt, set_call_hierarchy_server None w)
                        | (Raise e, server) =>
                            (Raise e, set_call_hierarchy_server (Some server) w)
                        end
                    | (Raise e, server) =>
                        (Raise e, set_call_hierarchy_server (Some server) w)
                    end
                | Raise e => (Raise e, w)
                end
              else (Ok tt, w)
          | (_, _) => (Ok tt, set_call_hierarchy_server None w)
          end
    end.

(* ===================================================================== *)
(** * [ALLSPWrapper]: [initialize] and the router *)
(* ===================================================================== *)

(** ["/".join(["*"] * depth) + "/app.json"]. *)
Definition manifest_pattern (depth : nat) : string :=
  (PyStr.join "/" (repeat "*" depth) ++ "/app.json")%string.

(** The [for depth in range(1, max_depth + 1)] loop of [find_al_project]. *)
Fixpoint search_down (start : PurePath) (depth remaining : nat) : option string :=
  match remaining with
  | O => None
  | S remaining' =>
      match glob os start (manifest_pattern depth) with
      | found :: _ => Some (str os (parent found))
      | [] => search_down start (S depth) remaining'
      end
  end.

Definition find_al_project (start_path : string) (max_depth : nat) : option string :=
  let start := Path os start_path in
  if negb (exists_ os start) then None
  else if exists_ os (joinpath start "app.json") then Some (str os start)
  else search_down start 1 max_depth.

(** [list(range(1, 27))]. *)
Definition symbol_kinds : json := JArr (map (fun n => JInt (Z.of_nat n)) (seq 1 26)).

Definition dynamic : json := JObj [("dynamicRegistration", jtrue)].

Definition client_capabilities : json :=
  JObj [
    ("workspace", JObj [
       ("applyEdit", jtrue);
       ("workspaceEdit", JObj [
          ("documentChanges", jtrue);
          ("resourceOperations", JArr [JStr "create"; JStr "rename"; JStr "delete"]);
          ("failureHandling", JStr "textOnlyTransactional");
          ("normalizesLineEndings", jtrue)]);
       ("configuration", jtrue);
       ("didChangeWatchedFiles", dynamic);
       ("symbol", JObj [("dynamicRegistration", jtrue);
                        ("symbolKind", JObj [("valueSet", symbol_kinds)])]);
       ("executeCommand", dynamic);
       ("didChangeConfiguration", dynamic);
       ("workspaceFolders", jtrue)]);
    ("textDocument", JObj [
       ("synchronization", JObj [
          ("dynamicRegistration", jtrue); ("willSave", jtrue);
          ("willSaveWaitUntil", jtrue); ("didSave", jtrue)]);
       ("completion", JObj [
          ("dynamicRegistration", jtrue); ("contextSupport", jtrue);
          ("completionItem", JObj [
             ("snippetSupport", jtrue); ("commitCharactersSupport", jtrue);
             ("documentationFormat", JArr [JStr "markdown"; JStr "plaintext"]);
             ("deprecatedSupport", jtrue); ("preselectSupport", jtrue)])]);
       ("hover", JObj [("dynamicRegistration", jtrue);
                       ("contentFormat", JArr [JStr "markdown"; JStr "plaintext"])]);
       ("definition", JObj [("dynamicRegistration", jtrue); ("linkSupport", jtrue)]);
       ("references", dynamic);
       ("documentHighlight", dynamic);
       ("documentSymbol", JObj [
          ("dynamicRegistration", jtrue);
          ("symbolKind", JObj [("valueSet", symbol_kinds)]);
          ("hierarchicalDocumentSymbolSupport", jtrue)]);
       ("codeAction", dynamic);
       ("formatting", dynamic);
       ("rangeFormatting", dynamic);
       ("rename", JObj [("dynamicRegistration", jtrue); ("prepareSupport", jtrue)])]);
    ("window", JObj [
       ("showMessage", JObj [("messageActionItem",
                              JObj [("additionalPropertiesSupport", jtrue)])]);
       ("showDocument", JObj [("support", jtrue)]);
       ("workDoneProgress", jtrue)])].

(** [self.root_path] as a condition: set and not empty. *)
Definition root_path_set (w : World) : option string :=
  match root_path w with
  | Some root => if PyStr.truthy root then Some root else None
  | None => None
  end.

Definition _build_initialize_params (original_params : dict) : M json :=
  fun w =>
    let root_path :=
      match root_path_set w with
      | Some root => resolve os (Path os root)
      | None => cwd os
      end in
    (root_uri <- lift (as_uri os root_path) ;;
     ret (JObj [("processId", JInt (getpid os));
                ("rootPath", JStr (str os root_path));
                ("rootUri", JStr root_uri);
                ("capabilities", client_capabilities);
                ("trace", JStr "verbose");
                ("workspaceFolders",
                 JArr [JObj [("uri", JStr root_uri);
                             ("name", JStr (Pathlib.name root_path))]])])) w.

Definition _post_initialize : M unit :=
  fun w =>
    match root_path_set w with
    | None => (Ok tt, w)
    | Some root =>
        (send_notification (JStr "workspace/didChangeConfiguration")
           (configuration root) ;;
         open_manifest root ;;
         set_active_workspace root ;;
         _wait_for_project_load ;;
         (fun w =>
            let normalized_path := str os (resolve os (Path os root)) in
            (Ok tt, set_initialized_projects
                      (add normalized_path (initialized_projects w)) w)) ;;
         _start_call_hierarchy_server) w
    end.

(** [params.get("rootPath") or
     params.get("rootUri", "").replace("file:///", "").replace("file://", "")] *)
Definition requested_root (params : dict) : outcome json :=
  let root_path := Py.get_none "rootPath" params in
  if Py.truthy root_path then Ok root_path
  else
    let! root_uri := as_str (Py.get_default "rootUri" (JStr "") params) in
    Ok (JStr (PyStr.replace "file://" "" (PyStr.replace "file:///" "" root_uri))).

(** The string stored in [self.root_path]: at that point of [initialize]
    the requested root is a string. *)
Definition string_of (v : json) : option string :=
  match v with
  | JStr s => Some s
  | _ => None
  end.

Definition initialize (params : json) : M dict :=
  params <- lift (as_dict params) ;;
  requested <- lift (requested_root params) ;;
  (fun w => (Ok tt, set_roots (root_path w) (root_uri w) requested w)) ;;
  al_project <-
    (if Py.truthy requested
     then start_path <- lift (path_arg requested) ;;
          ret (find_al_project start_path 5)
     else ret None) ;;
  (match (match al_project with
          | Some project => if PyStr.truthy project then Some project else None
          | None => None
          end) with
   | Some project =>
       (fun w => (Ok tt, set_roots (Some project) (root_uri w) (workspace_root w) w)) ;;
       uri <- lift (as_uri os (Path os project)) ;;
       (fun w => (Ok tt, set_roots (root_path w) (JStr uri) (workspace_root w) w))
   | None =>
       (fun w => (Ok tt, set_roots (string_of requested)
                           (Py.get_none "rootUri" params) (workspace_root w) w)) ;;
       (fun w =>
          match root_path_set w with
          | Some root =>
              if negb (Py.truthy (root_uri w)) then
                (uri <- lift (as_uri os (Path os root)) ;;
                 fun w => (Ok tt, set_roots (root_path w) (JStr uri) (workspace_root w) w)) w
              else (Ok tt, w)
          | None => (Ok tt, w)
          end)
   end) ;;
  al_params <- _build_initialize_params params ;;
  response <- send_request (JStr "initialize") al_params ;;
  (if has_result response then
     (fun w => (Ok tt, set_initialized true w)) ;;
     send_notification (JStr "initialized") (JObj []) ;;
     _post_initialize
   else ret tt) ;;
  ret (match response with
       | Some (field :: fields) => field :: fields
       | _ => [("jsonrpc", JStr "2.0"); ("id", Py.get_default "id" (JInt 0) params);
               ("result", JObj [])]
       end).

(** [if response: response["id"] = request_id], then [return response]. *)
Definition with_id (request_id : json) (response : dict) : dict :=
  match response with
  | [] => []
  | _ => Py.set_item "id" request_id response
  end.

Definition call_hierarchy_methods : list string :=
  ["textDocument/prepareCallHierarchy"; "callHierarchy/incomingCalls";
   "callHierarchy/outgoingCalls"].

Definition call_hierarchy_unavailable (request_id : json) : json :=
  JObj [("jsonrpc", JStr "2.0"); ("id", request_id);
        ("error", JObj [("code", JInt (-32601));
                        ("message", JStr "Call hierarchy server not available")])].

(** The call-hierarchy branch of [process_request]. *)
Definition route_call_hierarchy (method params request_id : json) : M json :=
  fun w =>
    match call_hierarchy_server w with
    | Some server =>
        if ch_initialized server then
          match ch_request method params server with
          | (Ok response, server) =>
              let w := set_call_hierarchy_server (Some server) w in
              if Py.truthy response then
                match response with
                | JObj d => (Ok (JObj (Py.set_item "id" request_id d)), w)
                | _ => (Raise TypeError, w)
                end
              else (Ok (JObj [("jsonrpc", JStr "2.0"); ("id", request_id);
                              ("result", JNull)]), w)
          | (Raise e, server) => (Raise e, set_call_hierarchy_server (Some server) w)
          end
        else (Ok (call_hierarchy_unavailable request_id), w)
    | None => (Ok (call_hierarchy_unavailable request_id), w)
    end.

(** [process_request]: the response to write to the client, [JNull] when
    there is none. *)
Definition process_request (request : json) : M json :=
  request <- lift (as_dict request) ;;
  let method := Py.get_default "method" (JStr "") request in
  let params := Py.get_default "params" (JObj []) request in
  let request_id := Py.get_none "id" request in
  if is_str "initialize" method then
    response <- initialize params ;; ret (JObj (with_id request_id response))
  else if is_str "textDocument/definition" method then
    response <- handle_definition params ;; ret (JObj (with_id request_id response))
  else if is_str "textDocument/documentSymbol" method then
    response <- handle_document_symbol params ;; ret (JObj (with_id request_id response))
  else if is_str "textDocument/hover" method then
    response <- handle_hover params ;; ret (JObj (with_id request_id response))
  else if is_str "workspace/symbol" method then
    response <- handle_workspace_symbol params ;; ret (JObj (with_id request_id response))
  else if is_str "textDocument/references" method then
    response <- handle_references params ;; ret (JObj (with_id request_id response))
  else if is_str "initialized" method then
    send_notification method params ;; ret JNull
  else if existsb (fun m => is_str m method) call_hierarchy_methods then
    route_call_hierarchy method params request_id
  else
    match request_id with
    | JNull => send_notification method params ;; ret JNull
    | _ =>
        response <- send_request method params ;;
        ret (match response with
             | Some (field :: fields) =>
                 JObj (Py.set_item "id" request_id (field :: fields))
             | _ => JObj [("jsonrpc", JStr "2.0"); ("id", request_id); ("result", JNull)]
             end)
    end.

End Wrapper.

(* ===================================================================== *)
(** * A POSIX platform over a finite file system *)
(* ===================================================================== *)

(** The instance the examples run on: [pathlib]'s POSIX flavour over a
    file system given as the list of its regular files (absolute path and
    text), with no symbolic links.  [unquote] and the quoting done by
    [as_uri] are the identity, which is what they are on paths made of
    letters, digits, dots and slashes. *)
Module Posix.

(** [PurePosixPath(s)]: the root is [/], or [//] for exactly two leading
    slashes; empty components and [.] are dropped. *)
Definition parse (s : string) : PurePath :=
  let root :=
    if PyStr.startswith "/" s then
      if PyStr.startswith "//" s && negb (PyStr.startswith "///" s) then "//" else "/"
    else EmptyString in
  let keep (part : string) := negb (String.eqb part EmptyString || String.eqb part ".") in
  mkPath EmptyString root (filter keep (PyStr.split "/" None s)).

Definition render (p : PurePath) : string :=
  match drive p, root p, tail p with
  | EmptyString, EmptyString, [] => "."
  | d, r, t => (d ++ r ++ PyStr.join "/" t)%string
  end.

Definition absolute (p : PurePath) : bool := PyStr.truthy (root p).

Fixpoint is_prefix (a b : list string) : bool :=
  match a, b with
  | [], _ => true
  | x :: a', y :: b' => String.eqb x y && is_prefix a' b'
  | _ :: _, [] => false
  end.

Section Files.

Variable files : list (string * string).
Variable working_directory : PurePath.

Definition locate (p : PurePath) : PurePath :=
  if absolute p then p
  else mkPath (drive working_directory) (root working_directory)
         (tail working_directory ++ tail p).

(** A path exists when it is a file or a directory above one. *)
Definition present (p : PurePath) : bool :=
  existsb (fun f => is_prefix (tail (locate p)) (tail (parse (fst f)))) files.

Definition text_of (p : PurePath) : option string :=
  match List.find (fun f => Pathlib.eqb (parse (fst f)) (locate p)) files with
  | Some f => Some (snd f)
  | None => None
  end.

(** [start.glob("*/.../app.json")]: the manifests [depth] directories
    below [start], [depth] being the number of stars of the pattern.  Each
    is [start] joined with what was matched, so relative when [start]
    is. *)
Definition stars (pattern : string) : nat :=
  length (filter (String.eqb "*") (PyStr.split "/" None pattern)).

Definition manifests_below (start : PurePath) (pattern : string) : list PurePath :=
  map
    (fun p =>
       mkPath (drive start) (root start)
         (tail start ++ skipn (length (tail (locate start))) (tail p)))
    (filter
       (fun p =>
          is_prefix (tail (locate start)) (tail p)
          && (length (tail p) =? length (tail (locate start)) + stars pattern + 1)
          && String.eqb (Pathlib.name p) "app.json")
       (map (fun f => parse (fst f)) files)).

Definition platform (call_hierarchy_exe : option string) : Platform :=
  {| is_windows := false;
     unquote := fun s => s;
     Path := parse;
     str := render;
     is_absolute := absolute;
     uri_text := fun p => ("file://" ++ render p)%string;
     exists_ := present;
     read_text := text_of;
     resolve := locate;
     getpid := 4242%Z;
     cwd := working_directory;
     glob := manifests_below;
     find_call_hierarchy_executable := call_hierarchy_exe |}.

End Files.

End Posix.

(* ===================================================================== *)
(** * Words of the specification *)
(* ===================================================================== *)

(** A readiness result that is neither a boolean, an object nor null. *)
Definition other_shape (v : json) : Prop :=
  match v with
  | JInt _ | JFloat _ | JStr _ | JArr _ => True
  | _ => False
  end.

(** A query that is empty or consists only of white space. *)
Definition blank (query : string) : Prop :=
  forall c, In c (list_ascii_of_string query) -> PyStr.isspace c = true.

(** The call-hierarchy server is absent or has not completed its
    handshake. *)
Definition call_hierarchy_unavailable_in (w : World) : Prop :=
  match call_hierarchy_server w with
  | None => True
  | Some server => ch_initialized server = false
  end.








(** From [w] to [w'] the wrapper wrote to the AL server messages that all
    satisfy [P], and nothing else happened on that pipe's input. *)
Definition wrote (P : json -> Prop) (w w' : World) : Prop :=
  exists sent, stdin (process w') = stdin (process w) ++ sent /\ Forall P sent.

(** Every run of [m] relates the state before to the state after by [R],
    whether it returns or raises. *)
Definition evolves {A : Type} (R : World -> World -> Prop) (m : M A) : Prop :=
  forall w r w', m w = (r, w') -> R w w'.

(** From a state that satisfies [I], [m] returns, in a state that
    satisfies [I]. *)
Definition returns {A : Type} (I : World -> Prop) (m : M A) : Prop :=
  forall w, I w -> exists a w', m w = (Ok a, w') /\ I w'.

(** A recorded project stays recorded. *)
Definition records (w w' : World) : Prop :=
  forall root, mem root (initialized_projects w) = true ->
               mem root (initialized_projects w') = true.

(** The method of a message. *)
Definition method_of (msg : json) : json :=
  match msg with
  | JObj d => Py.get_none "method" d
  | _ => JNull
  end.

(** The methods of the messages sent while a project is initialized and
    its load awaited. *)
Definition prelude_methods : list string :=
  ["workspace/didChangeConfiguration"; "textDocument/didOpen";
   "al/setActiveWorkspace"; "al/hasProjectClosureLoadedRequest"].

(** The three stages of [handle_workspace_symbol] after the query is
    accepted, named for the statements below: the query that is searched,
    the [if self.root_path:] block, and the two searches. *)
Definition effective_query (query : string) : string :=
  if looks_like_path query then query_from_path query else query.

Definition ensure_root_project (os : Platform) : M unit :=
  fun w =>
    match root_path w with
    | Some root =>
        if PyStr.truthy root then
          (root_uri <- lift (as_uri os (Path os root)) ;;
           let dummy_uri := (root_uri ++ "/app.json")%string in
           _ensure_project_initialized os (JStr dummy_uri) ;;
           ret tt) w
        else (Ok tt, w)
    | None => (Ok tt, w)
    end.

Definition search_symbols (query : string) : M dict :=
  response <- send_request (JStr "workspace/symbol") (JObj [("query", JStr query)]) ;;
  if is_nonempty_list (result_of response) then ret (or_empty response)
  else
    al_response <- send_request (JStr "al/symbolSearch") (JObj [("query", JStr query)]) ;;
    if is_nonempty_list (result_of al_response) then ret (or_empty al_response)
    else ret [("jsonrpc", JStr "2.0"); ("result", JArr [])].

(** The request numbered [id] for [method] with the query [query]. *)
Definition search_request (id : Z) (method query : string) : json :=
  JObj [("jsonrpc", JStr "2.0"); ("id", JInt id); ("method", JStr method);
        ("params", JObj [("query", JStr query)])].


(** The recovery rule for a file path sent as a query, in the words of
    the specification: take the last path segment, strip the extension,
    split on the first two spaces, and take the third part if there is
    one, else the whole stripped file name. *)
Definition is_separator (c : ascii) : bool := Ascii.eqb c "/" || Ascii.eqb c "\".

Fixpoint has_separator (s : string) : bool :=
  match s with
  | EmptyString => false
  | String c s' => is_separator c || has_separator s'
  end.

(** What follows the last separator; the whole text when there is none. *)
Fixpoint last_segment (s : string) : string :=
  match s with
  | EmptyString => EmptyString
  | String c s' =>
      if has_separator s' then last_segment s'
      else if is_separator c then s' else s
  end.

(** The text without its ending [.al], if it ends so. *)
Fixpoint strip_extension (s : string) : string :=
  if String.eqb s ".al" then EmptyString
  else match s with
       | EmptyString => EmptyString
       | String c s' => String c (strip_extension s')
       end.

(** What follows the first space, if there is a space. *)
Fixpoint after_space (s : string) : option string :=
  match s with
  | EmptyString => None
  | String c s' => if Ascii.eqb c " " then Some s' else after_space s'
  end.

(** What precedes the first space. *)
Fixpoint before_space (s : string) : string :=
  match s with
  | EmptyString => EmptyString
  | String c s' => if Ascii.eqb c " " then EmptyString else String c (before_space s')
  end.

(** The third of the parts separated by the first two spaces. *)
Definition third_part (s : string) : option string :=
  match after_space s with
  | Some rest => after_space rest
  | None => None
  end.

Definition rewritten_query (query : string) : string :=
  let filename := strip_extension (last_segment query) in
  match third_part filename with
  | Some name => name
  | None => filename
  end.

(** A message of the prelude: its method is one of [prelude_methods]. *)
Definition prelude_message (msg : json) : Prop :=
  exists m, method_of msg = JStr m /\ In m prelude_methods.

(** What a pattern matches, read off its syntax: [derives r pos text cap
    cap'] when [r] matches exactly [text] at offset [pos], group 1 holding
    [cap] before and [cap'] after. *)
Fixpoint all_in (cl : Re.cclass) (s : string) : Prop :=
  match s with
  | EmptyString => True
  | String c s' => Re.in_class cl c = true /\ all_in cl s'
  end.

Inductive derives : Re.regex -> nat -> string -> option string -> option string -> Prop :=
| derives_lit : forall p pos cap, derives (Re.Lit p) pos p cap cap
| derives_one : forall cl c pos cap,
    Re.in_class cl c = true -> derives (Re.One cl) pos (String c EmptyString) cap cap
| derives_star : forall cl text pos cap,
    all_in cl text -> derives (Re.Star cl) pos text cap cap
| derives_plus : forall cl text pos cap,
    text <> EmptyString -> all_in cl text -> derives (Re.Plus cl) pos text cap cap
| derives_seq : forall r1 r2 pos text1 text2 cap cap1 cap2,
    derives r1 pos text1 cap cap1 ->
    derives r2 (pos + String.length text1) text2 cap1 cap2 ->
    derives (Re.Seq r1 r2) pos (text1 ++ text2) cap cap2
| derives_alt_left : forall r1 r2 pos text cap cap',
    derives r1 pos text cap cap' -> derives (Re.Alt r1 r2) pos text cap cap'
| derives_alt_right : forall r1 r2 pos text cap cap',
    derives r2 pos text cap cap' -> derives (Re.Alt r1 r2) pos text cap cap'
| derives_opt_some : forall r pos text cap cap',
    derives r pos text cap cap' -> derives (Re.Opt r) pos text cap cap'
| derives_opt_none : forall r pos cap, derives (Re.Opt r) pos EmptyString cap cap
| derives_group : forall r pos text cap cap',
    derives r pos text cap cap' -> derives (Re.Group r) pos text cap (Some text)
| derives_bol : forall cap, derives Re.Bol 0 EmptyString cap cap.

(** A quoted name: a double quote, a non-empty text without double quote,
    a double quote. *)
Definition quoted_name (name : string) : Prop :=
  exists inner,
    name = (PyStr.dquotes ++ inner ++ PyStr.dquotes)%string
    /\ inner <> EmptyString /\ PyStr.contains PyStr.dquote inner = false.

(** An identifier: a letter or underscore, then letters, digits and
    underscores. *)
Definition identifier_name (name : string) : Prop :=
  exists c rest,
    name = String c rest
    /\ Re.in_class (Re.Chars false Patterns.letter_) c = true
    /\ all_in (Re.Chars false Patterns.word_) rest.

(** The text of a hover result, when it has one: [contents] itself, or
    the [value] of [contents]. *)
Definition hover_text (hover : dict) : option string :=
  match Py.get_default "contents" (JObj []) hover with
  | JStr text => Some text
  | JObj contents =>
      match Py.get_default "value" (JStr EmptyString) contents with
      | JStr text => Some text
      | _ => None
      end
  | _ => None
  end.

(** Every group of the hover patterns is the name group. *)
Fixpoint only_names (r : Re.regex) : Prop :=
  match r with
  | Re.Group r1 => r1 = Re.Alt Patterns.quoted Patterns.identifier
  | Re.Seq r1 r2 | Re.Alt r1 r2 => only_names r1 /\ only_names r2
  | Re.Opt r1 => only_names r1
  | _ => True
  end.

(** The name of an outline node, as the search reads it. *)
Definition node_name (sym : dict) : json := Py.get_default "name" (JStr EmptyString) sym.

(** The name of the node, or its name with the parameter list stripped,
    equals [symbol_name] without regard to case. *)
Definition named (symbol_name : string) (sym : dict) : Prop :=
  exists name,
    node_name sym = JStr name
    /\ (PyStr.lower name = PyStr.lower symbol_name
        \/ PyStr.lower (_clean_symbol_name name) = PyStr.lower symbol_name).

(** The nodes of an outline, nested children included. *)
Inductive node_of : dict -> json -> Prop :=
| node_top : forall sym items,
    In (JObj sym) items -> node_of sym (JArr items)
| node_nested : forall sym parent children items,
    In (JObj parent) items ->
    Py.get "children" parent = Some children ->
    node_of sym children ->
    node_of sym (JArr items).

(** No node of the outline has the name looked for. *)
Definition unmatched (symbol_name : string) (symbols : json) : Prop :=
  forall sym, node_of sym symbols -> ~ named symbol_name sym.

(** A subtree of the outline in which the search finds nothing and goes
    on: a node with a name that is not the one looked for, whose children
    are none or, all of them, such subtrees. *)
#[warnings="-register-all"]
Inductive barren (symbol_name : string) : json -> Prop :=
| barren_leaf : forall sym name,
    node_name sym = JStr name ->
    ~ named symbol_name sym ->
    Py.truthy (Py.get_default "children" (JArr []) sym) = false ->
    barren symbol_name (JObj sym)
| barren_inner : forall sym name children,
    node_name sym = JStr name ->
    ~ named symbol_name sym ->
    Py.get "children" sym = Some (JArr children) ->
    Forall (barren symbol_name) children ->
    barren symbol_name (JObj sym).

(** [reaches symbol_name outline sym]: [sym] is the first node, in
    depth-first order, that has the name looked for: what precedes it at
    each level is barren, and the nodes above it have other names. *)
Inductive reaches (symbol_name : string) : list json -> dict -> Prop :=
| reaches_here : forall before sym after,
    Forall (barren symbol_name) before ->
    named symbol_name sym ->
    reaches symbol_name (before ++ JObj sym :: after) sym
| reaches_below : forall before parent name children after sym,
    Forall (barren symbol_name) before ->
    node_name parent = JStr name ->
    ~ named symbol_name parent ->
    Py.get "children" parent = Some (JArr children) ->
    reaches symbol_name children sym ->
    reaches symbol_name (before ++ JObj parent :: after) sym.

(** The result of a round trip as the fallback reads it. *)
Definition result_value (response : option dict) : json :=
  match response with
  | Some d => Py.get_none "result" d
  | None => JNull
  end.

(** The round trip gave nothing to go on: it raised, or there is no
    response, no result field, or a result that is null or empty. *)
Definition no_result (r : outcome (option dict)) : Prop :=
  match r with
  | Raise _ => True
  | Ok response => has_result response = false \/ Py.truthy (result_value response) = false
  end.

(** The round trip gave the result [v]. *)
Definition gives_result (r : outcome (option dict)) (v : json) : Prop :=
  exists response,
    r = Ok response /\ has_result response = true
    /\ result_value response = v /\ Py.truthy v = true.

(** The requests of the fallback. *)
Definition hover_params (text_document position : json) : json :=
  JObj [("textDocument", text_document); ("position", position)].

Definition symbol_params (text_document : json) : json :=
  JObj [("textDocument", text_document)].

(** The fallback fails at one of its steps: no hover result, no name
    extracted from it, no document symbols, or no node of the outline with
    the extracted name. *)
Inductive fallback_fails (params : json) (w : World) : Prop :=
| fails_no_hover : forall text_document position r w1,
    subscript "textDocument" params = Ok text_document ->
    subscript "position" params = Ok position ->
    send_request (JStr "textDocument/hover") (hover_params text_document position) w
    = (r, w1) ->
    no_result r ->
    fallback_fails params w
| fails_no_name : forall text_document position r w1 hover,
    subscript "textDocument" params = Ok text_document ->
    subscript "position" params = Ok position ->
    send_request (JStr "textDocument/hover") (hover_params text_document position) w
    = (r, w1) ->
    gives_result r hover ->
    (_extract_symbol_from_hover hover = Ok EmptyString
     \/ exists e, _extract_symbol_from_hover hover = Raise e) ->
    fallback_fails params w
| fails_no_symbols : forall text_document position r w1 hover name r2 w2,
    subscript "textDocument" params = Ok text_document ->
    subscript "position" params = Ok position ->
    send_request (JStr "textDocument/hover") (hover_params text_document position) w
    = (r, w1) ->
    gives_result r hover ->
    _extract_symbol_from_hover hover = Ok name ->
    send_request (JStr "textDocument/documentSymbol") (symbol_params text_document) w1
    = (r2, w2) ->
    no_result r2 ->
    fallback_fails params w
| fails_no_node : forall text_document position r w1 hover name r2 w2 symbols,
    subscript "textDocument" params = Ok text_document ->
    subscript "position" params = Ok position ->
    send_request (JStr "textDocument/hover") (hover_params text_document position) w
    = (r, w1) ->
    gives_result r hover ->
    _extract_symbol_from_hover hover = Ok name ->
    send_request (JStr "textDocument/documentSymbol") (symbol_params text_document) w1
    = (r2, w2) ->
    gives_result r2 symbols ->
    unmatched name symbols ->
    fallback_fails params w.

(** The request sent for the definition. *)
Definition definition_params (text_document position : json) : json :=
  JObj [("textDocumentPositionParams",
         JObj [("textDocument", text_document); ("position", position)])].

(** The run of [handle_definition] on [params] from [w] gets, in the state
    [w'], the response [original] of the AL server to [al/gotodefinition],
    and its result is empty: null or an empty list. *)
Definition definition_is_empty (os : Platform) (params : json) (w : World)
  (original : dict) (w' : World) : Prop :=
  exists uri uri_text text_document position root w0 w1,
    document_uri params = Ok uri /\ as_str uri = Ok uri_text
    /\ _ensure_project_initialized os uri w = (Ok root, w0)
    /\ _ensure_file_opened os uri_text w0 = (Ok tt, w1)
    /\ subscript "textDocument" params = Ok text_document
    /\ subscript "position" params = Ok position
    /\ send_request (JStr "al/gotodefinition") (definition_params text_document position) w1
       = (Ok (Some original), w')
    /\ has_result (Some original) = true
    /\ _is_empty_definition_result (Py.get_none "result" original) = true.

(* ===================================================================== *)
(** * Worlds for the examples *)
(* ===================================================================== *)

Module Demo.

(** One project under [/ws/proj], with one source file. *)
Definition files : list (string * string) :=
  [("/ws/proj/app.json", "{}"); ("/ws/proj/src/Foo.al", "codeunit 50100 Foo {}")].

Definition os : Platform := Posix.platform files (mkPath EmptyString "/" []) None.

(** A child whose pipe never breaks and that will deliver [script]. *)
Definition child (script : list json) : Process :=
  {| stdin := []; stdout := script; writes_left := None; running := true |}.

(** The wrapper after [initialize], before any request was forwarded. *)
Definition world (script : list json) : World :=
  {| process := child script; request_id := 0; initialized := true;
     root_path := Some "/ws/proj"; root_uri := JStr "file:///ws/proj";
     workspace_root := JStr "/ws"; opened_files := [];
     initialized_projects := []; call_hierarchy_server := None;
     clock := [true; true]; spawn := None |}.



(** A response of the server to the request numbered [id]. *)
Definition response (id : Z) (result : json) : dict :=
  [("jsonrpc", JStr "2.0"); ("id", JInt id); ("result", result)].

(** A range of a document. *)
Definition range_ (first_line last_line : Z) : json :=
  JObj [("start", JObj [("line", JInt first_line); ("character", JInt 0)]);
        ("end", JObj [("line", JInt last_line); ("character", JInt 0)])].

(** The outline of a codeunit with two procedures. *)
Definition on_run : dict :=
  [("name", JStr "OnRun()"); ("kind", JInt 12);
   ("range", range_ 2 4); ("selectionRange", range_ 2 2)].

Definition translate : dict :=
  [("name", JStr "TranslateEmailWithAI(Text)"); ("kind", JInt 12);
   ("range", range_ 6 20); ("selectionRange", range_ 6 6)].

Definition codeunit : dict :=
  [("name", JStr "Codeunit 50100 Foo"); ("kind", JInt 5);
   ("range", range_ 0 21); ("selectionRange", range_ 0 0);
   ("children", JArr [JObj on_run; JObj translate])].

Definition outline : list json := [JObj codeunit].

Definition source_uri : string := "file:///ws/proj/src/Foo.al".

(** The parameters of a definition request in the source file. *)
Definition position_params : json :=
  JObj [("textDocument", JObj [("uri", JStr source_uri)]);
        ("position", JObj [("line", JInt 9); ("character", JInt 12)])].

(** A session in which the server knows no definition and no hover at the
    position: the states after the project is initialized, after the file
    is opened, and after the definition request is answered. *)
Definition silent : list json :=
  [JObj (response 1 JNull); JObj (response 2 JNull); JObj (response 3 JNull)].

Definition after_project : World :=
  snd (_ensure_project_initialized os (JStr source_uri) (world silent)).

Definition after_open : World :=
  snd (_ensure_file_opened os source_uri after_project).

Definition after_definition : World :=
  snd (send_request (JStr "al/gotodefinition")
         (definition_params (JObj [("uri", JStr source_uri)])
            (JObj [("line", JInt 9); ("character", JInt 12)])) after_open).

(** A hover result whose text declares a procedure with a quoted name. *)
Definition quoted_hover : dict :=
  [("contents",
    JObj [("kind", JStr "markdown");
          ("value", JStr ("procedure " ++ PyStr.dquotes ++ "My Proc"
                          ++ PyStr.dquotes ++ "(Input: Text)"))])].

(** The call-hierarchy process answers the handshake without the
    capability. *)
Definition with_call_hierarchy : Platform :=
  Posix.platform files (mkPath EmptyString "/" []) (Some "/opt/al-call-hierarchy").

Definition no_capability : Process :=
  child [JObj (response 1 (JObj [("capabilities", JObj [])]))].

End Demo.

(** A frame that [send_request] passes over while it waits for the answer
    to the request numbered [rid]: an object whose id is another one. *)
Definition passed_over (rid : Z) (frame : json) : Prop :=
  exists d, frame = JObj d /\ Py.eq_int (Py.get_none "id" d) rid = false.

(** The request [send_request] writes. *)
Definition request_message (id : Z) (method params : json) : json :=
  JObj [("jsonrpc", JStr "2.0"); ("id", JInt id); ("method", method); ("params", params)].

Module Traffic.
Definition progress : json :=
  JObj [("jsonrpc", JStr "2.0"); ("method", JStr "$/progress"); ("params", JObj [])].
End Traffic.

(** The request [CallHierarchyServer.send_request] writes. *)
Definition ch_request_message (id : Z) (method params : json) : json :=
  JObj [("jsonrpc", JStr "2.0"); ("id", JInt id); ("method", method);
        ("params", or_empty_params params)].

(** The answer of [process_request] when the call-hierarchy server gives
    none. *)
Definition null_result (request_id : json) : json :=
  JObj [("jsonrpc", JStr "2.0"); ("id", request_id); ("result", JNull)].

Module Hierarchy.
(** A call-hierarchy server after its handshake, about to deliver
    [script]. *)
Definition server (script : list json) : CallHierarchyServer :=
  {| ch_process := Some (Demo.child script); ch_request_id := 1;
     ch_initialized := true; ch_root_uri := Some "file:///ws" |}.

Definition world (script : list json) : World :=
  set_call_hierarchy_server (Some (server script)) (Demo.world []).

Definition prepare : dict :=
  [("jsonrpc", JStr "2.0"); ("id", JInt 5);
   ("method", JStr "textDocument/prepareCallHierarchy");
   ("params", Demo.position_params)].
End Hierarchy.

(** The readiness request. *)
Definition readiness_request (msg : json) : Prop :=
  exists id,
    msg = request_message id (JStr "al/hasProjectClosureLoadedRequest") (JObj []).

(** The notification that announces a source file to the AL server. *)
Definition did_open (uri text : string) : json :=
  JObj [("jsonrpc", JStr "2.0"); ("method", JStr "textDocument/didOpen");
        ("params",
         JObj [("textDocument",
                JObj [("uri", JStr uri); ("languageId", JStr "al");
                      ("version", JInt 1); ("text", JStr text)])])].

(** [location] is what the search answers for a node of the outline that
    has the name looked for. *)
Definition located (symbols : json) (symbol_name : string) (file_uri location : json)
  : Prop :=
  exists sym,
    node_of sym symbols /\ named symbol_name sym
    /\ own_location sym file_uri = Some location.

(** A pattern whose every match sets group 1. *)
Fixpoint captures (r : Re.regex) : bool :=
  match r with
  | Re.Group _ => true
  | Re.Seq r1 r2 => captures r1 || captures r2
  | Re.Alt r1 r2 => captures r1 && captures r2
  | _ => false
  end.

(** A name as [_extract_symbol_from_hover] returns it when it found one:
    an identifier, or the non-empty text between two double quotes, itself
    free of double quotes. *)
Definition bare_name (name : string) : Prop :=
  identifier_name name
  \/ (name <> EmptyString /\ PyStr.contains PyStr.dquote name = false).

(** What may follow a name: nothing, or a character that cannot continue
    an identifier. *)
Definition ends_name (rest : string) : Prop :=
  match rest with
  | EmptyString => True
  | String c _ => Re.in_class (Re.Chars false Patterns.word_) c = false
  end.

(** The part of [procedure_] after the optional [local]. *)
Definition procedure_tail : Re.regex :=
  Re.Seq (Re.Lit "procedure") (Re.Seq (Re.Plus Re.Space) Patterns.name_group).

(** The steps every handler of a document request starts with, from [w] to
    [w']: the URI is read from the parameters, the project of the document
    is initialized and the document is announced. *)
Definition document_prelude (os : Platform) (params : json) (w w' : World) : Prop :=
  exists uri uri_text root w0,
    document_uri params = Ok uri
    /\ as_str uri = Ok uri_text
    /\ _ensure_project_initialized os uri w = (Ok root, w0)
    /\ _ensure_file_opened os uri_text w0 = (Ok tt, w').

(** The attempt of [handle_definition] with [al/gotodefinition], from [w]
    to [w'], gives nothing to return: the parameters have no position, or
    the round trip raises, or there is no response, or the response has no
    result field. *)
Inductive primary_unusable (params : json) (w w' : World) : Prop :=
| unusable_position : forall text_document e,
    subscript "textDocument" params = Ok text_document ->
    subscript "position" params = Raise e ->
    w' = w ->
    primary_unusable params w w'
| unusable_answer : forall text_document position r,
    subscript "textDocument" params = Ok text_document ->
    subscript "position" params = Ok position ->
    send_request (JStr "al/gotodefinition") (definition_params text_document position) w
    = (r, w') ->
    match r with
    | Ok response => has_result response = false
    | Raise _ => True
    end ->
    primary_unusable params w w'.

(** The methods whose handlers forward the request as it came. *)
Definition forwarded_methods : list string :=
  ["textDocument/documentSymbol"; "textDocument/hover"; "textDocument/references"].

(** The methods that need the URI of a document. *)
Definition document_methods : list string :=
  "textDocument/definition" :: forwarded_methods.

(** What [process_request] makes of the outcome of a forwarded request. *)
Definition forwarded_answer (request_id : json) (r : outcome (option dict))
  : outcome json :=
  match r with
  | Ok (Some d) => Ok (JObj (with_id request_id d))
  | Ok None => Ok (JObj [])
  | Raise e => Raise e
  end.

Module Documents.
Definition hover_request : dict :=
  [("jsonrpc", JStr "2.0"); ("id", JInt 3); ("method", JStr "textDocument/hover");
   ("params", Demo.position_params)].

Definition no_document : dict :=
  [("jsonrpc", JStr "2.0"); ("id", JInt 3); ("method", JStr "textDocument/hover");
   ("params", JObj [("position", JObj [("line", JInt 9); ("character", JInt 12)])])].

Definition location : json :=
  JObj [("uri", JStr Demo.source_uri); ("range", Demo.range_ 6 6)].

(** The project is initialized with request 1, the definition is request 2. *)
Definition found : list json :=
  [JObj (Demo.response 1 JNull); JObj (Demo.response 2 location)].

(** The answer to [al/gotodefinition] is an error, the answer to
    [textDocument/definition] a location. *)
Definition refused : list json :=
  [JObj (Demo.response 1 JNull);
   JObj [("jsonrpc", JStr "2.0"); ("id", JInt 2);
         ("error", JObj [("code", JInt (-32601)); ("message", JStr "Method not found")])];
   JObj (Demo.response 3 location)].
End Documents.

(** The methods [process_request] has a branch for. *)
Definition routed_methods : list string :=
  ["initialize"; "textDocument/definition"; "textDocument/documentSymbol";
   "textDocument/hover"; "workspace/symbol"; "textDocument/references";
   "initialized"] ++ call_hierarchy_methods.

(** What [process_request] makes of the outcome of a request it passes
    through. *)
Definition passed_answer (request_id : json) (r : outcome (option dict))
  : outcome json :=
  match r with
  | Ok (Some (field :: fields)) =>
      Ok (JObj (Py.set_item "id" request_id (field :: fields)))
  | Ok _ => Ok (null_result request_id)
  | Raise e => Raise e
  end.

(** The notification [send_notification] writes. *)
Definition notification_message (method params : json) : json :=
  JObj [("jsonrpc", JStr "2.0"); ("method", method); ("params", params)].

Module Passing.
Definition completion : dict :=
  [("jsonrpc", JStr "2.0"); ("id", JInt 7);
   ("method", JStr "textDocument/completion"); ("params", Demo.position_params)].
End Passing.

(** The manifests [find_al_project] finds [depth] directories below
    [start]. *)
Definition manifests_at (os : Platform) (start : PurePath) (depth : nat)
  : list PurePath :=
  glob os start (manifest_pattern depth).

(** The path of a URI on Windows: one leading slash is dropped. *)
Definition without_leading_slash (file_path : string) : string :=
  if PyStr.startswith "/" file_path then PyStr.slice (Some 1%Z) None file_path
  else file_path.

(** The handshake request of the call-hierarchy server. *)
Definition ch_initialize_message (os : Platform) (id : Z) (root_uri : string)
  (workspace_folders : json) : json :=
  ch_request_message id (JStr "initialize")
    (JObj [("processId", JInt (getpid os)); ("capabilities", JObj []);
           ("rootUri", JStr root_uri); ("workspaceFolders", workspace_folders)]).

(** The answer to the handshake announces the call-hierarchy capability. *)
Definition announces_call_hierarchy (answer : dict) : Prop :=
  exists result capabilities provider,
    Py.get "result" answer = Some (JObj result)
    /\ Py.get "capabilities" result = Some (JObj capabilities)
    /\ Py.get "callHierarchyProvider" capabilities = Some provider
    /\ Py.truthy provider = true.

(** The one workspace folder the wrapper announces for [path]. *)
Definition workspace_folders_of (os : Platform) (path : string) : json :=
  JArr [JObj [("uri", JStr (uri_text os (Path os path)));
              ("name", JStr (Pathlib.name (Path os path)))]].

(** The path the call-hierarchy server is initialized with:
    [self.workspace_root or self.root_path]. *)
Definition workspace_path (w : World) : json :=
  if Py.truthy (workspace_root w) then workspace_root w
  else json_of_option (root_path w).

Module Handshake.
Definition capable : Process :=
  Demo.child
    [JObj (Demo.response 1
             (JObj [("capabilities", JObj [("callHierarchyProvider", jtrue)])]))].

Definition world : World :=
  {| process := Demo.child []; request_id := 1; initialized := true;
     root_path := Some "/ws/proj"; root_uri := JStr "file:///ws/proj";
     workspace_root := JStr "/ws"; opened_files := [];
     initialized_projects := ["/ws/proj"]; call_hierarchy_server := None;
     clock := []; spawn := Some capable |}.

(** A process that answers the handshake with an array that names an
    error, and the wrapper about to start it. *)
Definition garbled : Process := Demo.child [JArr [JStr "error"]].

Definition garbled_world : World :=
  {| process := Demo.child []; request_id := 1; initialized := true;
     root_path := Some "/ws/proj"; root_uri := JStr "file:///ws/proj";
     workspace_root := JStr "/ws"; opened_files := [];
     initialized_projects := ["/ws/proj"]; call_hierarchy_server := None;
     clock := []; spawn := Some garbled |}.

(** The server object after that handshake. *)
Definition garbled_server : CallHierarchyServer :=
  snd (ch_initialize Demo.with_call_hierarchy "file:///ws"
         (JArr [JObj [("uri", JStr "file:///ws"); ("name", JStr "ws")]])
         (ch_set_process (Some garbled) ch_fresh)).
End Handshake.

(* ===================================================================== *)
(** * [main]: the loop between the client and the wrapper *)
(* ===================================================================== *)

(** The client seen through the standard output of the wrapper:
    [written] is what [write_client_message] wrote, oldest first, and
    [client_writes_left] the number of writes that will still succeed,
    [None] when the pipe never breaks. *)
Record Client := {
  written : list json;
  client_writes_left : option nat
}.

(** [write_client_message]; [None] when the write raises. *)
Definition write_client_message (msg : json) (c : Client) : option Client :=
  match client_writes_left c with
  | Some O => None
  | Some (S n) => Some {| written := written c ++ [msg]; client_writes_left := Some n |}
  | None => Some {| written := written c ++ [msg]; client_writes_left := None |}
  end.

(** The [while True] loop of [main].  [requests] is what the successive
    calls of [read_client_message] give: the parsed body, or [JNull] for
    a call that gives [None] (no Content-Length header, a body that is not
    JSON); after the list the input is at its end and the call gives
    [None].  The loop ends at [None], and at the first exception: of
    [process_request] - which is also the exception of the log line before
    it, [request.get] on a message that is not an object - or of the write
    to the client. *)
Fixpoint main_loop (os : Platform) (requests : list json) (c : Client) (w : World)
  : Client * World :=
  match requests with
  | [] => (c, w)
  | JNull :: _ => (c, w)
  | request :: later =>
      match process_request os request w with
      | (Ok response, w') =>
          if Py.truthy response then
            match write_client_message response c with
            | Some c' => main_loop os later c' w'
            | None => (c, w')
            end
          else main_loop os later c w'
      | (Raise _, w') => (c, w')
      end
  end.

(** How [main] ends: what the client got, the wrapper object, and whether
    [wrapper.process.terminate()] was called. *)
Record Exit := {
  client : Client;
  wrapper : World;
  terminated : bool
}.

(** The [finally] block of [main]: the call-hierarchy server, if there is
    one, is shut down, then the AL server is terminated.  An exception of
    the shutdown would leave the block before the AL server is
    terminated. *)
Definition main_finally (c : Client) (w : World) : Exit :=
  match call_hierarchy_server w with
  | Some server =>
      match ch_shutdown server with
      | (Ok _, server') =>
          {| client := c; wrapper := set_call_hierarchy_server (Some server') w;
             terminated := true |}
      | (Raise _, server') =>
          {| client := c; wrapper := set_call_hierarchy_server (Some server') w;
             terminated := false |}
      end
  | None => {| client := c; wrapper := w; terminated := true |}
  end.

(** [main] from its [try] on, the AL server being started: the loop, then
    the [finally] block. *)
Definition main_session (os : Platform) (requests : list json) (c : Client) (w : World)
  : Exit :=
  let (c', w') := main_loop os requests c w in main_finally c' w'.

(** [answer] is an answer to one of [requests]: a non-empty object that
    carries the id of that request. *)
Definition answers_one_of (requests : list json) (answer : json) : Prop :=
  exists request response,
    In (JObj request) requests
    /\ answer = JObj response
    /\ response <> []
    /\ Py.get "id" response = Some (Py.get_none "id" request).

(** [answers] answer [requests] in order: each answer is a non-empty
    object that carries the id of its own request, and the requests
    between two answers, and after the last, have no answer. *)
Inductive answered_in_order : list json -> list json -> Prop :=
| answered_none (requests : list json) : answered_in_order requests []
| answered_skip (request : json) (requests answers : list json) :
    answered_in_order requests answers ->
    answered_in_order (request :: requests) answers
| answered_next (request response : dict) (requests answers : list json) :
    response <> [] ->
    Py.get "id" response = Some (Py.get_none "id" request) ->
    answered_in_order requests answers ->
    answered_in_order (JObj request :: requests) (JObj response :: answers).

Module Session.
Definition client : Client := {| written := []; client_writes_left := None |}.
End Session.

(** From [w] to [w'] the roots of the wrapper and its [initialized] flag
    are the same. *)
Definition same_setup (w w' : World) : Prop :=
  root_path w' = root_path w
  /\ root_uri w' = root_uri w
  /\ workspace_root w' = workspace_root w
  /\ initialized w' = initialized w.

(** The root project of the wrapper, if it has a root, is recorded as
    initialized. *)
Definition root_is_recorded (os : Platform) (w : World) : Prop :=
  forall root,
    root_path_set w = Some root ->
    mem (str os (resolve os (Path os root))) (initialized_projects w) = true.

(** The project [initialize] detects below the root the client asked
    for, five levels down at most. *)
Definition detected_project (os : Platform) (requested : string) : option string :=
  match find_al_project os requested 5 with
  | Some project => if PyStr.truthy project then Some project else None
  | None => None
  end.

Module Startup.
(** A client that names the root both as a path and as a URI. *)
Definition initialize_params : dict :=
  [("processId", JInt 1); ("rootPath", JStr "/ws"); ("rootUri", JStr "file:///ws");
   ("capabilities", JObj [])].


(** The wrapper as [main] creates it, the AL server started; the AL server
    answers the handshake, the activation of the workspace and the
    readiness request. *)
Definition fresh : World :=
  {| process :=
       Demo.child [JObj (Demo.response 1 (JObj [("capabilities", JObj [])]));
                   JObj (Demo.response 2 JNull);
                   JObj (Demo.response 3 jtrue)];
     request_id := 0; initialized := false;
     root_path := None; root_uri := JNull; workspace_root := JNull;
     opened_files := []; initialized_projects := [];
     call_hierarchy_server := None; clock := [true; true]; spawn := None |}.


End Startup.

(** The three messages that initialize a project: the configuration, the
    manifest, and the activation of the workspace. *)
Definition configuration_message (project_root : string) : json :=
  notification_message (JStr "workspace/didChangeConfiguration")
    (configuration project_root).

Definition manifest_message (uri text : string) : json :=
  notification_message (JStr "textDocument/didOpen")
    (JObj [("textDocument",
            JObj [("uri", JStr uri); ("languageId", JStr "json");
                  ("version", JInt 1); ("text", JStr text)])]).

Definition activation_message (os : Platform) (id : Z) (project_root : string) : json :=
  request_message id (JStr "al/setActiveWorkspace")
    (JObj [("currentWorkspaceFolderPath",
            JObj [("uri", JStr (uri_text os (resolve os (Path os project_root))));
                  ("name", JStr (Pathlib.name (Path os project_root)));
                  ("index", JInt 0)]);
           ("settings",
            JObj [("workspacePath", JStr project_root);
                  ("setActiveWorkspace", jtrue)])]).

(* ===================================================================== *)
(** * The installed AL extension *)
(* ===================================================================== *)

(** The builtins and the library functions on text that are not modelled
    further.  A text is a [str] whose characters are below U+0100, a
    [bytes] is the string of its bytes. *)
Record Builtins := {
  int_ : string -> option Z;        (* int(x); None: ValueError *)
  dumps : json -> string;           (* json.dumps(msg) *)
  loads : string -> option json;    (* json.loads(content); None: it raises *)
  encode : string -> string;        (* text.encode("utf-8") *)
  decode : string -> option string; (* data.decode("utf-8"); None: it raises *)
  fits : Z -> bool                  (* a buffer of n bytes can be allocated *)
}.

(** What [find_al_extension] asks of the operating system, beyond
    [Platform]. *)
Record Installation := {
  home : PurePath;                               (* Path.home() *)
  iterdir : PurePath -> option (list PurePath);  (* list(p.iterdir()); None: it raises *)
  is_dir : PurePath -> bool                      (* p.is_dir() *)
}.

(** [a < b] on tuples of integers: the first place where they differ
    decides, and a proper prefix is smaller. *)
Fixpoint tuple_ltb (a b : list Z) : bool :=
  match a, b with
  | [], [] => false
  | [], _ :: _ => true
  | _ :: _, [] => false
  | x :: a', y :: b' =>
      if (x <? y)%Z then true
      else if (y <? x)%Z then false
      else tuple_ltb a' b'
  end.

Section Extension.

Variable os : Platform.
Variable inst : Installation.
Variable py : Builtins.

(** [tuple(int(x) for x in parts)]; [None] when an [int] raises. *)
Fixpoint ints (parts : list string) : option (list Z) :=
  match parts with
  | [] => Some []
  | x :: rest =>
      match int_ py x with
      | Some n =>
          match ints rest with
          | Some t => Some (n :: t)
          | None => None
          end
      | None => None
      end
  end.

Definition version_key (p : PurePath) : list Z :=
  let version_str := PyStr.replace "ms-dynamics-smb.al-" "" (Pathlib.name p) in
  match ints (PyStr.split "." None version_str) with
  | Some t => t
  | None => [0%Z]
  end.

(** [candidates.sort(key=version_key, reverse=True)]: the greatest key
    first, and candidates with equal keys in the order they had.
    [insert_desc] puts a candidate before the first one that is not
    greater. *)
Fixpoint insert_desc (x : PurePath) (sorted : list PurePath) : list PurePath :=
  match sorted with
  | [] => [x]
  | y :: rest =>
      if tuple_ltb (version_key x) (version_key y) then y :: insert_desc x rest
      else x :: sorted
  end.

Definition sort_desc (candidates : list PurePath) : list PurePath :=
  fold_right insert_desc [] candidates.

(** The two loops that collect the candidates. *)
Definition is_al_extension (item : PurePath) : bool :=
  is_dir inst item && PyStr.startswith "ms-dynamics-smb.al-" (Pathlib.name item).

Fixpoint collect (possible_paths : list PurePath) : outcome (list PurePath) :=
  match possible_paths with
  | [] => Ok []
  | base_path :: rest =>
      let! found :=
        if exists_ os base_path then
          match iterdir inst base_path with
          | Some items => Ok (filter is_al_extension items)
          | None => Raise OSError
          end
        else Ok [] in
      let! more := collect rest in
      Ok (found ++ more)
  end.

Definition extensions_of (editor : string) : PurePath :=
  joinpath (joinpath (home inst) editor) "extensions".

Definition possible_paths : list PurePath :=
  if is_windows os
  then [extensions_of ".vscode"; extensions_of ".vscode-insiders"]
  else [extensions_of ".vscode"; extensions_of ".vscode-server";
        extensions_of ".vscode-insiders"].

(** [find_al_extension]; the sorted list is empty exactly when there is
    no candidate. *)
Definition find_al_extension : outcome (option string) :=
  let! candidates := collect possible_paths in
  match sort_desc candidates with
  | [] => Ok None
  | newest :: _ => Ok (Some (str os newest))
  end.

End Extension.

(** [newest] is the first, in the order of listing, of the candidates
    with the greatest version. *)
Definition first_newest (py : Builtins) (candidates : list PurePath)
  (newest : PurePath) : Prop :=
  exists before after,
    candidates = before ++ newest :: after
    /\ (forall c, In c candidates ->
                  tuple_ltb (version_key py newest) (version_key py c) = false)
    /\ (forall c, In c before ->
                  tuple_ltb (version_key py c) (version_key py newest) = true).

Module Installed.

(** [int] on a run of decimal digits. *)
Fixpoint digits (acc : Z) (s : string) : option Z :=
  match s with
  | EmptyString => Some acc
  | String c s' =>
      let n := nat_of_ascii c in
      if (48 <=? n) && (n <=? 57)
      then digits (acc * 10 + Z.of_nat (n - 48)) s'
      else None
  end.

Definition decimal (s : string) : option Z :=
  match s with
  | EmptyString => None
  | _ => digits 0 s
  end.

Definition extensions : PurePath := mkPath "" "/" ["home"; "u"; ".vscode"; "extensions"].

Definition older : PurePath := joinpath extensions "ms-dynamics-smb.al-16.9.5".
Definition newer : PurePath := joinpath extensions "ms-dynamics-smb.al-16.10.0".

(** Two versions of the extension in [~/.vscode/extensions]. *)
Definition inst : Installation :=
  {| home := mkPath "" "/" ["home"; "u"];
     iterdir := fun p => if Pathlib.eqb p extensions then Some [older; newer] else Some [];
     is_dir := fun _ => true |}.

(** Builtins for texts of ASCII characters: [int] reads decimal digits,
    the codec does nothing, and the only JSON text is [null]. *)
Definition py : Builtins :=
  {| int_ := decimal;
     dumps := fun _ => "null";
     loads := fun content => if String.eqb content "null" then Some JNull else None;
     encode := fun text => text;
     decode := fun data => Some data;
     fits := fun n => (n <? 1048576)%Z |}.

Definition os : Platform :=
  Posix.platform [("/home/u/.vscode/extensions/ms-dynamics-smb.al-16.9.5/package.json", "{}");
                  ("/home/u/.vscode/extensions/ms-dynamics-smb.al-16.10.0/package.json", "{}")]
    (mkPath "" "/" []) None.

End Installed.

(* ===================================================================== *)
(** * Framing: the Content-Length header *)
(* ===================================================================== *)

(** The writers - [ALLSPWrapper.send_message],
    [CallHierarchyServer.send_message] and [write_client_message] - build
    a frame in the same way, and the readers - [ALLSPWrapper.read_message],
    [CallHierarchyServer.read_message] and [read_client_message] - parse
    it in the same way but for the end of the stream among the headers.
    They are modelled once, on the bytes of a stream. *)

Definition newline : ascii := "010"%char.
Definition crlf : string := String "013"%char (String newline EmptyString).

(** [f"{n}"] for a length: its decimal digits.  [fuel] bounds the number
    of digits. *)
Fixpoint decimal_at (fuel n : nat) (acc : string) : string :=
  match fuel with
  | O => acc
  | S fuel' =>
      let acc' := String (ascii_of_nat (48 + n mod 10)) acc in
      if n / 10 =? 0 then acc' else decimal_at fuel' (n / 10) acc'
  end.

Definition decimal_of (n : nat) : string := decimal_at (S n) n EmptyString.

(** [stream.readline()]: the bytes up to and including the first line
    feed, or all of them; and what is left. *)
Fixpoint readline (data : string) : string * string :=
  match data with
  | EmptyString => (EmptyString, EmptyString)
  | String c rest =>
      if Ascii.eqb c newline then (String c EmptyString, rest)
      else let (line, rest') := readline rest in (String c line, rest')
  end.

(** The [headers] dict: the binding written last comes first. *)
Fixpoint header (k : string) (headers : list (string * string)) : option string :=
  match headers with
  | [] => None
  | (k', v) :: rest => if String.eqb k' k then Some v else header k rest
  end.

Section Framing.

Variable py : Builtins.

(** [raw.decode("utf-8")]; no bytes are the empty text. *)
Definition decode_line (raw : string) : option string :=
  match raw with
  | EmptyString => Some EmptyString
  | _ => decode py raw
  end.

(** The [while True] loop over the header lines; [None] when it raises
    or returns [None].  At the end of the stream the reader of the
    call-hierarchy server gives up ([eof_fails]), the other two leave the
    loop.  Every other turn takes at least one byte, so [fuel] above the
    length of the stream is never used up. *)
Fixpoint read_headers (eof_fails : bool) (fuel : nat) (data : string)
    (headers : list (string * string))
  : option (list (string * string)) * string :=
  match fuel with
  | O => (None, data)
  | S fuel' =>
      let (raw, rest) := readline data in
      match decode_line raw with
      | None => (None, rest)
      | Some line =>
          if negb (PyStr.truthy line)
          then (if eof_fails then None else Some headers, rest)
          else if String.eqb line crlf then (Some headers, rest)
          else if PyStr.contains ":" line then
            match PyStr.split ":" (Some 1) line with
            | [key; value] =>
                read_headers eof_fails fuel' rest
                  ((PyStr.strip key, PyStr.strip value) :: headers)
            | _ => (None, rest)
            end
          else read_headers eof_fails fuel' rest headers
      end
  end.

(** A reader, on the bytes still to come: the message, [None] for every
    failure, and what is left of the stream.  [read(n)] takes all that is
    left for [-1], raises below that and when the buffer cannot be
    allocated, and takes at most [n] bytes. *)
Definition read_frame (eof_fails : bool) (data : string) : option json * string :=
  match read_headers eof_fails (S (String.length data)) data [] with
  | (None, rest) => (None, rest)
  | (Some headers, rest) =>
      match header "Content-Length" headers with
      | None => (None, rest)
      | Some value =>
          match int_ py value with
          | None => (None, rest)
          | Some content_length =>
              if (content_length <? -1)%Z then (None, rest)
              else
                let size :=
                  if (content_length =? -1)%Z then Some (String.length rest)
                  else if fits py content_length then Some (Z.to_nat content_length)
                  else None in
                match size with
                | None => (None, rest)
                | Some size =>
                    match decode py (PyStr.take size rest) with
                    | None => (None, PyStr.skip size rest)
                    | Some content => (loads py content, PyStr.skip size rest)
                    end
                end
          end
      end
  end.

(** A writer: the bytes of the frame of a message. *)
Definition frame (msg : json) : string :=
  let content := dumps py msg in
  encode py ("Content-Length: " ++ decimal_of (String.length content)
             ++ crlf ++ crlf ++ content)%string.

End Framing.

(** A text of ASCII characters. *)
Fixpoint ascii_text (s : string) : Prop :=
  match s with
  | EmptyString => True
  | String c s' => nat_of_ascii c < 128 /\ ascii_text s'
  end.

(** UTF-8 leaves a text of ASCII characters as it is. *)
Definition utf8_on_ascii (py : Builtins) : Prop :=
  (forall text, ascii_text text -> encode py text = text)
  /\ (forall data, ascii_text data -> decode py data = Some data).

Definition digit (c : ascii) : Prop := 48 <= nat_of_ascii c <= 57.

Fixpoint digits_only (s : string) : Prop :=
  match s with
  | EmptyString => True
  | String c s' => digit c /\ digits_only s'
  end.

(* ===================================================================== *)
(** * Properties *)
(* ===================================================================== *)

(** ** The readiness query *)

(** C9. [check_project_loaded] maps the outcome of the readiness round
    trip as follows: a boolean result is returned as it is; an object
    result gives its [loaded] field, [False] when it has none; a null
    result and a round trip that raises both give [True]; a result of any
    other shape, a response without a result field and no response at all
    give [False]. *)
Theorem check_project_loaded_cases (w : World)
  (r : outcome (option dict)) (w' : World) :
  send_request (JStr "al/hasProjectClosureLoadedRequest") (JObj []) w = (r, w') ->
  exists v,
    check_project_loaded w = (Ok v, w')
    /\ (forall e, r = Raise e -> v = jtrue)
    /\ (r = Ok None -> v = jfalse)
    /\ (forall d, r = Ok (Some d) ->
          (Py.get "result" d = None -> v = jfalse)
          /\ (forall b, Py.get "result" d = Some (JBool b) -> v = JBool b)
          /\ (forall o, Py.get "result" d = Some (JObj o) ->
                (forall x, Py.get "loaded" o = Some x -> v = x)
                /\ (Py.get "loaded" o = None -> v = jfalse))
          /\ (Py.get "result" d = Some JNull -> v = jtrue)
          /\ (forall x, Py.get "result" d = Some x -> other_shape x -> v = jfalse)).
Proof.
  intros Hrun.
  unfold check_project_loaded, try_except, bind. rewrite Hrun.
  destruct r as [[d|]|e].
  - unfold has_result, Py.has_key, Py.get_none, Py.get_default.
    destruct (Py.get "result" d) as [x|] eqn:Hx.
    + assert (Py.truthy (JObj d) = true) as ->.
      { destruct d; [discriminate | reflexivity]. }
      cbn [andb].
      destruct x; cbn; (eexists; split; [reflexivity|]);
        (split; [intros; discriminate|]); (split; [intros; discriminate|]);
        intros d0 Hd; injection Hd as <-; rewrite Hx;
        repeat split; intros;
        repeat match goal with
          | H : Some _ = Some _ |- _ => injection H as H; subst
          | H : other_shape _ |- _ => cbn in H
          end;
        try discriminate; try tauto; try congruence.
      all: match goal with H : Py.get "loaded" _ = _ |- _ => now rewrite H end.
    + rewrite andb_false_r. cbn. eexists; split; [reflexivity|].
      (split; [intros; discriminate|]); (split; [intros; discriminate|]).
      intros d0 Hd; injection Hd as <-; rewrite Hx.
      repeat split; intros; try discriminate; congruence.
  - cbn. eexists; split; [reflexivity|].
    repeat split; intros; try discriminate; congruence.
  - cbn. eexists; split; [reflexivity|].
    repeat split; intros; try discriminate; congruence.
Qed.

Lemma check_project_loaded_cases_witness :
  exists v,
    check_project_loaded (Demo.world [JObj (Demo.response 1 (JObj [("loaded", jtrue)]))])
    = (Ok v, snd (send_request (JStr "al/hasProjectClosureLoadedRequest") (JObj [])
                    (Demo.world [JObj (Demo.response 1 (JObj [("loaded", jtrue)]))])))
    /\ v = jtrue.
Proof.
  destruct (check_project_loaded_cases
              (Demo.world [JObj (Demo.response 1 (JObj [("loaded", jtrue)]))])
              (Ok (Some (Demo.response 1 (JObj [("loaded", jtrue)]))))
              _ eq_refl) as (v & Hv & _ & _ & Hd).
  exists v. split; [exact Hv|].
  destruct (Hd _ eq_refl) as (_ & _ & Ho & _).
  destruct (Ho _ eq_refl) as (Hx & _). apply Hx. reflexivity.
Defined.

(** ** Validation of the workspace-symbol query *)

Lemma lstrip_blank (query : string) : blank query -> PyStr.lstrip query = EmptyString.
Proof.
  induction query as [|c query IH]; intros H; [reflexivity|].
  simpl. rewrite (H c (or_introl eq_refl)).
  apply IH. intros c' Hc'. apply H. right. exact Hc'.
Qed.

Lemma strip_blank (query : string) : blank query -> PyStr.strip query = EmptyString.
Proof.
  intros H. unfold PyStr.strip. rewrite (lstrip_blank _ H). reflexivity.
Qed.

(** C2. A workspace/symbol request whose query is empty or only white
    space is answered by an error response with code -32602 and a
    non-empty message, and the state is left as it was: nothing is written
    to the AL server, and the call-hierarchy server is not touched. *)
Theorem empty_query_is_rejected (os : Platform) (params : dict) (query : string)
  (w : World) :
  Py.get_default "query" (JStr EmptyString) params = JStr query ->
  blank query ->
  handle_workspace_symbol os (JObj params) w = (Ok empty_query_error, w)
  /\ Py.get "error" empty_query_error
     = Some (JObj [("code", JInt (-32602)); ("message", JStr empty_query_message)])
  /\ Py.get "result" empty_query_error = None
  /\ empty_query_message <> EmptyString.
Proof.
  intros Hq Hblank. split; [|repeat split; discriminate].
  unfold handle_workspace_symbol, bind, lift, ret. cbn [as_dict].
  rewrite Hq. unfold query_is_empty. cbn [Py.truthy as_str obind].
  rewrite (strip_blank _ Hblank).
  destruct (PyStr.truthy query); reflexivity.
Qed.

Lemma empty_query_is_rejected_witness :
  handle_workspace_symbol Demo.os (JObj [("query", JStr "  ")]) (Demo.world [])
  = (Ok empty_query_error, Demo.world []).
Proof.
  apply (empty_query_is_rejected Demo.os [("query", JStr "  ")] "  " (Demo.world [])).
  - reflexivity.
  - intros c [<-|[<-|[]]]; reflexivity.
Defined.

(** ** Call hierarchy without its server *)

(** A [try] whose handler only logs always returns. *)
Lemma try_except_logs {S : Type} (body : State S unit) (s : S) :
  exists s', try_except body (ret tt) s = (Ok tt, s').
Proof.
  unfold try_except, ret. destruct (body s) as [[[]|e] s']; eexists; reflexivity.
Qed.

Lemma ch_shutdown_returns (server : CallHierarchyServer) :
  exists server', ch_shutdown server = (Ok tt, server').
Proof.
  unfold ch_shutdown. unfold bind at 1. cbv beta.
  destruct (ch_is_alive server).
  - destruct (try_except_logs
                (ch_send_request (JStr "shutdown") JNull ;;
                 ch_send_notification (JStr "exit") JNull) server) as (s1 & ->).
    unfold ch_stop. destruct (ch_process s1); eexists; reflexivity.
  - unfold ch_stop. destruct (ch_process server); eexists; reflexivity.
Qed.

(** What [send_request] and [send_notification] of the call-hierarchy
    server leave of it: the process is there or not as before, and the
    handshake is as it was. *)
Lemma ch_send_message_keeps (msg : json) (server server' : CallHierarchyServer)
  (r : outcome bool) :
  ch_send_message msg server = (r, server') ->
  (ch_process server = None <-> ch_process server' = None)
  /\ ch_initialized server' = ch_initialized server.
Proof.
  unfold ch_send_message. destruct (ch_process server) as [p|] eqn:E.
  - destruct (running p).
    + destruct (write_to msg p); intros H; injection H as _ <-; cbn;
        rewrite ?E; split; try reflexivity; split; discriminate.
    + intros H; injection H as _ <-. rewrite E. split; [tauto | reflexivity].
  - intros H; injection H as _ <-. rewrite E. split; [tauto | reflexivity].
Qed.

Lemma ch_read_message_keeps (server server' : CallHierarchyServer) (r : outcome json) :
  ch_read_message server = (r, server') ->
  (ch_process server = None <-> ch_process server' = None)
  /\ ch_initialized server' = ch_initialized server.
Proof.
  unfold ch_read_message. destruct (ch_process server) as [p|] eqn:E.
  - destruct (running p).
    + destruct (read_from p). intros H; injection H as _ <-; cbn.
      split; [split; discriminate | reflexivity].
    + intros H; injection H as _ <-. rewrite E. split; [tauto | reflexivity].
  - intros H; injection H as _ <-. rewrite E. split; [tauto | reflexivity].
Qed.

Lemma ch_send_request_keeps (method params : json)
  (server server' : CallHierarchyServer) (r : outcome json) :
  ch_send_request method params server = (r, server') ->
  (ch_process server = None <-> ch_process server' = None)
  /\ ch_initialized server' = ch_initialized server.
Proof.
  unfold ch_send_request. destruct (ch_is_alive server).
  2: { intros H; injection H as _ <-. split; [tauto | reflexivity]. }
  cbn [negb]. cbv zeta. unfold bind.
  destruct (ch_send_message _ _) as [[sent|e] s1] eqn:E1.
  - apply ch_send_message_keeps in E1 as [Hp Hi]. cbn in Hp, Hi.
    destruct sent.
    + intros H. apply ch_read_message_keeps in H as [Hp' Hi'].
      split; [tauto | congruence].
    + intros H; injection H as _ <-. split; [tauto | congruence].
  - apply ch_send_message_keeps in E1 as [Hp Hi]. cbn in Hp, Hi.
    intros H; injection H as _ <-. split; [tauto | congruence].
Qed.

Lemma ch_send_notification_keeps (method params : json)
  (server server' : CallHierarchyServer) (r : outcome unit) :
  ch_send_notification method params server = (r, server') ->
  (ch_process server = None <-> ch_process server' = None)
  /\ ch_initialized server' = ch_initialized server.
Proof.
  unfold ch_send_notification, bind, ret.
  destruct (ch_send_message _ server) as [[sent|e] s1] eqn:E1; intros H;
    injection H as _ <-; eapply ch_send_message_keeps, E1.
Qed.

(** A handshake that does not succeed leaves the server uninitialized. *)
Lemma ch_initialize_uninitialized (os : Platform) (root_uri : string)
  (workspace_folders : json) (server server' : CallHierarchyServer)
  (r : outcome bool) :
  ch_initialized server = false ->
  ch_initialize os root_uri workspace_folders server = (r, server') ->
  r <> Ok true ->
  ch_initialized server' = false.
Proof.
  intros Hinit H Hr. unfold ch_initialize in H. rewrite Hinit in H.
  unfold bind at 1 in H.
  destruct (ch_send_request _ _ _) as [[response|e] s1] eqn:E1.
  2: { injection H as _ <-. apply ch_send_request_keeps in E1 as [_ ->]. exact Hinit. }
  apply ch_send_request_keeps in E1 as [_ Hi1]. cbn in Hi1. rewrite Hinit in Hi1.
  unfold bind, lift, ret in H.
  destruct (truthy_and_has "result" response) as [[|]|e].
  - destruct (subscript "result" response) as [result|e]; [|injection H as _ <-; exact Hi1].
    destruct (as_dict result) as [result'|e]; [|injection H as _ <-; exact Hi1].
    destruct (as_dict _) as [caps|e]; [|injection H as _ <-; exact Hi1].
    destruct (Py.truthy _).
    + destruct (ch_send_notification _ _ s1) as [[[]|e] s2] eqn:E2.
      * injection H as <- _. congruence.
      * injection H as _ <-. apply ch_send_notification_keeps in E2 as [_ ->]. exact Hi1.
    + injection H as _ <-. exact Hi1.
  - destruct (log_error response); injection H as _ <-; exact Hi1.
  - injection H as _ <-. exact Hi1.
Qed.

(** C8. While the call-hierarchy server is absent or uninitialized, each
    of the three call-hierarchy requests is answered by an error response
    that carries the identifier of the request and the code -32601, and
    the state is left as it was: nothing is forwarded to the AL server.
    The server is absent after [_start_call_hierarchy_server] when the
    executable is not found, when the process does not start, and when the
    handshake fails; when the handshake raises, the server is left
    uninitialized. *)
Theorem call_hierarchy_unavailable_error (os : Platform) (w : World) :
  (forall (request : dict) (method : string),
      Py.get "method" request = Some (JStr method) ->
      In method call_hierarchy_methods ->
      call_hierarchy_unavailable_in w ->
      process_request os (JObj request) w
      = (Ok (JObj [("jsonrpc", JStr "2.0"); ("id", Py.get_none "id" request);
                   ("error",
                    JObj [("code", JInt (-32601));
                          ("message", JStr "Call hierarchy server not available")])]),
         w))
  /\ (call_hierarchy_server w = None ->
      find_call_hierarchy_executable os = None ->
      _start_call_hierarchy_server os w = (Ok tt, w))
  /\ (spawn w = None ->
      forall exe, find_call_hierarchy_executable os = Some exe -> exe <> EmptyString ->
      _start_call_hierarchy_server os w = (Ok tt, set_call_hierarchy_server None w))
  /\ (forall exe child path server,
      find_call_hierarchy_executable os = Some exe -> exe <> EmptyString ->
      spawn w = Some child ->
      (if Py.truthy (workspace_root w) then workspace_root w
       else json_of_option (root_path w)) = JStr path ->
      path <> EmptyString ->
      is_absolute os (Path os path) = true ->
      ch_initialize os (uri_text os (Path os path))
        (JArr [JObj [("uri", JStr (uri_text os (Path os path)));
                     ("name", JStr (Pathlib.name (Path os path)))]])
        (ch_set_process (Some child) ch_fresh) = (Ok false, server) ->
      _start_call_hierarchy_server os w = (Ok tt, set_call_hierarchy_server None w))
  /\ (forall exe child path server e,
      find_call_hierarchy_executable os = Some exe -> exe <> EmptyString ->
      spawn w = Some child ->
      (if Py.truthy (workspace_root w) then workspace_root w
       else json_of_option (root_path w)) = JStr path ->
      path <> EmptyString ->
      is_absolute os (Path os path) = true ->
      ch_initialize os (uri_text os (Path os path))
        (JArr [JObj [("uri", JStr (uri_text os (Path os path)));
                     ("name", JStr (Pathlib.name (Path os path)))]])
        (ch_set_process (Some child) ch_fresh) = (Raise e, server) ->
      _start_call_hierarchy_server os w
      = (Raise e, set_call_hierarchy_server (Some server) w)
      /\ call_hierarchy_unavailable_in (set_call_hierarchy_server (Some server) w)).
Proof.
  split; [|split; [|split; [|split]]].
  - intros request method Hm Hin Hch.
    assert (Hmethod : Py.get_default "method" (JStr EmptyString) request = JStr method).
    { unfold Py.get_default. now rewrite Hm. }
    unfold process_request, bind, lift. cbn [as_dict]. cbv zeta.
    rewrite !Hmethod.
    assert (Hroute : route_call_hierarchy (JStr method)
                       (Py.get_default "params" (JObj []) request)
                       (Py.get_none "id" request) w
                     = (Ok (call_hierarchy_unavailable (Py.get_none "id" request)), w)).
    { unfold route_call_hierarchy. unfold call_hierarchy_unavailable_in in Hch.
      destruct (call_hierarchy_server w) as [server|]; [rewrite Hch|]; reflexivity. }
    destruct Hin as [<-|[<-|[<-|[]]]]; cbn; exact Hroute.
  - intros _ Hexe. unfold _start_call_hierarchy_server. now rewrite Hexe.
  - intros Hspawn exe Hexe Hne. unfold _start_call_hierarchy_server.
    rewrite Hexe, Hspawn. destruct exe; [congruence|]. reflexivity.
  - intros exe child path server Hexe Hne Hspawn Hpath Hpne Habs Hinit.
    unfold _start_call_hierarchy_server.
    rewrite Hexe, Hspawn. destruct exe; [congruence|]. cbn [PyStr.truthy negb].
    unfold ch_start. cbv zeta.
    cbn [workspace_root root_path set_call_hierarchy_server].
    rewrite Hpath.
    assert (Htruthy : Py.truthy (JStr path) = true) by (destruct path; [congruence|reflexivity]).
    rewrite Htruthy. cbn [path_arg obind].
    unfold as_uri. rewrite Habs. cbn [obind].
    rewrite Hinit.
    destruct (ch_shutdown_returns server) as (s' & ->). reflexivity.
  - intros exe child path server e Hexe Hne Hspawn Hpath Hpne Habs Hinit.
    split.
    + unfold _start_call_hierarchy_server.
      rewrite Hexe, Hspawn. destruct exe; [congruence|]. cbn [PyStr.truthy negb].
      unfold ch_start. cbv zeta.
      cbn [workspace_root root_path set_call_hierarchy_server].
      rewrite Hpath.
      assert (Htruthy : Py.truthy (JStr path) = true)
        by (destruct path; [congruence|reflexivity]).
      rewrite Htruthy. cbn [path_arg obind].
      unfold as_uri. rewrite Habs. cbn [obind].
      rewrite Hinit. reflexivity.
    + unfold call_hierarchy_unavailable_in. cbn [call_hierarchy_server].
      eapply ch_initialize_uninitialized; [|exact Hinit|discriminate]. reflexivity.
Qed.

(** ** The project of a file *)


















(** ** Reasoning about runs *)

Section Evolution.

Variable R : World -> World -> Prop.
Hypothesis R_refl : forall w, R w w.
Hypothesis R_trans : forall a b c, R a b -> R b c -> R a c.

Lemma evolves_ret {A} (a : A) : evolves R (ret a).
Proof. intros w r w' H. injection H as _ <-. apply R_refl. Qed.

Lemma evolves_raise {A} (e : exn) : evolves R (@raise World A e).
Proof. intros w r w' H. injection H as _ <-. apply R_refl. Qed.

Lemma evolves_lift {A} (x : outcome A) : evolves R (lift x).
Proof. intros w r w' H. injection H as _ <-. apply R_refl. Qed.

Lemma evolves_bind {A B} (m : M A) (f : A -> M B) :
  evolves R m -> (forall a, evolves R (f a)) -> evolves R (bind m f).
Proof.
  intros Hm Hf w r w' H. unfold bind in H.
  destruct (m w) as [[a|e] w1] eqn:E.
  - eapply R_trans; [eapply Hm, E | eapply Hf, H].
  - injection H as _ <-. eapply Hm, E.
Qed.

Lemma evolves_try {A} (body handler : M A) :
  evolves R body -> evolves R handler -> evolves R (try_except body handler).
Proof.
  intros Hb Hh w r w' H. unfold try_except in H.
  destruct (body w) as [[a|e] w1] eqn:E.
  - injection H as _ <-. eapply Hb, E.
  - eapply R_trans; [eapply Hb, E | eapply Hh, H].
Qed.

End Evolution.



(** A [try] whose handler returns always returns, provided the body keeps
    the invariant also when it raises. *)
Lemma returns_try {A} (I : World -> Prop) (body handler : M A) :
  evolves (fun w w' => I w -> I w') body -> returns I handler ->
  returns I (try_except body handler).
Proof.
  intros Hb Hh w Hw. unfold try_except.
  destruct (body w) as [[a|e] w1] eqn:E.
  - exists a, w1. split; [reflexivity | eapply Hb; eassumption].
  - apply Hh. eapply Hb; eassumption.
Qed.

Lemma wrote_refl (P : json -> Prop) (w : World) : wrote P w w.
Proof. exists []. split; [now rewrite app_nil_r | constructor]. Qed.

Lemma wrote_trans (P : json -> Prop) (a b c : World) :
  wrote P a b -> wrote P b c -> wrote P a c.
Proof.
  intros (s1 & E1 & F1) (s2 & E2 & F2). exists (s1 ++ s2). split.
  - now rewrite E2, E1, app_assoc.
  - apply Forall_app. split; assumption.
Qed.

Lemma keeps_refl (I : World -> Prop) (w : World) : I w -> I w.
Proof. exact (fun H => H). Qed.

Lemma keeps_trans (I : World -> Prop) (a b c : World) :
  (I a -> I b) -> (I b -> I c) -> I a -> I c.
Proof. auto. Qed.

(** *** The messaging primitives *)

Lemma send_message_wrote (P : json -> Prop) (msg : json) :
  P msg -> evolves (wrote P) (send_message msg).
Proof.
  intros HP w r w' H. unfold send_message, write_to in H.
  destruct (writes_left (process w)) as [[|n]|]; injection H as _ <-;
    try apply wrote_refl; exists [msg]; split; try reflexivity; now constructor.
Qed.



Lemma send_request_run (method params : json) (w : World) :
  send_request method params w
  = match write_to
            (JObj [("jsonrpc", JStr "2.0"); ("id", JInt (request_id w + 1));
                   ("method", method); ("params", params)]) (process w) with
    | Some p =>
        (fst (await_response (request_id w + 1) (stdout p)),
         set_process (with_stdout (snd (await_response (request_id w + 1) (stdout p))) p)
           (set_request_id (request_id w + 1) w))
    | None => (Raise BrokenPipeError, set_request_id (request_id w + 1) w)
    end.
Proof.
  unfold send_request, bind, send_message. cbn [set_request_id process request_id].
  destruct (write_to _ (process w)) as [p|]; [|reflexivity].
  unfold set_process, set_request_id. cbn.
  destruct (await_response (request_id w + 1) (stdout p)); reflexivity.
Qed.

Lemma send_request_wrote (P : json -> Prop) (method params : json) :
  (forall id, P (JObj [("jsonrpc", JStr "2.0"); ("id", JInt id);
                       ("method", method); ("params", params)])) ->
  evolves (wrote P) (send_request method params).
Proof.
  intros HP w r w' H. rewrite send_request_run in H. unfold write_to in H.
  destruct (writes_left (process w)) as [[|n]|]; injection H as _ <-; unfold wrote; cbn.
  - exists []. split; [now rewrite app_nil_r | constructor].
  - eexists [_]. split; [reflexivity | constructor; [apply HP | constructor]].
  - eexists [_]. split; [reflexivity | constructor; [apply HP | constructor]].
Qed.






(** *** The methods that run before a request is forwarded *)

Section Prelude.

Variable os : Platform.
Variable R : World -> World -> Prop.
Variable Q : json -> Prop.

Hypothesis R_refl : forall w, R w w.
Hypothesis R_trans : forall a b c, R a b -> R b c -> R a c.
Hypothesis R_message : forall msg, Q msg -> evolves R (send_message msg).
Hypothesis R_request : forall method params,
  (forall id, Q (JObj [("jsonrpc", JStr "2.0"); ("id", JInt id);
                       ("method", method); ("params", params)])) ->
  evolves R (send_request method params).
Hypothesis R_opened : forall l w, R w (set_opened_files l w).
Hypothesis R_recorded : forall x w,
  R w (set_initialized_projects (add x (initialized_projects w)) w).
Hypothesis R_clock : forall c w, R w (set_clock c w).
Hypothesis Q_prelude : forall msg m,
  method_of msg = JStr m -> In m prelude_methods -> Q msg.

Ltac prelude_message :=
  first [ apply R_message | apply R_request; intros ];
  eapply Q_prelude; [reflexivity | simpl; auto 8].

Ltac evolve_step :=
  first
    [ prelude_message
    | apply (evolves_ret R R_refl)
    | apply (evolves_lift R R_refl)
    | apply (evolves_raise R R_refl)
    | apply (evolves_try R R_trans)
    | apply (evolves_bind R R_trans); [|intros] ].

Lemma open_manifest_evolves (project_root : string) :
  evolves R (open_manifest os project_root).
Proof.
  unfold open_manifest, send_notification.
  destruct (exists_ os _); [|apply (evolves_ret R R_refl)].
  repeat evolve_step.
  destruct (read_text os _); repeat evolve_step.
Qed.

Lemma set_active_workspace_evolves (project_root : string) :
  evolves R (set_active_workspace os project_root).
Proof.
  unfold set_active_workspace. repeat evolve_step.
Qed.

Lemma ensure_file_opened_evolves (uri : string) :
  evolves R (_ensure_file_opened os uri).
Proof.
  intros w r w' H. unfold _ensure_file_opened in H.
  destruct (mem uri (opened_files w)); [injection H as _ <-; apply R_refl|].
  revert H. apply (evolves_try R R_trans); [|apply (evolves_ret R R_refl)].
  unfold send_notification. repeat evolve_step;
    try (destruct (read_text os _); repeat evolve_step).
  intros w1 r1 w1' H1. injection H1 as _ <-. apply R_opened.
Qed.

Lemma ensure_project_initialized_evolves (file_uri : json) :
  evolves R (_ensure_project_initialized os file_uri).
Proof.
  unfold _ensure_project_initialized. repeat evolve_step.
  destruct (resolved_project_root os _) as [project_root|]; [|repeat evolve_step].
  intros w r w' H. cbv beta in H.
  destruct (mem project_root (initialized_projects w)).
  - injection H as _ <-. apply R_refl.
  - revert H. unfold send_notification. repeat evolve_step;
      try apply open_manifest_evolves; try apply set_active_workspace_evolves.
    intros w1 r1 w1' H1. injection H1 as _ <-. apply R_recorded.
Qed.

Lemma check_project_loaded_evolves : evolves R check_project_loaded.
Proof.
  unfold check_project_loaded. repeat evolve_step.
  destruct a as [d|]; [|repeat evolve_step].
  destruct (has_result (Some d)); [|repeat evolve_step].
  destruct (Py.get_none "result" d); repeat evolve_step.
Qed.

Lemma wait_for_project_load_evolves : evolves R _wait_for_project_load.
Proof.
  unfold _wait_for_project_load. intros w r w' H.
  remember (clock w) as answers eqn:E. clear E.
  revert w r w' H. induction answers as [|answer later IH]; intros w r w' H.
  - injection H as _ <-. apply R_clock.
  - destruct answer; cbn [wait_loop] in H.
    + destruct (check_project_loaded (set_clock later w)) as [[loaded|e] w1] eqn:E.
      * apply R_trans with (b := set_clock later w); [apply R_clock|].
        apply R_trans with (b := w1); [eapply check_project_loaded_evolves, E|].
        destruct (Py.truthy loaded).
        -- injection H as _ <-. apply R_refl.
        -- eapply IH, H.
      * injection H as _ <-.
        apply R_trans with (b := set_clock later w); [apply R_clock|].
        eapply check_project_loaded_evolves, E.
    + injection H as _ <-. apply R_clock.
Qed.

End Prelude.

(** *** Three instances: what is written, health, recorded projects *)

Lemma wrote_state (P : json -> Prop) (w w' : World) :
  process w' = process w -> wrote P w w'.
Proof. intros E. exists []. rewrite E. split; [now rewrite app_nil_r | constructor]. Qed.


Lemma mem_add (x y : string) (l : list string) :
  mem x l = true -> mem x (add y l) = true.
Proof.
  unfold add, mem. intros H. destruct (existsb (String.eqb y) l); [exact H|].
  rewrite existsb_app, H. reflexivity.
Qed.

Lemma mem_add_same (x : string) (l : list string) : mem x (add x l) = true.
Proof.
  unfold add. destruct (mem x l) eqn:E; [exact E|].
  unfold mem. rewrite existsb_app. cbn. rewrite String.eqb_refl.
  now rewrite orb_true_r.
Qed.

Lemma records_state (w w' : World) :
  initialized_projects w' = initialized_projects w -> records w w'.
Proof. intros E root. now rewrite E. Qed.

Lemma send_message_state (msg : json) :
  evolves (fun w w' => initialized_projects w' = initialized_projects w
                       /\ root_path w' = root_path w
                       /\ call_hierarchy_server w' = call_hierarchy_server w)
    (send_message msg).
Proof.
  intros w r w' H. unfold send_message in H.
  destruct (write_to msg (process w)); injection H as _ <-; repeat split.
Qed.

Lemma send_request_state (method params : json) :
  evolves (fun w w' => initialized_projects w' = initialized_projects w
                       /\ root_path w' = root_path w
                       /\ call_hierarchy_server w' = call_hierarchy_server w)
    (send_request method params).
Proof.
  intros w r w' H. rewrite send_request_run in H.
  destruct (write_to _ (process w)); injection H as _ <-; repeat split.
Qed.

Section Instances.

Variable os : Platform.

Section Wrote.

Variable P : json -> Prop.
Hypothesis P_prelude : forall msg m,
  method_of msg = JStr m -> In m prelude_methods -> P msg.

Lemma ensure_project_initialized_wrote (file_uri : json) :
  evolves (wrote P) (_ensure_project_initialized os file_uri).
Proof.
  apply ensure_project_initialized_evolves with (Q := P);
    auto using wrote_refl, send_message_wrote, send_request_wrote.
  - apply wrote_trans.
  - intros; now apply wrote_state.
Qed.

Lemma wait_for_project_load_wrote : evolves (wrote P) _wait_for_project_load.
Proof.
  apply wait_for_project_load_evolves with (Q := P);
    auto using wrote_refl, send_message_wrote, send_request_wrote.
  - apply wrote_trans.
  - intros; now apply wrote_state.
Qed.

End Wrote.






Lemma records_message (msg : json) : True -> evolves records (send_message msg).
Proof.
  intros _ w r w' H. apply records_state. eapply send_message_state, H.
Qed.

Lemma records_request (method params : json) :
  (forall id : Z, True) -> evolves records (send_request method params).
Proof.
  intros _ w r w' H. apply records_state. eapply send_request_state, H.
Qed.

Lemma ensure_project_initialized_records (file_uri : json) :
  evolves records (_ensure_project_initialized os file_uri).
Proof.
  apply ensure_project_initialized_evolves with (Q := fun _ => True);
    auto using records_message, records_request.
  - intros w root H. exact H.
  - intros a b c Hab Hbc root H. apply Hbc, Hab, H.
  - intros x w root H. cbn. apply mem_add, H.
Qed.

End Instances.

Lemma bind_ok {S A B} (m : State S A) (f : A -> State S B) (w w' : S) (b : B) :
  bind m f w = (Ok b, w') -> exists a w1, m w = (Ok a, w1) /\ f a w1 = (Ok b, w').
Proof.
  unfold bind. destruct (m w) as [[a|e] w1]; [eauto | discriminate].
Qed.

(** ** Project initialization *)

Lemma ensure_recorded_is_noop (os : Platform) (file_uri root : string) (w : World) :
  resolved_project_root os file_uri = Some root ->
  mem root (initialized_projects w) = true ->
  _ensure_project_initialized os (JStr file_uri) w = (Ok (Some root), w).
Proof.
  intros Hroot Hmem. unfold _ensure_project_initialized, bind, lift. cbn [as_str].
  now rewrite Hroot, Hmem.
Qed.

(** C5. [_ensure_project_initialized] is idempotent per resolved project
    root.  Once the root is in [initialized_projects], a call for a file
    under it returns the root and leaves the state as it is: no
    configuration notification, no [didOpen] of the manifest and no
    [al/setActiveWorkspace] request is written.  Every call that returns
    has recorded the root, so that the next call for any file under the
    same root is such a call; and a recorded root stays recorded through
    the calls for any other file. *)
Theorem ensure_project_initialized_idempotent (os : Platform)
  (file_uri root : string) (w : World) :
  resolved_project_root os file_uri = Some root ->
  (mem root (initialized_projects w) = true ->
   _ensure_project_initialized os (JStr file_uri) w = (Ok (Some root), w))
  /\ (forall result w1,
        _ensure_project_initialized os (JStr file_uri) w = (Ok result, w1) ->
        result = Some root
        /\ mem root (initialized_projects w1) = true
        /\ forall other_uri,
             resolved_project_root os other_uri = Some root ->
             _ensure_project_initialized os (JStr other_uri) w1 = (Ok (Some root), w1))
  /\ (forall any_uri r w',
        mem root (initialized_projects w) = true ->
        _ensure_project_initialized os any_uri w = (r, w') ->
        mem root (initialized_projects w') = true).
Proof.
  intros Hroot. split; [|split].
  - apply ensure_recorded_is_noop, Hroot.
  - intros result w1 Hrun.
    assert (H : result = Some root /\ mem root (initialized_projects w1) = true).
    { unfold _ensure_project_initialized in Hrun.
      apply bind_ok in Hrun as (uri & w0 & Huri & Hrun).
      injection Huri as <- <-. rewrite Hroot in Hrun.
      destruct (mem root (initialized_projects w)) eqn:Hmem.
      - injection Hrun as <- <-. split; [reflexivity | exact Hmem].
      - apply bind_ok in Hrun as (? & wa & _ & Hrun).
        apply bind_ok in Hrun as (? & wb & _ & Hrun).
        apply bind_ok in Hrun as (? & wc & _ & Hrun).
        injection Hrun as <- <-. split; [reflexivity|].
        cbn. apply mem_add_same. }
    destruct H as [-> Hmem]. repeat split; [exact Hmem|].
    intros other_uri Hother. now apply ensure_recorded_is_noop.
  - intros any_uri r w' Hmem Hrun.
    exact (ensure_project_initialized_records os any_uri w r w' Hrun root Hmem).
Qed.

(** ** Workspace symbols *)

Lemma strip_nonempty (query : string) :
  PyStr.strip query <> EmptyString -> PyStr.truthy query = true.
Proof. destruct query; [intros H; now elim H | reflexivity]. Qed.

(** The run of [handle_workspace_symbol] on an accepted query. *)
Lemma handle_workspace_symbol_run (os : Platform) (params : dict) (query : string)
  (w : World) :
  Py.get_default "query" (JStr EmptyString) params = JStr query ->
  PyStr.strip query <> EmptyString ->
  handle_workspace_symbol os (JObj params) w
  = (ensure_root_project os ;; _wait_for_project_load ;;
     search_symbols (effective_query query)) w.
Proof.
  intros Hq Hstrip. unfold handle_workspace_symbol.
  unfold bind at 1. cbn [lift as_dict]. rewrite Hq.
  unfold bind at 1. unfold query_is_empty. cbn [Py.truthy lift].
  rewrite (strip_nonempty _ Hstrip). cbn [negb as_str obind].
  assert (PyStr.truthy (PyStr.strip query) = true) as ->.
  { destruct (PyStr.strip query); [now elim Hstrip | reflexivity]. }
  cbn [negb]. unfold bind at 1. cbn [lift as_str]. reflexivity.
Qed.



Section Healthy.

Variable os : Platform.








End Healthy.


(** ** The query rewritten from a file path *)

(** Replacing one character by another goes character by character. *)
Lemma replace_backslash (s : string) :
  PyStr.replace "\" "/" s
  = match s with
    | EmptyString => EmptyString
    | String c s' =>
        String (if Ascii.eqb c "\" then "/"%char else c) (PyStr.replace "\" "/" s')
    end.
Proof.
  destruct s as [|c s']; [reflexivity|].
  unfold PyStr.replace. cbn [PyStr.replace_go PyStr.startswith].
  rewrite (Ascii.eqb_sym c). destruct (Ascii.eqb "\" c); reflexivity.
Qed.

Lemma split_nonempty (sep : ascii) (maxsplit : option nat) (s : string) :
  PyStr.split sep maxsplit s <> [].
Proof.
  destruct s as [|c s']; cbn; [discriminate|].
  destruct maxsplit as [[|k]|]; try discriminate;
    destruct (Ascii.eqb c sep); try discriminate;
    destruct (PyStr.split sep _ s'); discriminate.
Qed.

Lemma split_slash_step (c : ascii) (s : string) :
  PyStr.split "/" None (String c s)
  = if Ascii.eqb c "/" then EmptyString :: PyStr.split "/" None s
    else match PyStr.split "/" None s with
         | p :: ps => String c p :: ps
         | [] => [String c EmptyString]
         end.
Proof. reflexivity. Qed.

Lemma last_segment_whole (s : string) :
  has_separator s = false -> last_segment s = s.
Proof.
  destruct s as [|c s']; [reflexivity|]. cbn.
  intros H. apply orb_false_elim in H as [Hc Hs]. now rewrite Hs, Hc.
Qed.

Lemma split_without_separator (s : string) :
  has_separator s = false ->
  PyStr.split "/" None (PyStr.replace "\" "/" s) = [s].
Proof.
  induction s as [|c s IH]; [reflexivity|].
  cbn [has_separator]. intros H. apply orb_false_elim in H as [Hc Hs].
  unfold is_separator in Hc. apply orb_false_elim in Hc as [Hslash Hback].
  rewrite replace_backslash, Hback, split_slash_step, Hslash, (IH Hs). reflexivity.
Qed.

Lemma split_with_separator (s : string) :
  has_separator s = true ->
  exists p q ps, PyStr.split "/" None (PyStr.replace "\" "/" s) = p :: q :: ps.
Proof.
  induction s as [|c s IH]; [discriminate|].
  cbn [has_separator]. intros H. rewrite replace_backslash, split_slash_step.
  destruct (is_separator c) eqn:Hc.
  - assert (Ascii.eqb (if Ascii.eqb c "\" then "/"%char else c) "/" = true) as ->.
    { unfold is_separator in Hc. destruct (Ascii.eqb c "\"); [reflexivity|].
      now rewrite orb_false_r in Hc. }
    destruct (PyStr.split "/" None (PyStr.replace "\" "/" s)) as [|q ps] eqn:E.
    + now apply split_nonempty in E.
    + eauto.
  - cbn in H. destruct (IH H) as (p & q & ps & E). rewrite E.
    destruct (Ascii.eqb _ "/"); eauto.
Qed.

Lemma last_cons2 {A} (a b : A) (l : list A) (d : A) :
  List.last (a :: b :: l) d = List.last (b :: l) d.
Proof. reflexivity. Qed.

(** The last piece between separators is the last segment. *)
Lemma last_part_is_last_segment (s : string) :
  PyStr.last_part (PyStr.split "/" None (PyStr.replace "\" "/" s)) = last_segment s.
Proof.
  unfold PyStr.last_part. induction s as [|c s IH]; [reflexivity|].
  cbn [last_segment]. rewrite replace_backslash, split_slash_step.
  destruct (has_separator s) eqn:Hs.
  - destruct (split_with_separator s Hs) as (p & q & ps & E).
    rewrite E in *. destruct (Ascii.eqb _ "/"); rewrite last_cons2; exact IH.
  - rewrite (split_without_separator s Hs) in *.
    unfold is_separator.
    destruct (Ascii.eqb c "\") eqn:Hb.
    + rewrite orb_true_r. reflexivity.
    + rewrite orb_false_r. destruct (Ascii.eqb c "/"); reflexivity.
Qed.

Lemma take_length_3 (c : ascii) (s : string) :
  3 <= String.length s ->
  PyStr.take (String.length (String c s) - 3) (String c s)
  = String c (PyStr.take (String.length s - 3) s).
Proof.
  intros H. cbn [String.length].
  replace (S (String.length s) - 3) with (S (String.length s - 3)) by lia.
  reflexivity.
Qed.

Lemma slice_minus_3 (s : string) :
  PyStr.slice None (Some (-3)%Z) s = PyStr.take (String.length s - 3) s.
Proof.
  unfold PyStr.slice, PyStr.bound. cbn [Z.ltb Z.compare PyStr.skip].
  rewrite Nat.sub_0_r. f_equal. lia.
Qed.

Lemma endswith_al_step (c : ascii) (s : string) :
  String.eqb (String c s) ".al" = false ->
  PyStr.endswith ".al" (String c s) = PyStr.endswith ".al" s.
Proof.
  intros Hne. unfold PyStr.endswith. cbn [String.length].
  destruct (3 <=? String.length s) eqn:Hlen.
  - apply Nat.leb_le in Hlen.
    replace (3 <=? S (String.length s)) with true by (symmetry; apply Nat.leb_le; lia).
    replace (S (String.length s) - 3) with (S (String.length s - 3)) by lia.
    reflexivity.
  - apply Nat.leb_gt in Hlen.
    destruct (3 <=? S (String.length s)) eqn:Hlen'; [|reflexivity].
    apply Nat.leb_le in Hlen'.
    replace (S (String.length s) - 3) with 0 by lia.
    cbn [PyStr.skip andb]. exact Hne.
Qed.

Lemma endswith_al_length (s : string) :
  PyStr.endswith ".al" s = true -> 3 <= String.length s.
Proof.
  unfold PyStr.endswith. intros H. apply andb_prop in H as [H _].
  now apply Nat.leb_le in H.
Qed.

(** Stripping the extension is dropping the last three characters of a
    name that ends with it. *)
Lemma strip_extension_slice (s : string) :
  (if PyStr.endswith ".al" s then PyStr.slice None (Some (-3)%Z) s else s)
  = strip_extension s.
Proof.
  rewrite slice_minus_3. induction s as [|c s IH]; [reflexivity|].
  cbn [strip_extension]. destruct (String.eqb (String c s) ".al") eqn:E.
  - apply String.eqb_eq in E. rewrite E. reflexivity.
  - rewrite (endswith_al_step c s E), <- IH.
    destruct (PyStr.endswith ".al" s) eqn:He; [|reflexivity].
    apply take_length_3, endswith_al_length, He.
Qed.

Lemma split_zero (sep : ascii) (s : string) : PyStr.split sep (Some 0) s = [s].
Proof. destruct s; reflexivity. Qed.

Lemma split_space_step (k : nat) (s : string) :
  PyStr.split " " (Some (S k)) s
  = match after_space s with
    | Some rest => before_space s :: PyStr.split " " (Some k) rest
    | None => [s]
    end.
Proof.
  induction s as [|c s IH]; [reflexivity|].
  cbn [PyStr.split after_space before_space option_map Nat.pred].
  destruct (Ascii.eqb c " "); [reflexivity|].
  rewrite IH. destruct (after_space s); reflexivity.
Qed.

(** The third part of the split is what follows the second space. *)
Lemma split_third_part (s : string) :
  (if 3 <=? length (PyStr.split " " (Some 2) s)
   then nth 2 (PyStr.split " " (Some 2) s) EmptyString else s)
  = match third_part s with
    | Some name => name
    | None => s
    end.
Proof.
  unfold third_part. rewrite split_space_step.
  destruct (after_space s) as [rest|]; [|reflexivity].
  rewrite split_space_step.
  destruct (after_space rest) as [name|]; [|reflexivity].
  rewrite split_zero. reflexivity.
Qed.

(** The code's rewriting is the rule of the specification. *)
Lemma query_from_path_rule (query : string) :
  query_from_path query = rewritten_query query.
Proof.
  unfold query_from_path, rewritten_query.
  rewrite last_part_is_last_segment, strip_extension_slice.
  apply split_third_part.
Qed.

Lemma contains_lstrip (c : ascii) (s : string) :
  PyStr.isspace c = false -> PyStr.contains c s = true ->
  PyStr.contains c (PyStr.lstrip s) = true.
Proof.
  intros Hc. induction s as [|a s IH]; [discriminate|].
  cbn [PyStr.contains PyStr.lstrip]. intros H.
  destruct (PyStr.isspace a) eqn:Ha.
  - apply IH. destruct (Ascii.eqb a c) eqn:E; [|exact H].
    apply Ascii.eqb_eq in E. congruence.
  - exact H.
Qed.

Lemma contains_rstrip (c : ascii) (s : string) :
  PyStr.isspace c = false -> PyStr.contains c s = true ->
  PyStr.rstrip s <> EmptyString.
Proof.
  intros Hc. induction s as [|a s IH]; [discriminate|].
  cbn [PyStr.contains PyStr.rstrip]. intros H.
  destruct (PyStr.rstrip s) eqn:Er; [|discriminate].
  destruct (Ascii.eqb a c) eqn:E.
  - apply Ascii.eqb_eq in E. subst a. rewrite Hc. discriminate.
  - cbn in H. now elim (IH H).
Qed.

Lemma contains_skip (c : ascii) (n : nat) (s : string) :
  PyStr.contains c (PyStr.skip n s) = true -> PyStr.contains c s = true.
Proof.
  revert s. induction n as [|n IH]; intros s H; [exact H|].
  destruct s as [|a s]; [discriminate|]. cbn in *.
  rewrite (IH _ H). apply orb_true_r.
Qed.

(** A query that looks like a path is not blank. *)
Lemma path_is_not_blank (query : string) :
  looks_like_path query = true -> PyStr.strip query <> EmptyString.
Proof.
  unfold looks_like_path. intros H.
  assert (Hc : exists c, PyStr.isspace c = false /\ PyStr.contains c query = true).
  { apply orb_prop in H as [H|H]; [apply orb_prop in H as [H|H]|].
    - exists "\"%char. split; [reflexivity | exact H].
    - exists "/"%char. split; [reflexivity | exact H].
    - exists "."%char. split; [reflexivity|].
      unfold PyStr.endswith in H. apply andb_prop in H as [_ H].
      apply String.eqb_eq in H. eapply contains_skip. rewrite H. reflexivity. }
  destruct Hc as (c & Hc & Hin). unfold PyStr.strip.
  eapply contains_rstrip; [exact Hc|]. now apply contains_lstrip.
Qed.

(** What a returning round trip writes: the request, numbered with the
    next id. *)
Lemma send_request_sent (method params : json) (w w' : World) (r : option dict) :
  send_request method params w = (Ok r, w') ->
  stdin (process w')
  = stdin (process w)
    ++ [JObj [("jsonrpc", JStr "2.0"); ("id", JInt (request_id w + 1));
              ("method", method); ("params", params)]]
  /\ request_id w' = (request_id w + 1)%Z.
Proof.
  rewrite send_request_run. unfold write_to.
  destruct (writes_left (process w)) as [[|n]|]; intros H; try discriminate;
    injection H as _ <-; split; reflexivity.
Qed.

Lemma search_symbols_sent (query : string) (w w' : World) (response : dict) :
  search_symbols query w = (Ok response, w') ->
  exists later,
    stdin (process w')
    = stdin (process w)
      ++ search_request (request_id w + 1) "workspace/symbol" query :: later
    /\ (later = []
        \/ later = [search_request (request_id w + 1 + 1) "al/symbolSearch" query]).
Proof.
  unfold search_symbols. intros H.
  apply bind_ok in H as (r1 & w1 & H1 & H).
  apply send_request_sent in H1 as [Hs1 Hid1].
  destruct (is_nonempty_list (result_of r1)).
  - injection H as _ <-. exists []. split; [exact Hs1 | now left].
  - apply bind_ok in H as (r2 & w2 & H2 & H).
    apply send_request_sent in H2 as [Hs2 _].
    assert (w' = w2) as ->.
    { destruct (is_nonempty_list (result_of r2)); now injection H as _ <-. }
    eexists [_]. split; [|right; reflexivity].
    rewrite Hs2, Hs1, Hid1, <- app_assoc. reflexivity.
Qed.

Lemma prelude_message_ok (msg : json) (m : string) :
  method_of msg = JStr m -> In m prelude_methods -> prelude_message msg.
Proof. intros H Hin. exists m. split; assumption. Qed.

Lemma ensure_root_project_wrote (os : Platform) :
  evolves (wrote prelude_message) (ensure_root_project os).
Proof.
  intros w r w' H. unfold ensure_root_project in H.
  destruct (root_path w) as [root|]; [|injection H as _ <-; apply wrote_refl].
  destruct (PyStr.truthy root); [|injection H as _ <-; apply wrote_refl].
  revert H. apply (evolves_bind _ (wrote_trans _)).
  - apply (evolves_lift _ (wrote_refl _)).
  - intros uri. apply (evolves_bind _ (wrote_trans _)).
    + apply ensure_project_initialized_wrote, prelude_message_ok.
    + intros _. apply (evolves_ret _ (wrote_refl _)).
Qed.

(** C6. A query that contains a path separator or ends with [.al] is
    rewritten before it is searched: the last path segment is taken, its
    ending [.al] is stripped, and of the parts separated by its first two
    spaces the third is used when there are three, else the whole stripped
    name; so [Table 6175301 CDO File.al] becomes [CDO File].  The
    [workspace/symbol] request the handler writes, and the
    [al/symbolSearch] request when there is one, carry the rewritten
    query; what is written before them belongs to the initialization of
    the project and to the wait for its load. *)
Theorem path_query_is_rewritten (os : Platform) (params : dict) (query : string)
  (w : World) :
  Py.get "query" params = Some (JStr query) ->
  looks_like_path query = true ->
  query_from_path query = rewritten_query query
  /\ query_from_path "Table 6175301 CDO File.al" = "CDO File"
  /\ (forall response w',
        handle_workspace_symbol os (JObj params) w = (Ok response, w') ->
        exists before id later,
          stdin (process w')
          = stdin (process w) ++ before
            ++ search_request id "workspace/symbol" (rewritten_query query) :: later
          /\ Forall prelude_message before
          /\ (later = []
              \/ later = [search_request (id + 1) "al/symbolSearch"
                            (rewritten_query query)])).
Proof.
  intros Hq Hpath. split; [apply query_from_path_rule|]. split; [reflexivity|].
  intros response w' H.
  assert (Hq' : Py.get_default "query" (JStr EmptyString) params = JStr query).
  { unfold Py.get_default. now rewrite Hq. }
  rewrite (handle_workspace_symbol_run os params query w Hq' (path_is_not_blank _ Hpath)) in H.
  unfold effective_query in H. rewrite Hpath, query_from_path_rule in H.
  apply bind_ok in H as (? & w1 & H1 & H).
  apply bind_ok in H as (? & w2 & H2 & H).
  apply ensure_root_project_wrote in H1 as (sent1 & E1 & F1).
  apply (wait_for_project_load_wrote prelude_message prelude_message_ok) in H2
    as (sent2 & E2 & F2).
  apply search_symbols_sent in H as (later & E3 & Hlater).
  exists (sent1 ++ sent2), (request_id w2 + 1)%Z, later. split; [|split].
  - rewrite E3, E2, E1, <- !app_assoc. reflexivity.
  - apply Forall_app. split; assumption.
  - exact Hlater.
Qed.

(** ** The matcher and the names it captures *)

Lemma append_assoc (a b c : string) : ((a ++ b) ++ c = a ++ (b ++ c))%string.
Proof. induction a as [|x a IH]; [reflexivity|]. cbn. now rewrite IH. Qed.

Lemma append_empty (a : string) : (a ++ EmptyString)%string = a.
Proof. induction a as [|x a IH]; [reflexivity|]. cbn. now rewrite IH. Qed.

Lemma length_append (a b : string) :
  String.length (a ++ b) = String.length a + String.length b.
Proof. induction a as [|x a IH]; [reflexivity|]. cbn. now rewrite IH. Qed.

Lemma take_append (a b : string) : PyStr.take (String.length a) (a ++ b) = a.
Proof. induction a as [|x a IH]; [reflexivity|]. cbn. now rewrite IH. Qed.

Section Soundness.

Context {R : Type}.

Lemma lit_sound (p : string) : forall pos s (k : nat -> string -> option R) m,
  Re.lit p pos s k = Some m ->
  exists rest, s = (p ++ rest)%string /\ k (pos + String.length p) rest = Some m.
Proof.
  induction p as [|a p IH]; intros pos s k m H.
  - exists s. cbn in *. now rewrite Nat.add_0_r.
  - destruct s as [|b s]; [discriminate|]. cbn in H.
    destruct (Ascii.eqb a b) eqn:E; [|discriminate].
    apply Ascii.eqb_eq in E. subst b.
    destruct (IH _ _ _ _ H) as (rest & -> & Hk).
    exists rest. split; [reflexivity|]. cbn. now rewrite <- Nat.add_succ_comm.
Qed.

Lemma star_sound (cl : Re.cclass) : forall s pos (k : nat -> string -> option R) m,
  Re.star cl pos s k = Some m ->
  exists text rest,
    s = (text ++ rest)%string /\ all_in cl text
    /\ k (pos + String.length text) rest = Some m.
Proof.
  induction s as [|c s IH]; intros pos k m H.
  - exists EmptyString, EmptyString. cbn in *. now rewrite Nat.add_0_r.
  - cbn in H. destruct (Re.in_class cl c) eqn:Hc.
    + destruct (Re.star cl (S pos) s k) as [m'|] eqn:E.
      * injection H as <-. destruct (IH _ _ _ E) as (text & rest & -> & Hall & Hk).
        exists (String c text), rest. repeat split; try assumption.
        cbn. now rewrite <- Nat.add_succ_comm.
      * exists EmptyString, (String c s). cbn. now rewrite Nat.add_0_r.
    + exists EmptyString, (String c s). cbn. now rewrite Nat.add_0_r.
Qed.

(** Whatever the matcher accepts, the pattern derives. *)
Lemma run_sound (r : Re.regex) :
  forall pos s cap (k : nat -> string -> option string -> option R) m,
  Re.run r pos s cap k = Some m ->
  exists text rest cap',
    s = (text ++ rest)%string /\ derives r pos text cap cap'
    /\ k (pos + String.length text) rest cap' = Some m.
Proof.
  induction r as [p|cl|cl|cl|r1 IH1 r2 IH2|r1 IH1 r2 IH2|r1 IH1|r1 IH1|];
    intros pos s cap k m H; cbn [Re.run] in H.
  - apply lit_sound in H as (rest & -> & Hk).
    exists p, rest, cap. repeat split; [constructor | exact Hk].
  - destruct s as [|c s]; [discriminate|].
    destruct (Re.in_class cl c) eqn:Hc; [|discriminate].
    exists (String c EmptyString), s, cap. repeat split; [now constructor|].
    cbn. now rewrite Nat.add_1_r.
  - apply star_sound in H as (text & rest & -> & Hall & Hk).
    exists text, rest, cap. repeat split; [now constructor | exact Hk].
  - destruct s as [|c s]; [discriminate|].
    destruct (Re.in_class cl c) eqn:Hc; [|discriminate].
    apply star_sound in H as (text & rest & -> & Hall & Hk).
    exists (String c text), rest, cap. repeat split.
    + constructor; [discriminate | now split].
    + cbn. now rewrite <- Nat.add_succ_comm.
  - apply IH1 in H as (text1 & rest1 & cap1 & -> & D1 & H).
    apply IH2 in H as (text2 & rest2 & cap2 & -> & D2 & H).
    exists (text1 ++ text2)%string, rest2, cap2. repeat split.
    + symmetry. apply append_assoc.
    + econstructor; eassumption.
    + now rewrite length_append, Nat.add_assoc.
  - destruct (Re.run r1 pos s cap k) as [m'|] eqn:E.
    + injection H as <-. apply IH1 in E as (text & rest & cap' & -> & D & Hk).
      exists text, rest, cap'. repeat split; [now apply derives_alt_left | exact Hk].
    + apply IH2 in H as (text & rest & cap' & -> & D & Hk).
      exists text, rest, cap'. repeat split; [now apply derives_alt_right | exact Hk].
  - destruct (Re.run r1 pos s cap k) as [m'|] eqn:E.
    + injection H as <-. apply IH1 in E as (text & rest & cap' & -> & D & Hk).
      exists text, rest, cap'. repeat split; [now apply derives_opt_some | exact Hk].
    + exists EmptyString, s, cap. repeat split; [apply derives_opt_none|].
      cbn. now rewrite Nat.add_0_r.
  - apply IH1 in H as (text & rest & cap' & -> & D & Hk).
    exists text, rest, (Some text). repeat split; [econstructor; eassumption|].
    rewrite Nat.add_comm, Nat.add_sub, take_append in Hk. now rewrite Nat.add_comm.
  - destruct (pos =? 0) eqn:E; [|discriminate]. apply Nat.eqb_eq in E. subst pos.
    exists EmptyString, s, cap. repeat split; [constructor | exact H].
Qed.

End Soundness.

Lemma search_from_sound (r : Re.regex) : forall s pos m,
  Re.search_from r pos s = Some m ->
  exists pos' text, derives r pos' text None (Re.group1 m).
Proof.
  induction s as [|c s IH]; intros pos m H; cbn [Re.search_from] in H.
  - destruct (Re.run r pos EmptyString None _) as [m'|] eqn:E; [|discriminate].
    injection H as <-. apply run_sound in E as (text & rest & cap' & _ & D & Hk).
    injection Hk as <-. eauto.
  - destruct (Re.run r pos (String c s) None _) as [m'|] eqn:E.
    + injection H as <-. apply run_sound in E as (text & rest & cap' & _ & D & Hk).
      injection Hk as <-. eauto.
    + eapply IH, H.
Qed.

Lemma all_in_not_quote (s : string) :
  all_in (Re.Chars true [Re.Ch PyStr.dquote]) s -> PyStr.contains PyStr.dquote s = false.
Proof.
  induction s as [|c s IH]; [reflexivity|]. cbn [all_in PyStr.contains].
  intros [Hc Hs]. rewrite (IH Hs), orb_false_r.
  unfold Re.in_class in Hc. cbn [existsb Re.item_matches] in Hc.
  rewrite Ascii.eqb_sym. now destruct (Ascii.eqb PyStr.dquote c).
Qed.

(** What the name group matches is a quoted name or an identifier. *)
Lemma name_shape (pos : nat) (text : string) (cap cap' : option string) :
  derives (Re.Alt Patterns.quoted Patterns.identifier) pos text cap cap' ->
  quoted_name text \/ identifier_name text.
Proof.
  intros H. inversion H as [| | | | |? ? ? ? ? ? D|? ? ? ? ? ? D| | | |]; subst; clear H.
  - left. unfold Patterns.quoted in D.
    inversion D as [| | | |? ? ? ? ? ? ? ? D1 D2| | | | | |]; subst; clear D.
    inversion D1; subst; clear D1.
    inversion D2 as [| | | |? ? ? ? ? ? ? ? D3 D4| | | | | |]; subst; clear D2.
    inversion D3 as [| | |? ? ? ? Hne Hall| | | | | | |]; subst; clear D3.
    inversion D4; subst; clear D4.
    exists text1. repeat split; [exact Hne | now apply all_in_not_quote].
  - right. unfold Patterns.identifier in D.
    inversion D as [| | | |? ? ? ? ? ? ? ? D1 D2| | | | | |]; subst; clear D.
    inversion D1 as [|? ? ? ? Hc| | | | | | | | |]; subst; clear D1.
    inversion D2 as [| |? ? ? ? Hall| | | | | | | |]; subst; clear D2.
    exists c, text2. repeat split; assumption.
Qed.

(** Group 1 is left as it was, or holds a quoted name or an identifier. *)
Lemma derives_capture (r : Re.regex) (pos : nat) (text : string)
  (cap cap' : option string) :
  derives r pos text cap cap' -> only_names r ->
  cap' = cap \/ exists name, cap' = Some name /\ (quoted_name name \/ identifier_name name).
Proof.
  induction 1 as [| | | |r1 r2 pos t1 t2 cap cap1 cap2 D1 IH1 D2 IH2
                  |r1 r2 pos t cap cap' D IH|r1 r2 pos t cap cap' D IH
                  |r1 pos t cap cap' D IH| |r1 pos t cap cap' D IH|];
    cbn [only_names]; intros Hn; try (now left).
  - destruct Hn as [Hn1 Hn2].
    destruct (IH2 Hn2) as [->|Hshape]; [|now right]. exact (IH1 Hn1).
  - apply IH, Hn.
  - apply IH, Hn.
  - apply IH, Hn.
  - right. exists t. split; [reflexivity|]. subst r1. eapply name_shape, D.
Qed.

Lemma patterns_only_names : Forall only_names Patterns.patterns.
Proof. repeat constructor. Qed.

(** The name a hover pattern captures is a quoted name or an identifier. *)
Lemma first_match_shape (patterns : list Re.regex) (text : string) (m : Re.Match)
  (name : string) :
  Forall only_names patterns ->
  first_match patterns text = Some m -> Re.group1 m = Some name ->
  quoted_name name \/ identifier_name name.
Proof.
  induction 1 as [|pattern patterns Hn _ IH]; [discriminate|].
  cbn [first_match]. intros H Hname.
  destruct (Re.search pattern text) as [m'|] eqn:E; [|now apply IH].
  injection H as ->. apply search_from_sound in E as (pos & matched & D).
  destruct (derives_capture _ _ _ _ _ D Hn) as [Hcap|(name' & Hcap & Hshape)];
    rewrite Hname in Hcap; [discriminate|].
  now injection Hcap as ->.
Qed.

Lemma skip_append (a b : string) : PyStr.skip (String.length a) (a ++ b) = b.
Proof. induction a as [|x a IH]; [reflexivity | exact IH]. Qed.

Lemma endswith_append (a p : string) : PyStr.endswith p (a ++ p) = true.
Proof.
  unfold PyStr.endswith. rewrite length_append.
  replace (String.length a + String.length p - String.length p) with (String.length a) by lia.
  rewrite skip_append, String.eqb_refl, andb_true_r. apply Nat.leb_le. lia.
Qed.

Lemma slice_inside (s : string) :
  PyStr.slice (Some 1%Z) (Some (-1)%Z) s
  = PyStr.take (String.length s - 2) (PyStr.skip 1 s).
Proof.
  destruct s as [|c s]; [reflexivity|].
  unfold PyStr.slice, PyStr.bound. cbn [Z.ltb Z.compare String.length].
  replace (Nat.min (S (String.length s)) (Z.to_nat 1)) with 1 by lia.
  f_equal. lia.
Qed.

(** Removing the quotes of a quoted name gives what is between them. *)
Lemma unquote_quoted (inner : string) :
  unquote_name (PyStr.dquotes ++ inner ++ PyStr.dquotes) = inner.
Proof.
  unfold unquote_name.
  replace (PyStr.startswith PyStr.dquotes (PyStr.dquotes ++ inner ++ PyStr.dquotes))
    with true by reflexivity.
  rewrite <- append_assoc, endswith_append, append_assoc. cbn [andb].
  rewrite slice_inside. cbn [PyStr.dquotes append String.length PyStr.skip].
  rewrite length_append.
  replace (S (String.length inner + String.length PyStr.dquotes) - 2)
    with (String.length inner) by (cbn; lia).
  apply take_append.
Qed.

(** An identifier does not start with a double quote. *)
Lemma identifier_not_quoted (name : string) :
  identifier_name name -> PyStr.startswith PyStr.dquotes name = false.
Proof.
  intros (c & rest & -> & Hc & _).
  cbn [PyStr.startswith PyStr.dquotes]. rewrite andb_true_r.
  destruct (Ascii.eqb PyStr.dquote c) eqn:E; [|reflexivity].
  apply Ascii.eqb_eq in E. subst c. discriminate.
Qed.

(** C10. When the first pattern that matches the hover text captures a
    name that starts with a double quote, the capture is a quoted name (a
    double quote, a non-empty text without double quote, a double quote)
    and [_extract_symbol_from_hover] returns the text between the quotes,
    so that the name is compared with the outline in unquoted form. *)
Theorem quoted_name_is_unquoted (hover : dict) (text : string) (m : Re.Match)
  (name : string) :
  hover_text hover = Some text ->
  first_match Patterns.patterns text = Some m ->
  Re.group1 m = Some name ->
  PyStr.startswith PyStr.dquotes name = true ->
  exists inner,
    name = (PyStr.dquotes ++ inner ++ PyStr.dquotes)%string
    /\ inner <> EmptyString
    /\ PyStr.contains PyStr.dquote inner = false
    /\ _extract_symbol_from_hover (JObj hover) = Ok inner.
Proof.
  intros Htext Hm Hname Hquote.
  destruct (first_match_shape _ _ _ _ patterns_only_names Hm Hname)
    as [(inner & -> & Hne & Hin)|Hid].
  2: { rewrite (identifier_not_quoted _ Hid) in Hquote. discriminate. }
  exists inner. repeat split; try assumption.
  assert (Htruthy : Py.truthy (JStr text) = true).
  { destruct text; [discriminate Hm | reflexivity]. }
  unfold _extract_symbol_from_hover. cbn [as_dict obind].
  unfold hover_text in Htext.
  destruct (Py.get_default "contents" (JObj []) hover) as [| | | |s|items|contents];
    try discriminate.
  - injection Htext as ->. cbn [obind]. rewrite Htruthy. cbn [negb].
    now rewrite Hm, Hname, unquote_quoted.
  - destruct (Py.get_default "value" (JStr EmptyString) contents) as [| | | |s| |];
      try discriminate.
    injection Htext as ->. cbn [obind]. rewrite Htruthy. cbn [negb].
    now rewrite Hm, Hname, unquote_quoted.
Qed.

(** ** The search of the outline *)

Lemma depth_item (v : json) (items : list json) :
  In v items -> depth v < depth (JArr items).
Proof.
  cbn [depth]. induction items as [|x items IH]; [contradiction|].
  intros [->|H]; cbn [fold_right]; [lia|]. specialize (IH H). lia.
Qed.

Lemma depth_field (k : string) (d : dict) (v : json) :
  Py.get k d = Some v -> depth v < depth (JObj d).
Proof.
  cbn [depth]. induction d as [|[k' x] d IH]; [discriminate|].
  cbn [Py.get fold_right snd]. destruct (String.eqb k' k).
  - intros H. injection H as ->. lia.
  - intros H. specialize (IH H). lia.
Qed.

Lemma children_field (sym : dict) :
  Py.truthy (Py.get_default "children" (JArr []) sym) = true ->
  Py.get "children" sym = Some (Py.get_default "children" (JArr []) sym).
Proof.
  unfold Py.get_default. destruct (Py.get "children" sym); [reflexivity | discriminate].
Qed.

Lemma name_matches_named (symbol_name : string) (sym : dict) (name : string) :
  node_name sym = JStr name ->
  (name_matches name symbol_name = true <-> named symbol_name sym).
Proof.
  intros Hname. unfold name_matches. rewrite orb_true_iff, !String.eqb_eq. split.
  - intros H. exists name. split; assumption.
  - intros (name' & Hname' & H). rewrite Hname in Hname'. now injection Hname' as <-.
Qed.

Lemma name_not_matches (symbol_name : string) (sym : dict) (name : string) :
  node_name sym = JStr name -> ~ named symbol_name sym ->
  name_matches name symbol_name = false.
Proof.
  intros Hname Hn. destruct (name_matches name symbol_name) eqn:E; [|reflexivity].
  elim Hn. now apply (name_matches_named _ _ _ Hname).
Qed.

(** The loop calls [recurse] on the children of the objects it goes
    through only. *)
Lemma scan_symbols_ext (recurse recurse' : json -> outcome json)
  (symbol_name : string) (file_uri : json) (items : list json) :
  (forall sym children,
      In (JObj sym) items -> Py.get "children" sym = Some children ->
      recurse children = recurse' children) ->
  scan_symbols recurse symbol_name file_uri items
  = scan_symbols recurse' symbol_name file_uri items.
Proof.
  induction items as [|v items IH]; intros Hrec; [reflexivity|].
  cbn [scan_symbols]. destruct v as [| | | | | |sym]; try reflexivity.
  cbn [as_dict obind].
  destruct (as_str (Py.get_default "name" (JStr EmptyString) sym)) as [name|e];
    [|reflexivity].
  cbn [obind].
  destruct (if name_matches name symbol_name then own_location sym file_uri else None);
    [reflexivity|].
  rewrite IH by (intros s c Hin; apply Hrec; now right).
  destruct (Py.truthy (Py.get_default "children" (JArr []) sym)) eqn:Ht; [|reflexivity].
  rewrite (Hrec sym _ (or_introl eq_refl) (children_field _ Ht)). reflexivity.
Qed.

Lemma iterate_objects (symbols : json) (items : list json) (sym : dict) :
  iterate symbols = Ok items -> In (JObj sym) items -> symbols = JArr items.
Proof.
  destruct symbols as [| | | |s|l|d]; try discriminate; cbn [iterate];
    intros H; injection H as <-.
  - intros Hin. exfalso. induction s as [|c s IH]; [contradiction|].
    destruct Hin as [H|H]; [discriminate | auto].
  - reflexivity.
  - intros Hin. exfalso. apply in_map_iff in Hin as (kv & H & _). discriminate.
Qed.

(** More fuel than the outline is deep changes nothing. *)
Lemma find_symbol_location_at_fuel (symbol_name : string) (file_uri : json) :
  forall fuel fuel' symbols,
    depth symbols < fuel -> depth symbols < fuel' ->
    find_symbol_location_at fuel symbols symbol_name file_uri
    = find_symbol_location_at fuel' symbols symbol_name file_uri.
Proof.
  induction fuel as [|fuel IH]; intros fuel' symbols H H'; [lia|].
  destruct fuel' as [|fuel']; [lia|]. cbn [find_symbol_location_at].
  destruct (iterate symbols) as [items|e] eqn:E; [|reflexivity]. cbn [obind].
  apply scan_symbols_ext. intros sym children Hin Hc.
  pose proof (iterate_objects _ _ _ E Hin) as ->.
  pose proof (depth_item _ _ Hin). pose proof (depth_field _ _ _ Hc).
  apply IH; lia.
Qed.

Lemma find_symbol_location_fuel (symbol_name : string) (file_uri : json)
  (fuel : nat) (symbols : json) :
  depth symbols < fuel ->
  find_symbol_location_at fuel symbols symbol_name file_uri
  = _find_symbol_location symbols symbol_name file_uri.
Proof.
  intros H. unfold _find_symbol_location. apply find_symbol_location_at_fuel; lia.
Qed.

(** With no node of the name looked for, the search ends with [None],
    unless it raises on a malformed outline. *)
Lemma scan_unmatched (recurse : json -> outcome json) (symbol_name : string)
  (file_uri : json) (items : list json) :
  (forall sym, In (JObj sym) items -> ~ named symbol_name sym) ->
  (forall sym children,
      In (JObj sym) items -> Py.get "children" sym = Some children ->
      recurse children = Ok JNull \/ exists e, recurse children = Raise e) ->
  scan_symbols recurse symbol_name file_uri items = Ok JNull
  \/ exists e, scan_symbols recurse symbol_name file_uri items = Raise e.
Proof.
  induction items as [|v items IH]; intros Hn Hrec; [now left|].
  cbn [scan_symbols]. destruct v as [| | | | | |sym]; try (right; eexists; reflexivity).
  cbn [as_dict obind].
  destruct (Py.get_default "name" (JStr EmptyString) sym) as [| | | |name| |] eqn:Hname;
    try (right; eexists; reflexivity).
  cbn [as_str obind].
  rewrite (name_not_matches symbol_name sym name Hname (Hn sym (or_introl eq_refl))).
  assert (Hrest : scan_symbols recurse symbol_name file_uri items = Ok JNull
                  \/ exists e, scan_symbols recurse symbol_name file_uri items = Raise e).
  { apply IH; [intros s Hin; apply Hn; now right
              | intros s c Hin; apply Hrec; now right]. }
  destruct (Py.truthy (Py.get_default "children" (JArr []) sym)) eqn:Ht.
  - destruct (Hrec sym _ (or_introl eq_refl) (children_field _ Ht)) as [->|(e & ->)].
    + exact Hrest.
    + right. eexists; reflexivity.
  - exact Hrest.
Qed.

Lemma find_unmatched (symbol_name : string) (file_uri : json) :
  forall fuel symbols,
    unmatched symbol_name symbols ->
    find_symbol_location_at fuel symbols symbol_name file_uri = Ok JNull
    \/ exists e, find_symbol_location_at fuel symbols symbol_name file_uri = Raise e.
Proof.
  induction fuel as [|fuel IH]; intros symbols Hun; [right; eexists; reflexivity|].
  cbn [find_symbol_location_at].
  destruct (iterate symbols) as [items|e] eqn:E; [|right; eexists; reflexivity].
  cbn [obind]. apply scan_unmatched.
  - intros sym Hin. pose proof (iterate_objects _ _ _ E Hin) as ->.
    apply Hun. now constructor.
  - intros sym children Hin Hc. pose proof (iterate_objects _ _ _ E Hin) as ->.
    apply IH. intros s Hs. apply Hun. eapply node_nested; eassumption.
Qed.

(** The loop passes over barren subtrees. *)
Lemma scan_barren (symbol_name : string) (file_uri : json) :
  forall fuel before rest,
    Forall (barren symbol_name) before ->
    Forall (fun v => depth v <= fuel) before ->
    scan_symbols (fun c => find_symbol_location_at fuel c symbol_name file_uri)
      symbol_name file_uri (before ++ rest)
    = scan_symbols (fun c => find_symbol_location_at fuel c symbol_name file_uri)
        symbol_name file_uri rest.
Proof.
  induction fuel as [fuel IHfuel] using lt_wf_ind.
  induction before as [|v before IH]; intros rest Hb Hd; [reflexivity|].
  apply Forall_cons_iff in Hb as [Hv Hb]. apply Forall_cons_iff in Hd as [Hdv Hd].
  cbn [app scan_symbols].
  destruct Hv as [sym name Hname Hn Hleaf|sym name children Hname Hn Hc Hch];
    cbn [as_dict obind]; unfold node_name in Hname; rewrite Hname; cbn [as_str obind];
    rewrite (name_not_matches symbol_name sym name Hname Hn).
  - rewrite Hleaf. cbn [obind Py.truthy]. now apply IH.
  - assert (Hdef : Py.get_default "children" (JArr []) sym = JArr children).
    { unfold Py.get_default. now rewrite Hc. }
    rewrite Hdef. destruct children as [|c children]; cbn [Py.truthy obind].
    + now apply IH.
    + pose proof (depth_field _ _ _ Hc) as Hlt.
      destruct fuel as [|fuel']; [lia|].
      cbn [find_symbol_location_at iterate obind].
      rewrite <- (app_nil_r (c :: children)).
      rewrite (IHfuel fuel' (Nat.lt_succ_diag_r _) (c :: children) [] Hch).
      * cbn [scan_symbols obind Py.truthy]. now apply IH.
      * apply Forall_forall. intros x Hx.
        pose proof (depth_item _ _ Hx). lia.
Qed.

Lemma reaches_nonempty (symbol_name : string) (items : list json) (sym : dict) :
  reaches symbol_name items sym -> items <> [].
Proof. intros H. destruct H; now destruct before. Qed.

(** The search returns the location of the node it reaches first. *)
Lemma scan_reaches (symbol_name : string) (file_uri location : json)
  (items : list json) (sym : dict) :
  reaches symbol_name items sym ->
  own_location sym file_uri = Some location ->
  Py.truthy location = true ->
  forall fuel,
    Forall (fun v => depth v <= fuel) items ->
    scan_symbols (fun c => find_symbol_location_at fuel c symbol_name file_uri)
      symbol_name file_uri items = Ok location.
Proof.
  intros Hreach Hloc Htruthy.
  induction Hreach as [before sym after Hb Hnamed
                      |before parent name children after sym Hb Hname Hn Hc Hreach IH];
    intros fuel Hd; apply Forall_app in Hd as [Hdb Hd];
    rewrite (scan_barren _ _ _ _ _ Hb Hdb); cbn [scan_symbols as_dict obind].
  - destruct Hnamed as (name & Hname & Heq).
    assert (Hm : name_matches name symbol_name = true).
    { apply (name_matches_named _ sym _ Hname). exists name. now split. }
    unfold node_name in Hname. rewrite Hname. cbn [as_str obind]. now rewrite Hm, Hloc.
  - pose proof (name_not_matches symbol_name parent name Hname Hn) as Hm.
    unfold node_name in Hname. rewrite Hname. cbn [as_str obind]. rewrite Hm.
    assert (Hdef : Py.get_default "children" (JArr []) parent = JArr children).
    { unfold Py.get_default. now rewrite Hc. }
    rewrite Hdef.
    assert (Py.truthy (JArr children) = true) as ->.
    { pose proof (reaches_nonempty _ _ _ Hreach). now destruct children. }
    apply Forall_cons_iff in Hd as [Hdp _].
    pose proof (depth_field _ _ _ Hc) as Hlt.
    destruct fuel as [|fuel']; [lia|].
    cbn [find_symbol_location_at iterate obind].
    rewrite (IH Hloc).
    + cbn [obind]. now rewrite Htruthy.
    + apply Forall_forall. intros x Hx. pose proof (depth_item _ _ Hx). lia.
Qed.

Lemma find_reaches (symbol_name : string) (file_uri location : json)
  (items : list json) (sym : dict) :
  reaches symbol_name items sym ->
  own_location sym file_uri = Some location ->
  Py.truthy location = true ->
  _find_symbol_location (JArr items) symbol_name file_uri = Ok location.
Proof.
  intros Hreach Hloc Htruthy. unfold _find_symbol_location.
  cbn [find_symbol_location_at iterate obind].
  apply (scan_reaches _ _ _ _ _ Hreach Hloc Htruthy).
  apply Forall_forall. intros x Hx. pose proof (depth_item _ _ Hx). lia.
Qed.

(** ** The definition fallback *)

Lemma try_except_returns {S A : Type} (body : State S A) (a : A) (s : S) :
  exists a' s', try_except body (ret a) s = (Ok a', s').
Proof.
  unfold try_except, ret. destruct (body s) as [[x|e] s']; eauto.
Qed.

(** The fallback never raises. *)
Lemma fallback_returns (params : json) (w : World) :
  exists location w', _try_document_symbol_fallback params w = (Ok location, w').
Proof. unfold _try_document_symbol_fallback. apply try_except_returns. Qed.

Lemma has_result_field (d : dict) (v : json) :
  Py.get "result" d = Some v ->
  has_result (Some d) = true /\ result_value (Some d) = v.
Proof.
  intros H. unfold has_result, result_value, Py.has_key, Py.get_none, Py.get_default.
  rewrite H. split; [|reflexivity]. destruct d; [discriminate | reflexivity].
Qed.

(** The fallback up to the hover round trip. *)
Lemma fallback_run (params text_document position : json) (w : World) :
  subscript "textDocument" params = Ok text_document ->
  subscript "position" params = Ok position ->
  _try_document_symbol_fallback params w
  = try_except
      (hover_response <-
         send_request (JStr "textDocument/hover") (hover_params text_document position) ;;
       if negb (has_result hover_response) then ret JNull
       else
         if negb (Py.truthy (result_value hover_response)) then ret JNull
         else
           symbol_name <- lift (_extract_symbol_from_hover (result_value hover_response)) ;;
           if negb (PyStr.truthy symbol_name) then ret JNull
           else
             symbols_response <-
               send_request (JStr "textDocument/documentSymbol")
                 (symbol_params text_document) ;;
             if negb (has_result symbols_response) then ret JNull
             else
               if negb (Py.truthy (result_value symbols_response)) then ret JNull
               else
                 uri <- lift (subscript "uri" text_document) ;;
                 location <- lift (_find_symbol_location (result_value symbols_response)
                                     symbol_name uri) ;;
                 if Py.truthy location then ret location else ret JNull)
      (ret JNull) w.
Proof.
  intros Htd Hpos. unfold _try_document_symbol_fallback, try_except.
  unfold bind at 1. unfold lift at 1. rewrite Htd.
  unfold bind at 1. unfold lift at 1. rewrite Hpos. reflexivity.
Qed.

Lemma no_result_null {A : Type} (response : option dict) (k : M json) (w : World) :
  has_result response = false \/ Py.truthy (result_value response) = false ->
  (if negb (has_result response) then ret JNull
   else if negb (Py.truthy (result_value response)) then ret JNull else k) w
  = (Ok JNull, w).
Proof.
  intros [H|H]; rewrite H; [reflexivity|]. now destruct (has_result response).
Qed.

Lemma with_result {A : Type} (response : option dict) (v : json) (k : M A) (x : A) :
  has_result response = true -> result_value response = v -> Py.truthy v = true ->
  (if negb (has_result response) then ret x
   else if negb (Py.truthy (result_value response)) then ret x else k) = k.
Proof. intros -> -> ->. reflexivity. Qed.

(** When a step of the fallback fails, the fallback returns [None]. *)
Lemma fallback_fails_null (params : json) (w : World) :
  fallback_fails params w ->
  exists w', _try_document_symbol_fallback params w = (Ok JNull, w').
Proof.
  intros [td pos r w1 Htd Hpos Hhover Hno
         |td pos r w1 hover Htd Hpos Hhover Hgives Hname
         |td pos r w1 hover name r2 w2 Htd Hpos Hhover Hgives Hname Hsym Hno
         |td pos r w1 hover name r2 w2 symbols Htd Hpos Hhover Hgives Hname Hsym Hgives2 Hun];
    rewrite (fallback_run _ _ _ _ Htd Hpos); unfold try_except;
    unfold bind at 1; rewrite Hhover.
  - destruct r as [response|e]; [|eexists; reflexivity].
    rewrite (no_result_null (A := json) _ _ _ Hno). eexists; reflexivity.
  - destruct Hgives as (response & -> & Hhas & Hval & Htruthy).
    rewrite (with_result _ _ _ _ Hhas Hval Htruthy). rewrite Hval.
    unfold bind, lift. destruct Hname as [->|(e & ->)]; eexists; reflexivity.
  - destruct Hgives as (response & -> & Hhas & Hval & Htruthy).
    rewrite (with_result _ _ _ _ Hhas Hval Htruthy). rewrite Hval.
    unfold bind at 1. unfold lift at 1. rewrite Hname.
    destruct (PyStr.truthy name); [|eexists; reflexivity]. cbn [negb].
    unfold bind at 1. rewrite Hsym.
    destruct r2 as [response2|e]; [|eexists; reflexivity].
    rewrite (no_result_null (A := json) _ _ _ Hno). eexists; reflexivity.
  - destruct Hgives as (response & -> & Hhas & Hval & Htruthy).
    rewrite (with_result _ _ _ _ Hhas Hval Htruthy). rewrite Hval.
    unfold bind at 1. unfold lift at 1. rewrite Hname.
    destruct (PyStr.truthy name); [|eexists; reflexivity]. cbn [negb].
    unfold bind at 1. rewrite Hsym.
    destruct Hgives2 as (response2 & -> & Hhas2 & Hval2 & Htruthy2).
    rewrite (with_result _ _ _ _ Hhas2 Hval2 Htruthy2). rewrite Hval2.
    unfold bind, lift. destruct (subscript "uri" td) as [uri|e]; [|eexists; reflexivity].
    unfold _find_symbol_location.
    destruct (find_unmatched name uri (S (depth symbols)) symbols Hun) as [->|(e & ->)];
      eexists; reflexivity.
Qed.

(** [handle_definition] once the definition came back empty: the location
    of the fallback if it found one, else the response as it came. *)
Lemma handle_definition_empty (os : Platform) (params : json) (w : World)
  (original : dict) (w' : World) (location : json) (w'' : World) :
  definition_is_empty os params w original w' ->
  _try_document_symbol_fallback params w' = (Ok location, w'') ->
  handle_definition os params w
  = (Ok (if Py.truthy location
         then [("jsonrpc", JStr "2.0"); ("result", location)]
         else original), w'').
Proof.
  intros (uri & uri_text & td & pos & root & w0 & w1
          & Huri & Htext & Hinit & Hopen & Htd & Hpos & Hdef & Hhas & Hempty) Hfall.
  unfold handle_definition.
  unfold bind at 1. unfold lift at 1. rewrite Huri.
  unfold bind at 1. rewrite Hinit.
  unfold bind at 1. unfold lift at 1. rewrite Htext.
  unfold bind at 1. rewrite Hopen.
  unfold bind at 1. unfold try_except.
  unfold bind at 1. unfold lift at 1. rewrite Htd.
  unfold bind at 1. unfold lift at 1. rewrite Hpos.
  unfold bind at 1. unfold definition_params in Hdef. rewrite Hdef.
  rewrite Hhas, Hempty. cbn [negb].
  unfold bind at 1. rewrite Hfall.
  destruct (Py.truthy location); reflexivity.
Qed.

(** C4. When the definition came back empty and the fallback fails at any
    step - no hover result, no name extracted from it, no document
    symbols, or no node of the outline, nested children included, whose
    name or parameter-stripped name is the extracted name without regard
    to case - [handle_definition] returns the response of the AL server as
    it came: no error object, no location of its own making. *)
Theorem failed_fallback_returns_original (os : Platform) (params : json) (w : World)
  (original : dict) (w' : World) :
  definition_is_empty os params w original w' ->
  fallback_fails params w' ->
  exists w'', handle_definition os params w = (Ok original, w'').
Proof.
  intros Hempty Hfails. destruct (fallback_fails_null _ _ Hfails) as (w'' & Hfall).
  exists w''. now rewrite (handle_definition_empty _ _ _ _ _ _ _ Hempty Hfall).
Qed.

Lemma own_location_truthy (sym : dict) (file_uri location : json) :
  own_location sym file_uri = Some location ->
  (forall own, Py.get "location" sym = Some own -> Py.truthy own = true) ->
  Py.truthy location = true.
Proof.
  unfold own_location. intros H Hown.
  destruct (Py.get "location" sym) as [own|].
  - injection H as <-. now apply Hown.
  - destruct (Py.get "selectionRange" sym); [now injection H as <-|].
    destruct (Py.get "range" sym); [now injection H as <-|discriminate].
Qed.

(** C3. The hover text [procedure TranslateEmailWithAI(Input: Text)] gives
    the symbol name [TranslateEmailWithAI]; an outline node named
    [TranslateEmailWithAI(Text)] has that name once its parameter list is
    stripped and case is ignored; when such a node is the first that the
    depth-first search reaches, the search returns its location - the
    node's own [location] field when it has one, else its
    [selectionRange] with the URI of the document, else its [range] with
    that URI - and [handle_definition], whose primary result was empty,
    answers with that location. *)
Theorem definition_fallback_example (os : Platform) (outline : list json) (sym : dict)
  (uri : json) :
  node_name sym = JStr "TranslateEmailWithAI(Text)" ->
  reaches "TranslateEmailWithAI" outline sym ->
  (forall own, Py.get "location" sym = Some own -> Py.truthy own = true) ->
  (forall hover,
      hover_text hover = Some "procedure TranslateEmailWithAI(Input: Text)" ->
      _extract_symbol_from_hover (JObj hover) = Ok "TranslateEmailWithAI")
  /\ named "TranslateEmailWithAI" sym
  /\ (forall own, Py.get "location" sym = Some own ->
        _find_symbol_location (JArr outline) "TranslateEmailWithAI" uri = Ok own)
  /\ (Py.get "location" sym = None ->
      forall r, Py.get "selectionRange" sym = Some r ->
        _find_symbol_location (JArr outline) "TranslateEmailWithAI" uri
        = Ok (JObj [("uri", uri); ("range", r)]))
  /\ (Py.get "location" sym = None -> Py.get "selectionRange" sym = None ->
      forall r, Py.get "range" sym = Some r ->
        _find_symbol_location (JArr outline) "TranslateEmailWithAI" uri
        = Ok (JObj [("uri", uri); ("range", r)]))
  /\ (forall params w original w1 text_document position
             hover_response hover w2 symbols_response w3 location,
        definition_is_empty os params w original w1 ->
        subscript "textDocument" params = Ok text_document ->
        subscript "position" params = Ok position ->
        subscript "uri" text_document = Ok uri ->
        send_request (JStr "textDocument/hover") (hover_params text_document position) w1
        = (Ok (Some hover_response), w2) ->
        Py.get "result" hover_response = Some (JObj hover) ->
        hover_text hover = Some "procedure TranslateEmailWithAI(Input: Text)" ->
        send_request (JStr "textDocument/documentSymbol") (symbol_params text_document) w2
        = (Ok (Some symbols_response), w3) ->
        Py.get "result" symbols_response = Some (JArr outline) ->
        own_location sym uri = Some location ->
        handle_definition os params w
        = (Ok [("jsonrpc", JStr "2.0"); ("result", location)], w3)).
Proof.
  intros Hname Hreach Hown.
  assert (Hextract : forall hover,
             hover_text hover = Some "procedure TranslateEmailWithAI(Input: Text)" ->
             _extract_symbol_from_hover (JObj hover) = Ok "TranslateEmailWithAI").
  { intros hover Htext. unfold _extract_symbol_from_hover. cbn [as_dict obind].
    unfold hover_text in Htext.
    destruct (Py.get_default "contents" (JObj []) hover) as [| | | |s|items|contents];
      try discriminate.
    - injection Htext as ->. reflexivity.
    - destruct (Py.get_default "value" (JStr EmptyString) contents) as [| | | |s| |];
        try discriminate.
      injection Htext as ->. reflexivity. }
  assert (Hfind : forall location,
             own_location sym uri = Some location ->
             _find_symbol_location (JArr outline) "TranslateEmailWithAI" uri = Ok location).
  { intros location Hloc. eapply find_reaches; try eassumption.
    eapply own_location_truthy; eassumption. }
  split; [exact Hextract|]. split.
  { exists "TranslateEmailWithAI(Text)". split; [exact Hname | right; reflexivity]. }
  split. { intros own Ho. apply Hfind. unfold own_location. now rewrite Ho. }
  split. { intros Ho r Hr. apply Hfind. unfold own_location. now rewrite Ho, Hr. }
  split. { intros Ho Hs r Hr. apply Hfind. unfold own_location. now rewrite Ho, Hs, Hr. }
  intros params w original w1 td pos hover_response hover w2 symbols_response w3 location
         Hempty Htd Hpos Huri Hhover Hresult Htext Hsym Hsymbols Hloc.
  assert (Htruthy : Py.truthy location = true)
    by (eapply own_location_truthy; eassumption).
  assert (Hfall : _try_document_symbol_fallback params w1 = (Ok location, w3)).
  { rewrite (fallback_run _ _ _ _ Htd Hpos). unfold try_except.
    unfold bind at 1. rewrite Hhover.
    destruct (has_result_field _ _ Hresult) as [Hhas Hval].
    assert (Hhov : Py.truthy (JObj hover) = true)
      by (destruct hover; [discriminate Htext | reflexivity]).
    rewrite (with_result _ _ _ _ Hhas Hval Hhov). rewrite Hval.
    unfold bind at 1. unfold lift at 1. rewrite (Hextract hover Htext).
    cbn [PyStr.truthy negb]. unfold bind at 1. rewrite Hsym.
    destruct (has_result_field _ _ Hsymbols) as [Hhas2 Hval2].
    assert (Hne : Py.truthy (JArr outline) = true).
    { pose proof (reaches_nonempty _ _ _ Hreach). now destruct outline. }
    rewrite (with_result _ _ _ _ Hhas2 Hval2 Hne). rewrite Hval2.
    unfold bind at 1. unfold lift at 1. rewrite Huri.
    unfold bind at 1. unfold lift at 1. rewrite (Hfind location Hloc).
    now rewrite Htruthy. }
  rewrite (handle_definition_empty _ _ _ _ _ _ _ Hempty Hfall). now rewrite Htruthy.
Qed.

(** ** The properties at work *)



Lemma ensure_project_initialized_idempotent_witness :
  _ensure_project_initialized Demo.os (JStr "file:///ws/proj/app.json")
    (snd (_ensure_project_initialized Demo.os (JStr Demo.source_uri)
            (Demo.world [JObj (Demo.response 1 JNull)])))
  = (Ok (Some "/ws/proj"),
     snd (_ensure_project_initialized Demo.os (JStr Demo.source_uri)
            (Demo.world [JObj (Demo.response 1 JNull)]))).
Proof.
  destruct (ensure_project_initialized_idempotent Demo.os Demo.source_uri "/ws/proj"
              (Demo.world [JObj (Demo.response 1 JNull)]) eq_refl) as (_ & Hcall & _).
  destruct (Hcall (Some "/ws/proj") _ eq_refl) as (_ & _ & Hnext).
  apply Hnext. reflexivity.
Defined.

Lemma path_query_is_rewritten_witness :
  query_from_path "C:\ws\proj\src\Table 6175301 CDO File.al" = "CDO File".
Proof.
  destruct (path_query_is_rewritten Demo.os
              [("query", JStr "C:\ws\proj\src\Table 6175301 CDO File.al")]
              "C:\ws\proj\src\Table 6175301 CDO File.al" (Demo.world [])
              eq_refl eq_refl) as (Hrule & _).
  rewrite Hrule. reflexivity.
Defined.

Lemma call_hierarchy_unavailable_error_witness :
  process_request Demo.os
    (JObj [("jsonrpc", JStr "2.0"); ("id", JInt 7);
           ("method", JStr "callHierarchy/incomingCalls"); ("params", JObj [])])
    (Demo.world [])
  = (Ok (JObj [("jsonrpc", JStr "2.0"); ("id", JInt 7);
               ("error", JObj [("code", JInt (-32601));
                               ("message", JStr "Call hierarchy server not available")])]),
     Demo.world [])
  /\ _start_call_hierarchy_server Demo.with_call_hierarchy Handshake.garbled_world
     = (Raise TypeError,
        set_call_hierarchy_server (Some Handshake.garbled_server)
          Handshake.garbled_world)
  /\ ch_initialized Handshake.garbled_server = false.
Proof.
  refine (conj _ _).
  - apply (proj1 (call_hierarchy_unavailable_error Demo.os (Demo.world []))
             [("jsonrpc", JStr "2.0"); ("id", JInt 7);
              ("method", JStr "callHierarchy/incomingCalls"); ("params", JObj [])]
             "callHierarchy/incomingCalls").
    + reflexivity.
    + right. left. reflexivity.
    + exact I.
  - apply (proj2 (proj2 (proj2 (proj2
             (call_hierarchy_unavailable_error Demo.with_call_hierarchy
                Handshake.garbled_world))))
             "/opt/al-call-hierarchy" Handshake.garbled "/ws"
             Handshake.garbled_server TypeError).
    + reflexivity.
    + discriminate.
    + reflexivity.
    + reflexivity.
    + discriminate.
    + reflexivity.
    + vm_compute. reflexivity.
Defined.

Lemma quoted_name_is_unquoted_witness :
  exists inner,
    _extract_symbol_from_hover (JObj Demo.quoted_hover) = Ok inner
    /\ PyStr.contains PyStr.dquote inner = false.
Proof.
  destruct (quoted_name_is_unquoted Demo.quoted_hover _ _ _ eq_refl eq_refl eq_refl eq_refl)
    as (inner & _ & _ & Hplain & Hextract).
  exists inner. split; assumption.
Defined.

Lemma demo_outline_reaches : reaches "TranslateEmailWithAI" Demo.outline Demo.translate.
Proof.
  apply (reaches_below _ [] Demo.codeunit "Codeunit 50100 Foo"
           [JObj Demo.on_run; JObj Demo.translate] []).
  - constructor.
  - reflexivity.
  - intros (name & Hname & H). injection Hname as <-. destruct H as [H|H]; discriminate H.
  - reflexivity.
  - apply (reaches_here _ [JObj Demo.on_run] Demo.translate []).
    + constructor; [|constructor].
      apply (barren_leaf _ Demo.on_run "OnRun()"); [reflexivity| |reflexivity].
      intros (name & Hname & H). injection Hname as <-. destruct H as [H|H]; discriminate H.
    + exists "TranslateEmailWithAI(Text)". split; [reflexivity | right; reflexivity].
Defined.

Lemma definition_fallback_example_witness :
  _find_symbol_location (JArr Demo.outline) "TranslateEmailWithAI" (JStr Demo.source_uri)
  = Ok (JObj [("uri", JStr Demo.source_uri); ("range", Demo.range_ 6 6)]).
Proof.
  destruct (definition_fallback_example Demo.os Demo.outline Demo.translate
              (JStr Demo.source_uri) eq_refl demo_outline_reaches)
    as (_ & _ & _ & Hselection & _).
  - intros own H. discriminate H.
  - apply Hselection; reflexivity.
Defined.

Lemma failed_fallback_returns_original_witness :
  exists w'',
    handle_definition Demo.os Demo.position_params (Demo.world Demo.silent)
    = (Ok (Demo.response 2 JNull), w'').
Proof.
  apply (failed_fallback_returns_original Demo.os Demo.position_params
           (Demo.world Demo.silent) (Demo.response 2 JNull) Demo.after_definition).
  - exists (JStr Demo.source_uri), Demo.source_uri,
      (JObj [("uri", JStr Demo.source_uri)]),
      (JObj [("line", JInt 9); ("character", JInt 12)]),
      (Some "/ws/proj"), Demo.after_project, Demo.after_open.
    repeat split; vm_compute; reflexivity.
  - apply (fails_no_hover _ _ (JObj [("uri", JStr Demo.source_uri)])
             (JObj [("line", JInt 9); ("character", JInt 12)])
             (Ok (Some (Demo.response 3 JNull)))
             (snd (send_request (JStr "textDocument/hover")
                     (hover_params (JObj [("uri", JStr Demo.source_uri)])
                        (JObj [("line", JInt 9); ("character", JInt 12)]))
                     Demo.after_definition))).
    + reflexivity.
    + reflexivity.
    + vm_compute. reflexivity.
    + right. reflexivity.
Defined.

Lemma await_response_answer (rid : Z) (script : list json) (d : dict) :
  fst (await_response rid script) = Ok (Some d) ->
  Py.eq_int (Py.get_none "id" d) rid = true
  /\ exists passed,
       script = passed ++ JObj d :: snd (await_response rid script)
       /\ Forall (passed_over rid) passed.
Proof.
  induction script as [|frame script IH]; [discriminate|].
  cbn [await_response]. destruct frame; try discriminate.
  destruct (Py.eq_int (Py.get_none "id" fields) rid) eqn:E.
  - cbn. intros H. injection H as <-. split; [exact E|].
    exists []. split; [reflexivity | constructor].
  - intros H. destruct (IH H) as (Hid & passed & Hs & Hp). split; [exact Hid|].
    exists (JObj fields :: passed). split.
    + cbn. now f_equal.
    + constructor; [|exact Hp]. exists fields. split; [reflexivity | exact E].
Qed.

(** X1. The response [send_request] returns answers the request it sent:
    its id equals the new request id, which is the old one plus one; the
    frames read before it are objects with another id and are dropped;
    exactly the request was written to the AL server. *)
Theorem send_request_answers_the_request (method params : json) (w w' : World)
  (d : dict) :
  send_request method params w = (Ok (Some d), w') ->
  Py.eq_int (Py.get_none "id" d) (request_id w + 1) = true
  /\ request_id w' = (request_id w + 1)%Z
  /\ stdin (process w')
     = stdin (process w) ++ [request_message (request_id w + 1) method params]
  /\ exists passed,
       stdout (process w) = passed ++ JObj d :: stdout (process w')
       /\ Forall (passed_over (request_id w + 1)) passed.
Proof.
  intros H. rewrite send_request_run in H.
  destruct (write_to _ (process w)) as [p|] eqn:Hw; [|discriminate].
  injection H as Hr <-.
  destruct (await_response_answer _ _ _ Hr) as (Hid & passed & Hs & Hp).
  assert (Hp' : stdout p = stdout (process w)
                /\ stdin p = stdin (process w)
                             ++ [request_message (request_id w + 1) method params]).
  { unfold write_to in Hw.
    destruct (writes_left (process w)) as [[|n]|]; try discriminate;
      injection Hw as <-; split; reflexivity. }
  destruct Hp' as [Hout Hin].
  split; [exact Hid|]. split; [reflexivity|]. split; [exact Hin|].
  exists passed. split; [|exact Hp]. cbn. rewrite <- Hout. exact Hs.
Qed.

Lemma send_request_answers_the_request_witness :
  Py.eq_int (Py.get_none "id" (Demo.response 1 (JArr []))) (request_id (Demo.world
     [Traffic.progress; JObj (Demo.response 1 (JArr []))]) + 1) = true.
Proof.
  refine (proj1 (send_request_answers_the_request (JStr "textDocument/hover") (JObj [])
           (Demo.world [Traffic.progress; JObj (Demo.response 1 (JArr []))])
           (snd (send_request (JStr "textDocument/hover") (JObj [])
                   (Demo.world [Traffic.progress; JObj (Demo.response 1 (JArr []))])))
           (Demo.response 1 (JArr [])) _)).
  reflexivity.
Defined.

Lemma get_set_item (k : string) (v : json) (d : dict) :
  Py.get k (Py.set_item k v d) = Some v.
Proof.
  induction d as [|[k' v'] d IH]; cbn.
  - now rewrite String.eqb_refl.
  - destruct (String.eqb k' k) eqn:E; cbn; rewrite E; [reflexivity | exact IH].
Qed.

Lemma with_id_carries (request_id : json) (response : dict) :
  with_id request_id response <> [] ->
  Py.get "id" (with_id request_id response) = Some request_id.
Proof.
  destruct response as [|f fs]; [now intros [] |]. intros _.
  unfold with_id. apply get_set_item.
Qed.

Lemma handled_carries (m : M dict) (request_id : json) (w w' : World) (response : dict) :
  (bind m (fun r => ret (JObj (with_id request_id r)))) w = (Ok (JObj response), w') ->
  response <> [] ->
  Py.get "id" response = Some request_id.
Proof.
  unfold bind, ret. destruct (m w) as [[r|e] w1]; [|discriminate].
  intros H. injection H as <- _. apply with_id_carries.
Qed.

Lemma process_request_id (os : Platform) (request response : dict) (w w' : World) :
  process_request os (JObj request) w = (Ok (JObj response), w') ->
  response <> [] ->
  Py.get "id" response = Some (Py.get_none "id" request).
Proof.
  unfold process_request. unfold bind at 1. unfold lift. cbn [as_dict]. cbv zeta.
  repeat match goal with
    | |- context [if ?c then _ else _] =>
        match c with
        | is_str _ _ => destruct c; [apply handled_carries|]
        end
    end.
  - destruct (is_str "initialized" _).
    { unfold bind, ret. destruct (send_notification _ _ w) as [[[]|e] w1]; discriminate. }
    destruct (existsb _ call_hierarchy_methods).
    + unfold route_call_hierarchy.
      destruct (call_hierarchy_server w) as [server|].
      * destruct (ch_initialized server).
        -- destruct (ch_request _ _ server) as [[r|e] s']; [|discriminate].
           destruct (Py.truthy r).
           ++ destruct r; try discriminate. intros H _. injection H as <- _.
              apply get_set_item.
           ++ intros H _. injection H as <- _. reflexivity.
        -- intros H _. injection H as <- _. reflexivity.
      * intros H _. injection H as <- _. reflexivity.
    + destruct (Py.get_none "id" request) eqn:Hid;
        try (unfold bind, ret;
             destruct (send_request _ _ w) as [[[[|fld flds]|]|e0] w1]; try discriminate;
             intros H _; injection H as <- _;
             solve [reflexivity | exact (get_set_item "id" _ (fld :: flds))]).
      unfold bind, ret. destruct (send_notification _ _ w) as [[[]|e] w1]; discriminate.
Qed.

(** X2. Every response [process_request] returns to the client, unless it
    is the empty object that [main] does not write, carries the id of the
    request it answers. *)
Theorem response_carries_request_id (os : Platform) (request response : dict)
  (w w' : World) :
  process_request os (JObj request) w = (Ok (JObj response), w') ->
  response <> [] ->
  Py.get "id" response = Some (Py.get_none "id" request).
Proof. apply process_request_id. Qed.

Lemma response_carries_request_id_witness :
  Py.get "id" [("jsonrpc", JStr "2.0"); ("id", JInt 7); ("result", JNull)]
  = Some (Py.get_none "id"
            [("jsonrpc", JStr "2.0"); ("id", JInt 7);
             ("method", JStr "textDocument/completion"); ("params", JObj [])]).
Proof.
  refine (response_carries_request_id Demo.os
            [("jsonrpc", JStr "2.0"); ("id", JInt 7);
             ("method", JStr "textDocument/completion"); ("params", JObj [])]
            [("jsonrpc", JStr "2.0"); ("id", JInt 7); ("result", JNull)]
            (Demo.world [])
            (snd (process_request Demo.os
                    (JObj [("jsonrpc", JStr "2.0"); ("id", JInt 7);
                           ("method", JStr "textDocument/completion"); ("params", JObj [])])
                    (Demo.world []))) _ _).
  - vm_compute. reflexivity.
  - discriminate.
Defined.

Lemma call_hierarchy_branch (os : Platform) (request : dict) (method : string)
  (w : World) :
  Py.get "method" request = Some (JStr method) ->
  In method call_hierarchy_methods ->
  process_request os (JObj request) w
  = route_call_hierarchy (JStr method) (Py.get_default "params" (JObj []) request)
      (Py.get_none "id" request) w.
Proof.
  intros Hm Hin.
  assert (Hmethod : Py.get_default "method" (JStr EmptyString) request = JStr method).
  { unfold Py.get_default. now rewrite Hm. }
  unfold process_request, bind, lift. cbn [as_dict]. cbv zeta.
  rewrite !Hmethod.
  destruct Hin as [<-|[<-|[<-|[]]]]; reflexivity.
Qed.

(** X3. A call-hierarchy request never reaches the AL server, whatever
    the state of the call-hierarchy server and whatever it answers:
    nothing is written to or read from the AL server, its request counter
    does not move, and no file or project is opened. *)
Theorem call_hierarchy_bypasses_al_server (os : Platform) (request : dict)
  (method : string) (w w' : World) (r : outcome json) :
  Py.get "method" request = Some (JStr method) ->
  In method call_hierarchy_methods ->
  process_request os (JObj request) w = (r, w') ->
  process w' = process w
  /\ request_id w' = request_id w
  /\ opened_files w' = opened_files w
  /\ initialized_projects w' = initialized_projects w.
Proof.
  intros Hm Hin. rewrite (call_hierarchy_branch os _ _ w Hm Hin).
  unfold route_call_hierarchy.
  destruct (call_hierarchy_server w) as [server|].
  - destruct (ch_initialized server).
    + destruct (ch_request _ _ server) as [[x|e] s'].
      * destruct (Py.truthy x); [destruct x|];
          intros H; injection H as _ <-; repeat split.
      * intros H; injection H as _ <-; repeat split.
    + intros H; injection H as _ <-; repeat split.
  - intros H; injection H as _ <-; repeat split.
Qed.

Lemma call_hierarchy_bypasses_al_server_witness :
  process (snd (process_request Demo.os (JObj Hierarchy.prepare)
                  (Hierarchy.world [JObj (Demo.response 2 (JArr []))])))
  = process (Hierarchy.world [JObj (Demo.response 2 (JArr []))]).
Proof.
  refine (proj1 (call_hierarchy_bypasses_al_server Demo.os Hierarchy.prepare
                   "textDocument/prepareCallHierarchy"
                   (Hierarchy.world [JObj (Demo.response 2 (JArr []))]) _
                   (fst (process_request Demo.os (JObj Hierarchy.prepare)
                           (Hierarchy.world [JObj (Demo.response 2 (JArr []))])))
                   _ _ _)).
  - reflexivity.
  - left. reflexivity.
  - vm_compute. reflexivity.
Defined.

(** The log line of an error response does not raise on an object, nor on
    no response. *)
Lemma log_error_object (d : dict) : log_error (JObj d) = Ok tt.
Proof.
  unfold log_error, truthy_and_has, subscript, py_in, Py.has_key.
  destruct (Py.truthy (JObj d)); [|reflexivity].
  destruct (Py.get "error" d); reflexivity.
Qed.

Lemma log_error_null : log_error JNull = Ok tt.
Proof. reflexivity. Qed.

Lemma write_to_some (msg : json) (p p1 : Process) :
  write_to msg p = Some p1 ->
  stdin p1 = stdin p ++ [msg] /\ stdout p1 = stdout p /\ running p1 = running p.
Proof.
  unfold write_to. destruct (writes_left p) as [[|n]|]; try discriminate;
    intros H; injection H as <-; repeat split.
Qed.

Lemma write_to_open (msg : json) (p : Process) :
  writes_left p <> Some 0 -> exists p1, write_to msg p = Some p1.
Proof.
  unfold write_to. destruct (writes_left p) as [[|n]|]; try congruence;
    intros _; eexists; reflexivity.
Qed.

(** A request to a running call-hierarchy server whose pipe takes the
    write: the request is written and the next frame is read. *)
Lemma ch_send_request_run (method params : json) (server : CallHierarchyServer)
  (p p1 : Process) :
  ch_process server = Some p ->
  running p = true ->
  write_to (ch_request_message (ch_request_id server + 1) method params) p = Some p1 ->
  ch_send_request method params server
  = (Ok (fst (read_from p1)),
     ch_set_process (Some (snd (read_from p1)))
       (ch_set_request_id (ch_request_id server + 1) server)).
Proof.
  intros Hp Hrun Hw.
  destruct (write_to_some _ _ _ Hw) as (_ & _ & Hrun1). rewrite Hrun in Hrun1.
  unfold ch_send_request, ch_is_alive. rewrite Hp, Hrun. cbn [negb]. cbv zeta.
  unfold bind, ch_send_message. cbn [ch_process ch_set_request_id ch_request_id].
  rewrite Hp, Hrun. unfold ch_request_message in Hw. rewrite Hw.
  unfold ch_read_message. cbn [ch_process ch_set_process]. rewrite Hrun1.
  destruct (read_from p1); reflexivity.
Qed.

(** X4. With the call-hierarchy server initialized and running, a
    call-hierarchy request is written to that server, numbered by the
    server's own counter and with the client's method and parameters; the
    next frame the server delivers is taken as the answer whatever its id:
    a non-empty object is returned with its id replaced by the client's,
    and no frame, an unreadable frame or an empty object give a null
    result under the client's id. *)
Theorem call_hierarchy_request_is_routed (os : Platform) (request : dict)
  (method : string) (w : World) (server : CallHierarchyServer) (p : Process) :
  Py.get "method" request = Some (JStr method) ->
  In method call_hierarchy_methods ->
  call_hierarchy_server w = Some server ->
  ch_initialized server = true ->
  ch_process server = Some p ->
  running p = true ->
  writes_left p <> Some 0 ->
  exists r w' server' p',
    process_request os (JObj request) w = (r, w')
    /\ call_hierarchy_server w' = Some server'
    /\ ch_request_id server' = (ch_request_id server + 1)%Z
    /\ ch_process server' = Some p'
    /\ stdin p'
       = stdin p ++ [ch_request_message (ch_request_id server + 1) (JStr method)
                       (Py.get_default "params" (JObj []) request)]
    /\ (forall field fields rest,
          stdout p = JObj (field :: fields) :: rest ->
          r = Ok (JObj (Py.set_item "id" (Py.get_none "id" request) (field :: fields)))
          /\ stdout p' = rest)
    /\ (stdout p = [] \/ (exists rest, stdout p = JNull :: rest)
        \/ (exists rest, stdout p = JObj [] :: rest) ->
        r = Ok (null_result (Py.get_none "id" request))).
Proof.
  intros Hm Hin Hs Hinit Hp Hrun Hwr.
  destruct (write_to_open (ch_request_message (ch_request_id server + 1) (JStr method)
                             (Py.get_default "params" (JObj []) request)) p Hwr)
    as (p1 & Hw).
  destruct (write_to_some _ _ _ Hw) as (Hin1 & Hout & _).
  destruct (process_request os (JObj request) w) as [r w'] eqn:E.
  exists r, w',
    (ch_set_process (Some (snd (read_from p1)))
       (ch_set_request_id (ch_request_id server + 1) server)),
    (snd (read_from p1)).
  split; [reflexivity|].
  rewrite (call_hierarchy_branch os _ _ w Hm Hin) in E.
  unfold route_call_hierarchy in E. rewrite Hs, Hinit in E.
  unfold ch_request, ch_is_alive in E. rewrite Hp, Hrun in E. cbn [negb] in E.
  unfold bind at 1 in E. rewrite (ch_send_request_run _ _ _ _ _ Hp Hrun Hw) in E.
  unfold bind, lift, ret in E.
  assert (Hstdin : stdin (snd (read_from p1)) = stdin p1).
  { unfold read_from. destruct (stdout p1); reflexivity. }
  assert (Hstate : w' = set_call_hierarchy_server
                          (Some (ch_set_process (Some (snd (read_from p1)))
                                   (ch_set_request_id (ch_request_id server + 1) server)))
                          w).
  { destruct (log_error (fst (read_from p1))) as [[]|e].
    - destruct (Py.truthy (fst (read_from p1))); [destruct (fst (read_from p1))|];
        injection E as _ <-; reflexivity.
    - injection E as _ <-; reflexivity. }
  split; [now rewrite Hstate|]. split; [reflexivity|]. split; [reflexivity|].
  split; [now rewrite Hstdin|]. split.
  - intros field fields rest Hscript. unfold read_from in *.
    rewrite Hout, Hscript in *. cbn [fst snd] in E. rewrite log_error_object in E.
    cbn in E. injection E as <- _. split; reflexivity.
  - intros Hscript. unfold read_from in E. rewrite Hout in E.
    destruct Hscript as [H|[[rest H]|[rest H]]]; rewrite H in E; cbn in E;
      injection E as <- _; reflexivity.
Qed.

Lemma call_hierarchy_request_is_routed_witness :
  exists w',
    process_request Demo.os (JObj Hierarchy.prepare)
      (Hierarchy.world [JObj (Demo.response 2 (JArr []))])
    = (Ok (JObj (Demo.response 5 (JArr []))), w').
Proof.
  destruct (call_hierarchy_request_is_routed Demo.os Hierarchy.prepare
              "textDocument/prepareCallHierarchy"
              (Hierarchy.world [JObj (Demo.response 2 (JArr []))])
              (Hierarchy.server [JObj (Demo.response 2 (JArr []))])
              (Demo.child [JObj (Demo.response 2 (JArr []))])
              eq_refl (or_introl eq_refl) eq_refl eq_refl eq_refl eq_refl)
    as (r & w' & server' & p' & Hrun & _ & _ & _ & _ & Hanswer & _).
  - discriminate.
  - exists w'. rewrite Hrun. f_equal.
    exact (proj1 (Hanswer _ _ _ eq_refl)).
Defined.

(** The readiness check never raises, and its state is that of its round
    trip. *)
Lemma check_project_loaded_run (w : World) :
  exists v,
    check_project_loaded w
    = (Ok v, snd (send_request (JStr "al/hasProjectClosureLoadedRequest") (JObj []) w)).
Proof.
  unfold check_project_loaded, try_except, bind, ret.
  destruct (send_request _ _ w) as [[[d|]|e] w1]; cbn [snd];
    try (eexists; reflexivity).
  destruct (has_result (Some d)); [|eexists; reflexivity].
  destruct (Py.get_none "result" d); eexists; reflexivity.
Qed.

Lemma send_request_counts (method params : json) (w : World) :
  request_id (snd (send_request method params w)) = (request_id w + 1)%Z.
Proof.
  rewrite send_request_run. destruct (write_to _ (process w)); reflexivity.
Qed.

Lemma send_request_writes (method params : json) (w : World) :
  wrote (fun msg => exists id, msg = request_message id method params)
    w (snd (send_request method params w)).
Proof.
  destruct (send_request method params w) as [r w'] eqn:E.
  revert E. apply send_request_wrote. intros id. exists id. reflexivity.
Qed.

Lemma wait_loop_bounded (answers : list bool) : forall w,
  exists loaded w',
    wait_loop answers w = (Ok loaded, w')
    /\ (request_id w <= request_id w' <= request_id w + Z.of_nat (length answers))%Z
    /\ wrote readiness_request w w'
    /\ (hd false answers = false ->
        loaded = false /\ request_id w' = request_id w /\ process w' = process w).
Proof.
  induction answers as [|answer later IH]; intros w.
  - exists false, (set_clock [] w). cbn. repeat split; try lia.
    apply wrote_state. reflexivity.
  - destruct answer; cbn [wait_loop].
    + destruct (check_project_loaded_run (set_clock later w)) as (v & ->).
      set (w1 := snd (send_request _ _ (set_clock later w))).
      assert (Hid : request_id w1 = (request_id w + 1)%Z).
      { unfold w1. rewrite send_request_counts. reflexivity. }
      assert (Hw : wrote readiness_request w w1).
      { apply wrote_trans with (b := set_clock later w).
        - apply wrote_state. reflexivity.
        - apply send_request_writes. }
      destruct (Py.truthy v).
      * exists true, w1. split; [reflexivity|]. split; [cbn [length]; lia|].
        split; [exact Hw|]. cbn. discriminate.
      * destruct (IH w1) as (loaded & w' & E & Hb & Hwr & _).
        exists loaded, w'. split; [exact E|]. split; [cbn [length]; lia|].
        split; [eapply wrote_trans; eassumption|]. cbn. discriminate.
    + exists false, (set_clock later w). cbn [length]. repeat split; cbn; try lia.
      apply wrote_state. reflexivity.
Qed.

(** X5. [_wait_for_project_load] never raises.  It sends readiness
    requests only, at most one for each test of its deadline, and when
    the deadline has passed at the first test it answers [False] without
    sending anything. *)
Theorem wait_for_project_load_is_bounded (w : World) :
  exists loaded w',
    _wait_for_project_load w = (Ok loaded, w')
    /\ (request_id w <= request_id w' <= request_id w + Z.of_nat (length (clock w)))%Z
    /\ wrote readiness_request w w'
    /\ (hd false (clock w) = false ->
        loaded = false /\ request_id w' = request_id w /\ process w' = process w).
Proof. unfold _wait_for_project_load. apply wait_loop_bounded. Qed.

(** X6. [_ensure_file_opened] never raises.  A file already announced, a
    file that cannot be read and a pipe that does not take the write leave
    the state as it was; otherwise one [textDocument/didOpen] notification
    with the text of the file is written and the URI is recorded, after
    which the file is not announced again. *)
Theorem ensure_file_opened_once (os : Platform) (uri : string) (w : World) :
  exists w',
    _ensure_file_opened os uri w = (Ok tt, w')
    /\ (mem uri (opened_files w) = true -> w' = w)
    /\ (read_text os (Path os (_uri_to_path os uri)) = None -> w' = w)
    /\ (writes_left (process w) = Some 0 -> w' = w)
    /\ (forall text,
          mem uri (opened_files w) = false ->
          read_text os (Path os (_uri_to_path os uri)) = Some text ->
          writes_left (process w) <> Some 0 ->
          stdin (process w') = stdin (process w) ++ [did_open uri text]
          /\ opened_files w' = opened_files w ++ [uri]
          /\ _ensure_file_opened os uri w' = (Ok tt, w')).
Proof.
  unfold _ensure_file_opened at 1.
  destruct (mem uri (opened_files w)) eqn:Hmem.
  { exists w. repeat split; intros; congruence. }
  unfold try_except, bind, ret, raise, send_notification.
  destruct (read_text os (Path os (_uri_to_path os uri))) as [text|] eqn:Hread.
  2: { exists w. repeat split; intros; congruence. }
  unfold send_message.
  fold (did_open uri text).
  destruct (write_to (did_open uri text) (process w)) as [p|] eqn:Hw.
  - eexists. split; [reflexivity|].
    destruct (write_to_some _ _ _ Hw) as (Hin & _).
    split; [discriminate|]. split; [discriminate|]. split.
    { intros H0. unfold write_to in Hw. rewrite H0 in Hw. discriminate. }
    intros text' _ Ht _. injection Ht as <-.
    cbn. split; [exact Hin|]. unfold add. rewrite Hmem. split; [reflexivity|].
    unfold _ensure_file_opened. cbn [opened_files set_opened_files].
    assert (mem uri (opened_files w ++ [uri]) = true) as ->.
    { unfold mem. rewrite existsb_app. cbn. rewrite String.eqb_refl.
      now rewrite orb_true_r. }
    reflexivity.
  - exists w. split; [reflexivity|]. repeat split; intros; try congruence.
    all: exfalso; unfold write_to in Hw;
      destruct (writes_left (process w)) as [[|n]|]; congruence.
Qed.

Lemma ensure_file_opened_once_witness :
  exists w',
    _ensure_file_opened Demo.os Demo.source_uri (Demo.world []) = (Ok tt, w')
    /\ opened_files w' = [Demo.source_uri].
Proof.
  destruct (ensure_file_opened_once Demo.os Demo.source_uri (Demo.world []))
    as (w' & Hrun & _ & _ & _ & Hopen).
  exists w'. split; [exact Hrun|].
  destruct (Hopen "codeunit 50100 Foo {}") as (_ & Hfiles & _).
  - reflexivity.
  - reflexivity.
  - discriminate.
  - exact Hfiles.
Defined.

Lemma scan_symbols_sound (recurse : json -> outcome json) (symbol_name : string)
  (file_uri location : json) (items : list json) :
  (forall sym children found,
      In (JObj sym) items -> Py.get "children" sym = Some children ->
      recurse children = Ok found -> Py.truthy found = true ->
      located children symbol_name file_uri found) ->
  scan_symbols recurse symbol_name file_uri items = Ok location ->
  Py.truthy location = true ->
  located (JArr items) symbol_name file_uri location.
Proof.
  induction items as [|v items IH]; intros Hrec Hscan Hloc.
  - injection Hscan as <-. discriminate.
  - cbn [scan_symbols] in Hscan. destruct v as [| | | | | |sym]; try discriminate.
    cbn [as_dict obind] in Hscan.
    destruct (Py.get_default "name" (JStr EmptyString) sym) as [| | | |name| |] eqn:Hname;
      try discriminate.
    cbn [as_str obind] in Hscan.
    assert (Hrest : located (JArr items) symbol_name file_uri location ->
                    located (JArr (JObj sym :: items)) symbol_name file_uri location).
    { intros (s & Hnode & Hn & Ho). exists s. split; [|split; assumption].
      inversion Hnode; subst.
      - apply node_top. now right.
      - eapply node_nested; [right|..]; eassumption. }
    destruct (name_matches name symbol_name) eqn:Hmatch.
    + destruct (own_location sym file_uri) as [own|] eqn:Hown.
      * injection Hscan as <-. exists sym. split; [apply node_top; now left|].
        split; [|exact Hown]. now apply (name_matches_named _ _ _ Hname).
      * destruct (Py.truthy (Py.get_default "children" (JArr []) sym)) eqn:Hc.
        -- destruct (recurse _) as [found|e] eqn:Hr; [|discriminate].
           cbn [obind] in Hscan. destruct (Py.truthy found) eqn:Hf.
           ++ injection Hscan as <-.
              destruct (Hrec sym _ _ (or_introl eq_refl) (children_field _ Hc) Hr Hf)
                as (s & Hnode & Hn & Ho).
              exists s. split; [|split; assumption].
              eapply node_nested; [left; reflexivity | apply children_field, Hc | exact Hnode].
           ++ apply Hrest, IH; try assumption.
              intros s c f Hin. apply Hrec. now right.
        -- cbn [obind Py.truthy] in Hscan. apply Hrest, IH; try assumption.
           intros s c f Hin. apply Hrec. now right.
    + destruct (Py.truthy (Py.get_default "children" (JArr []) sym)) eqn:Hc.
      * destruct (recurse _) as [found|e] eqn:Hr; [|discriminate].
        cbn [obind] in Hscan. destruct (Py.truthy found) eqn:Hf.
        -- injection Hscan as <-.
           destruct (Hrec sym _ _ (or_introl eq_refl) (children_field _ Hc) Hr Hf)
             as (s & Hnode & Hn & Ho).
           exists s. split; [|split; assumption].
           eapply node_nested; [left; reflexivity | apply children_field, Hc | exact Hnode].
        -- apply Hrest, IH; try assumption.
           intros s c f Hin. apply Hrec. now right.
      * cbn [obind Py.truthy] in Hscan. apply Hrest, IH; try assumption.
        intros s c f Hin. apply Hrec. now right.
Qed.

(** A loop over values that are not objects stops at the first. *)
Lemma scan_symbols_strings (recurse : json -> outcome json) (symbol_name : string)
  (file_uri location : json) (items : list json) :
  (forall v, In v items -> exists s, v = JStr s) ->
  scan_symbols recurse symbol_name file_uri items = Ok location ->
  location = JNull.
Proof.
  destruct items as [|v items]; intros Hs H.
  - now injection H as <-.
  - destruct (Hs v (or_introl eq_refl)) as (s & ->). discriminate.
Qed.

Lemma find_symbol_location_at_sound (symbol_name : string) (file_uri : json) :
  forall fuel symbols location,
    find_symbol_location_at fuel symbols symbol_name file_uri = Ok location ->
    Py.truthy location = true ->
    located symbols symbol_name file_uri location.
Proof.
  induction fuel as [|fuel IH]; intros symbols location H Hloc; [discriminate|].
  cbn [find_symbol_location_at] in H.
  destruct symbols as [| | | |s|items|fields]; try discriminate; cbn [iterate obind] in H.
  - apply scan_symbols_strings in H; [subst; discriminate|].
    clear. induction s as [|c s IHs]; intros v; [contradiction|].
    intros [<-|Hin]; [eexists; reflexivity | auto].
  - eapply scan_symbols_sound; [|exact H|exact Hloc].
    intros sym children found _ _. apply IH.
  - apply scan_symbols_strings in H; [subst; discriminate|].
    intros v Hin. apply in_map_iff in Hin as (kv & <- & _). eexists; reflexivity.
Qed.

(** X7. The search of the outline invents nothing: a location it returns
    is the location of a node of the outline, nested children included,
    whose name or parameter-stripped name is the name looked for without
    regard to case - the node's own [location], else its [selectionRange]
    or its [range] with the URI of the document. *)
Theorem find_symbol_location_is_sound (symbols : json) (symbol_name : string)
  (file_uri location : json) :
  _find_symbol_location symbols symbol_name file_uri = Ok location ->
  Py.truthy location = true ->
  located symbols symbol_name file_uri location.
Proof. apply find_symbol_location_at_sound. Qed.

Lemma find_symbol_location_is_sound_witness :
  located (JArr Demo.outline) "translateemailwithai" (JStr Demo.source_uri)
    (JObj [("uri", JStr Demo.source_uri); ("range", Demo.range_ 6 6)]).
Proof.
  apply find_symbol_location_is_sound; reflexivity.
Defined.

(** ** The name of a symbol without its parameters *)

Lemma find_found (c : ascii) (before after : string) :
  PyStr.contains c before = false ->
  PyStr.find c (before ++ String c after) = Z.of_nat (String.length before).
Proof.
  induction before as [|a before IH]; cbn [PyStr.contains append PyStr.find String.length].
  - intros _. now rewrite Ascii.eqb_refl.
  - intros H. apply orb_false_elim in H as [Ha Hb]. rewrite Ha, (IH Hb).
    cbv zeta. destruct (Z.ltb_spec (Z.of_nat (String.length before)) 0); lia.
Qed.

Lemma find_missing (c : ascii) (s : string) :
  PyStr.contains c s = false -> PyStr.find c s = (-1)%Z.
Proof.
  induction s as [|a s IH]; [reflexivity|]. cbn [PyStr.contains PyStr.find].
  intros H. apply orb_false_elim in H as [Ha Hb]. now rewrite Ha, (IH Hb).
Qed.

(** A text has no [c], or splits at the first one. *)
Lemma first_occurrence (c : ascii) (s : string) :
  PyStr.contains c s = false
  \/ exists before after,
       s = (before ++ String c after)%string /\ PyStr.contains c before = false.
Proof.
  induction s as [|a s IH]; [now left|]. cbn [PyStr.contains].
  destruct (Ascii.eqb a c) eqn:E.
  - right. apply Ascii.eqb_eq in E. subst a. exists EmptyString, s. now split.
  - destruct IH as [H|(before & after & -> & H)]; [now left|].
    right. exists (String a before), after. split; [reflexivity|].
    cbn. now rewrite E.
Qed.

Lemma slice_prefix (a b : string) :
  PyStr.slice None (Some (Z.of_nat (String.length a))) (a ++ b) = a.
Proof.
  unfold PyStr.slice, PyStr.bound. cbn [PyStr.skip].
  destruct (Z.ltb_spec (Z.of_nat (String.length a)) 0); [lia|].
  rewrite Nat2Z.id, length_append, Nat.sub_0_r.
  replace (Nat.min (String.length a + String.length b) (String.length a))
    with (String.length a) by lia.
  apply take_append.
Qed.

Lemma lstrip_without (c : ascii) (s : string) :
  PyStr.contains c s = false -> PyStr.contains c (PyStr.lstrip s) = false.
Proof.
  induction s as [|a s IH]; [reflexivity|]. cbn [PyStr.lstrip].
  intros H. destruct (PyStr.isspace a); [|exact H].
  apply IH. cbn in H. now apply orb_false_elim in H as [_ H].
Qed.

Lemma rstrip_without (c : ascii) (s : string) :
  PyStr.contains c s = false -> PyStr.contains c (PyStr.rstrip s) = false.
Proof.
  induction s as [|a s IH]; [reflexivity|]. cbn [PyStr.contains PyStr.rstrip].
  intros H. apply orb_false_elim in H as [Ha Hs]. specialize (IH Hs).
  destruct (PyStr.rstrip s) as [|b r].
  - destruct (PyStr.isspace a); [reflexivity|]. cbn. now rewrite Ha.
  - cbn [PyStr.contains] in *. now rewrite Ha, IH.
Qed.

Lemma strip_without (c : ascii) (s : string) :
  PyStr.contains c s = false -> PyStr.contains c (PyStr.strip s) = false.
Proof. intros H. unfold PyStr.strip. now apply rstrip_without, lstrip_without. Qed.

Lemma clean_without (name : string) :
  PyStr.contains "(" name = false -> _clean_symbol_name name = name.
Proof. intros H. unfold _clean_symbol_name. now rewrite (find_missing _ _ H). Qed.

Lemma clean_before (before after : string) :
  before <> EmptyString -> PyStr.contains "(" before = false ->
  _clean_symbol_name (before ++ String "(" after) = PyStr.strip before.
Proof.
  intros Hne H. unfold _clean_symbol_name. rewrite (find_found _ _ _ H).
  destruct before as [|a before]; [congruence|].
  replace (Z.of_nat (String.length (String a before)) >? 0)%Z with true
    by (symmetry; apply Z.gtb_lt; cbn [String.length]; lia).
  now rewrite slice_prefix.
Qed.

(** X8. [_clean_symbol_name] returns the text before the first opening
    parenthesis with the white space around it removed; a name without a
    parenthesis, and a name that starts with one, are returned as they
    are.  Cleaning a cleaned name changes nothing. *)
Theorem clean_symbol_name_cases (name : string) :
  (PyStr.contains "(" name = false -> _clean_symbol_name name = name)
  /\ (forall after, _clean_symbol_name (String "(" after) = String "(" after)
  /\ (forall before after,
        before <> EmptyString -> PyStr.contains "(" before = false ->
        _clean_symbol_name (before ++ String "(" after) = PyStr.strip before)
  /\ _clean_symbol_name (_clean_symbol_name name) = _clean_symbol_name name.
Proof.
  split; [apply clean_without|]. split; [reflexivity|]. split; [apply clean_before|].
  destruct (first_occurrence "(" name) as [H|(before & after & -> & H)].
  - now rewrite !(clean_without _ H).
  - destruct before as [|a before]; [reflexivity|].
    rewrite clean_before by (try discriminate; exact H).
    apply clean_without, strip_without, H.
Qed.

(** ** The name read from a hover *)

Lemma derives_keeps (r : Re.regex) (pos : nat) (text : string)
  (cap cap' : option string) :
  derives r pos text cap cap' -> cap <> None -> cap' <> None.
Proof. induction 1; auto; discriminate. Qed.

Lemma derives_captures (r : Re.regex) (pos : nat) (text : string)
  (cap cap' : option string) :
  derives r pos text cap cap' -> captures r = true -> cap' <> None.
Proof.
  induction 1 as [| | | |r1 r2 pos t1 t2 cap cap1 cap2 D1 IH1 D2 IH2
                  |r1 r2 pos t cap cap' D IH|r1 r2 pos t cap cap' D IH
                  |r1 pos t cap cap' D IH| |r1 pos t cap cap' D IH|];
    cbn [captures]; try discriminate.
  - intros H. apply orb_prop in H as [H|H]; [|now apply IH2].
    eapply derives_keeps; [exact D2 | now apply IH1].
  - intros H. apply andb_prop in H as [H _]. now apply IH.
  - intros H. apply andb_prop in H as [_ H]. now apply IH.
Qed.

Lemma first_match_captures (patterns : list Re.regex) (text : string) (m : Re.Match) :
  forallb captures patterns = true ->
  first_match patterns text = Some m -> Re.group1 m <> None.
Proof.
  induction patterns as [|pattern patterns IH]; [discriminate|].
  cbn [forallb first_match]. intros Hc H. apply andb_prop in Hc as [Hc Hcs].
  destruct (Re.search pattern text) as [m'|] eqn:E; [|now apply IH].
  injection H as ->. apply search_from_sound in E as (pos & matched & D).
  eapply derives_captures; eassumption.
Qed.

(** X9. [_extract_symbol_from_hover] does not raise on a hover result
    that has a text.  It returns the empty string when no pattern matches.
    When a pattern matches, it returns what the first such pattern
    captured, without the quotes of a quoted name: a non-empty name that
    holds no double quote, an identifier or the text between the
    quotes. *)
Theorem extracted_name_is_bare (hover : dict) (text : string) :
  hover_text hover = Some text ->
  exists name,
    _extract_symbol_from_hover (JObj hover) = Ok name
    /\ (first_match Patterns.patterns text = None -> name = EmptyString)
    /\ (forall m,
          first_match Patterns.patterns text = Some m ->
          name <> EmptyString
          /\ bare_name name
          /\ exists captured,
               Re.group1 m = Some captured
               /\ (captured = name
                   \/ captured = (PyStr.dquotes ++ name ++ PyStr.dquotes)%string)).
Proof.
  intros Htext.
  assert (Hrun : _extract_symbol_from_hover (JObj hover)
                 = if negb (Py.truthy (JStr text)) then Ok EmptyString
                   else match first_match Patterns.patterns text with
                        | Some m =>
                            match Re.group1 m with
                            | Some name => Ok (unquote_name name)
                            | None => Raise AttributeError
                            end
                        | None => Ok EmptyString
                        end).
  { unfold _extract_symbol_from_hover. cbn [as_dict obind].
    unfold hover_text in Htext.
    destruct (Py.get_default "contents" (JObj []) hover) as [| | | |s|items|contents];
      try discriminate.
    - now injection Htext as ->.
    - destruct (Py.get_default "value" (JStr EmptyString) contents) as [| | | |s| |];
        try discriminate.
      now injection Htext as ->. }
  rewrite Hrun. destruct text as [|c text].
  { exists EmptyString. split; [reflexivity|]. split; [reflexivity|].
    intros m Hm. vm_compute in Hm. discriminate Hm. }
  cbn [Py.truthy PyStr.truthy negb].
  destruct (first_match Patterns.patterns (String c text)) as [m|] eqn:Hm.
  2: { exists EmptyString. split; [reflexivity|]. split; [reflexivity | discriminate]. }
  destruct (Re.group1 m) as [captured|] eqn:Hcap.
  2: { now elim (first_match_captures Patterns.patterns _ _ eq_refl Hm). }
  exists (unquote_name captured). split; [reflexivity|]. split; [discriminate|].
  intros m' Hm'. injection Hm' as <-.
  destruct (first_match_shape _ _ _ _ patterns_only_names Hm Hcap)
    as [(inner & -> & Hne & Hin)|Hid].
  - rewrite unquote_quoted. split; [exact Hne|]. split; [right; now split|].
    exists (PyStr.dquotes ++ inner ++ PyStr.dquotes)%string. split; [exact Hcap | now right].
  - unfold unquote_name. rewrite (identifier_not_quoted _ Hid). cbn [andb].
    split; [destruct Hid as (c0 & rest & -> & _); discriminate|].
    split; [now left|]. exists captured. split; [exact Hcap | now left].
Qed.

Lemma extracted_name_is_bare_witness :
  exists name,
    _extract_symbol_from_hover (JObj Demo.quoted_hover) = Ok name
    /\ name <> EmptyString
    /\ bare_name name.
Proof.
  destruct (extracted_name_is_bare Demo.quoted_hover
              ("procedure " ++ PyStr.dquotes ++ "My Proc" ++ PyStr.dquotes
               ++ "(Input: Text)") eq_refl) as (name & Hrun & _ & Hshape).
  destruct (first_match Patterns.patterns
              ("procedure " ++ PyStr.dquotes ++ "My Proc" ++ PyStr.dquotes
               ++ "(Input: Text)")) as [m|] eqn:Hm; [|vm_compute in Hm; discriminate Hm].
  destruct (Hshape m eq_refl) as (Hne & Hbare & _).
  exists name. split; [exact Hrun|]. split; assumption.
Defined.

(** ** Completeness of the matcher on procedure declarations *)

Section Completeness.

Context {R : Type}.

Lemma lit_matches (p : string) : forall pos rest (k : nat -> string -> option R),
  Re.lit p pos (p ++ rest) k = k (pos + String.length p) rest.
Proof.
  induction p as [|a p IH]; intros pos rest k; cbn.
  - now rewrite Nat.add_0_r.
  - rewrite Ascii.eqb_refl, IH. now rewrite <- Nat.add_succ_comm.
Qed.

Lemma lit_fails (a b : ascii) (p s : string) (pos : nat)
  (k : nat -> string -> option R) :
  a <> b -> Re.lit (String a p) pos (String b s) k = None.
Proof.
  intros H. cbn. destruct (Ascii.eqb a b) eqn:E; [|reflexivity].
  apply Ascii.eqb_eq in E. contradiction.
Qed.

(** A greedy repetition takes the whole run of characters of the class
    when what follows succeeds from there. *)
Lemma star_greedy (cl : Re.cclass) (text : string) :
  forall pos rest (k : nat -> string -> option R) m,
    all_in cl text ->
    match rest with
    | EmptyString => True
    | String c _ => Re.in_class cl c = false
    end ->
    k (pos + String.length text) rest = Some m ->
    Re.star cl pos (text ++ rest) k = Some m.
Proof.
  induction text as [|c text IH]; intros pos rest k m Hall Hrest Hk.
  - cbn in *. rewrite Nat.add_0_r in Hk.
    destruct rest as [|c rest]; [exact Hk|]. cbn. now rewrite Hrest.
  - destruct Hall as [Hc Hall]. cbn. rewrite Hc.
    rewrite (IH (S pos) rest k m Hall Hrest); [reflexivity|].
    cbn in Hk. now rewrite <- Nat.add_succ_comm in Hk.
Qed.

End Completeness.

Lemma letter_is_not_space (c : ascii) :
  Re.in_class (Re.Chars false Patterns.letter_) c = true -> PyStr.isspace c = false.
Proof.
  destruct c as [[] [] [] [] [] [] [] []]; vm_compute; congruence.
Qed.

Lemma letter_is_not_quote (c : ascii) :
  Re.in_class (Re.Chars false Patterns.letter_) c = true -> PyStr.dquote <> c.
Proof. intros H E. subst c. discriminate. Qed.

Lemma space_is_not_p (w : string) :
  all_in Re.Space w -> PyStr.contains "p" w = false.
Proof.
  induction w as [|c w IH]; [reflexivity|]. intros [Hc Hw].
  cbn [PyStr.contains]. rewrite (IH Hw), orb_false_r.
  destruct (Ascii.eqb c "p") eqn:E; [|reflexivity].
  apply Ascii.eqb_eq in E. subst c. discriminate.
Qed.

(** Two ways to split a text at its first [c] are the same. *)
Lemma first_occurrence_unique (c : ascii) (a b x y : string) :
  PyStr.contains c a = false -> PyStr.contains c b = false ->
  (a ++ String c x)%string = (b ++ String c y)%string -> a = b /\ x = y.
Proof.
  revert b. induction a as [|u a IH]; intros [|v b] Ha Hb H; cbn in *.
  - injection H as ->. now split.
  - injection H as -> _. now rewrite Ascii.eqb_refl in Hb.
  - injection H as -> _. now rewrite Ascii.eqb_refl in Ha.
  - injection H as -> H. apply orb_false_elim in Ha as [_ Ha].
    apply orb_false_elim in Hb as [_ Hb].
    destruct (IH _ Ha Hb H) as [-> ->]. now split.
Qed.

(** From the keyword on, the pattern takes the white space, then the
    whole identifier, which becomes group 1. *)
Lemma procedure_tail_matches {R : Type} (ws name rest : string) (pos : nat)
  (cap : option string) (k : nat -> string -> option string -> option R) (m : R) :
  ws <> EmptyString -> all_in Re.Space ws ->
  identifier_name name -> ends_name rest ->
  k (pos + String.length ("procedure" ++ ws ++ name)) rest (Some name) = Some m ->
  Re.run procedure_tail pos ("procedure" ++ ws ++ name ++ rest) cap k = Some m.
Proof.
  intros Hne Hws (c & tail & -> & Hc & Htail) Hrest Hk.
  unfold procedure_tail. cbn [Re.run].
  rewrite lit_matches.
  destruct ws as [|s ws]; [congruence|]. destruct Hws as [Hs Hws].
  cbn [append]. rewrite Hs.
  apply star_greedy with (text := ws) (rest := (String c tail ++ rest)%string);
    [exact Hws | cbn; now apply letter_is_not_space |].
  unfold Patterns.name_group. cbn [Re.run].
  unfold Patterns.quoted at 1. cbn [Re.run].
  change (String c tail ++ rest)%string with (String c (tail ++ rest)).
  unfold PyStr.dquotes.
  rewrite lit_fails by now apply letter_is_not_quote.
  unfold Patterns.identifier. cbn [Re.run]. rewrite Hc.
  apply star_greedy with (text := tail) (rest := rest); [exact Htail | exact Hrest |].
  match goal with |- k ?p rest (Some (PyStr.take ?n ?x)) = Some m =>
    replace n with (String.length (String c tail)) by (cbn [String.length]; lia);
    change x with (String c tail ++ rest)%string;
    rewrite take_append;
    replace p with (pos + String.length ("procedure" ++ String s ws ++ String c tail))
      by (rewrite !length_append; cbn [String.length]; lia)
  end.
  exact Hk.
Qed.

(** [procedure_] is the optional [local] and white space, then the tail. *)
Lemma procedure_unfold {R : Type} (pos : nat) (s : string) (cap : option string)
  (k : nat -> string -> option string -> option R) :
  Re.run Patterns.procedure_ pos s cap k
  = match Re.run (Re.Seq (Re.Lit "local") (Re.Plus Re.Space)) pos s cap
            (fun pos' s' cap' => Re.run procedure_tail pos' s' cap' k) with
    | Some m => Some m
    | None => Re.run procedure_tail pos s cap k
    end.
Proof. reflexivity. Qed.

Lemma procedure_tail_needs_keyword {R : Type} (a : ascii) (s : string) (pos : nat)
  (cap : option string) (k : nat -> string -> option string -> option R) :
  a <> "p"%char -> Re.run procedure_tail pos (String a s) cap k = None.
Proof.
  intros H. unfold procedure_tail. cbn [Re.run]. apply lit_fails. congruence.
Qed.

(** The pattern [procedure_] at an offset where the keyword starts. *)
Lemma procedure_matches_at_keyword (ws name rest : string) (pos start : nat) :
  ws <> EmptyString -> all_in Re.Space ws ->
  identifier_name name -> ends_name rest ->
  exists e,
    Re.run Patterns.procedure_ pos ("procedure" ++ ws ++ name ++ rest) None
      (fun e _ cap => Some {| Re.m_start := start; Re.m_end := e; Re.group1 := cap |})
    = Some {| Re.m_start := start; Re.m_end := e; Re.group1 := Some name |}.
Proof.
  intros Hne Hws Hname Hrest. eexists.
  rewrite procedure_unfold.
  replace (Re.run (Re.Seq (Re.Lit "local") (Re.Plus Re.Space)) pos
             ("procedure" ++ ws ++ name ++ rest) None _)
    with (@None Re.Match) by reflexivity.
  apply (procedure_tail_matches ws name rest pos None _ _ Hne Hws Hname Hrest).
  reflexivity.
Qed.

Lemma local_shape (pos : nat) (text : string) (cap cap' : option string) :
  derives (Re.Seq (Re.Lit "local") (Re.Plus Re.Space)) pos text cap cap' ->
  exists w, text = ("local" ++ w)%string /\ all_in Re.Space w.
Proof.
  intros D. inversion D; subst; clear D.
  repeat match goal with
    | H : derives (Re.Lit _) _ _ _ _ |- _ => inversion H; subst; clear H
    | H : derives (Re.Plus _) _ _ _ _ |- _ => inversion H; subst; clear H
    end.
  eexists. split; [reflexivity | assumption].
Qed.

(** Before the keyword, a match can only start at a [local] that the
    keyword follows, and it captures the same name. *)
Lemma procedure_matches_before_keyword (a : ascii) (before ws name rest : string)
  (pos start : nat) (m : Re.Match) :
  PyStr.contains "p" (String a before) = false ->
  ws <> EmptyString -> all_in Re.Space ws ->
  identifier_name name -> ends_name rest ->
  Re.run Patterns.procedure_ pos
    (String a before ++ "procedure" ++ ws ++ name ++ rest) None
    (fun e _ cap => Some {| Re.m_start := start; Re.m_end := e; Re.group1 := cap |})
  = Some m ->
  Re.group1 m = Some name.
Proof.
  intros Hp Hne Hws Hname Hrest. rewrite procedure_unfold.
  set (k := fun (e : nat) (_ : string) (cap : option string) =>
              Some {| Re.m_start := start; Re.m_end := e; Re.group1 := cap |}).
  destruct (Re.run (Re.Seq (Re.Lit "local") (Re.Plus Re.Space)) pos _ None _)
    as [m'|] eqn:E.
  - intros H. injection H as <-.
    apply run_sound in E as (text & r2 & cap' & Hs & D & E).
    apply local_shape in D as (w & -> & Hw).
    assert (Hr2 : exists r3, r2 = ("procedure" ++ r3)%string).
    { unfold procedure_tail in E. cbn [Re.run] in E.
      apply lit_sound in E as (r3 & -> & _). now exists r3. }
    destruct Hr2 as (r3 & ->).
    assert (Hsame : ("local" ++ w)%string = String a before
                    /\ ("rocedure" ++ r3)%string
                       = ("rocedure" ++ ws ++ name ++ rest)%string).
    { apply (first_occurrence_unique "p").
      - cbn [append PyStr.contains Ascii.eqb Bool.eqb orb].
        apply (space_is_not_p w Hw).
      - exact Hp.
      - change (String "p" ("rocedure" ++ r3)) with ("procedure" ++ r3)%string.
        change (String "p" ("rocedure" ++ ws ++ name ++ rest))
          with ("procedure" ++ ws ++ name ++ rest)%string.
        now rewrite <- Hs. }
    destruct Hsame as [_ Hr3]. cbn [append] in Hr3.
    injection Hr3 as ->.
    cbv beta in E.
    rewrite (procedure_tail_matches ws name rest _ cap' k _ Hne Hws Hname Hrest eq_refl)
      in E.
    injection E as <-. reflexivity.
  - change (String a before ++ ?x)%string with (String a (before ++ x)).
    rewrite procedure_tail_needs_keyword; [discriminate|].
    intros ->. cbn in Hp. discriminate.
Qed.

Lemma search_from_hit (r : Re.regex) (pos : nat) (s : string) (m : Re.Match) :
  Re.run r pos s None
    (fun e _ cap => Some {| Re.m_start := pos; Re.m_end := e; Re.group1 := cap |})
  = Some m ->
  Re.search_from r pos s = Some m.
Proof. intros H. destruct s; cbn [Re.search_from]; now rewrite H. Qed.

Lemma search_finds_procedure (before ws name rest : string) :
  PyStr.contains "p" before = false ->
  ws <> EmptyString -> all_in Re.Space ws ->
  identifier_name name -> ends_name rest ->
  forall pos,
  exists m,
    Re.search_from Patterns.procedure_ pos
      (before ++ "procedure" ++ ws ++ name ++ rest) = Some m
    /\ Re.group1 m = Some name.
Proof.
  intros Hp Hne Hws Hname Hrest.
  induction before as [|a before IH]; intros pos.
  - destruct (procedure_matches_at_keyword ws name rest pos pos Hne Hws Hname Hrest)
      as (e & He).
    exists {| Re.m_start := pos; Re.m_end := e; Re.group1 := Some name |}.
    split; [|reflexivity]. apply search_from_hit, He.
  - change (String a before ++ ?x)%string with (String a (before ++ x)).
    cbn [Re.search_from].
    destruct (Re.run Patterns.procedure_ pos _ None _) as [m|] eqn:E.
    + exists m. split; [reflexivity|].
      eapply procedure_matches_before_keyword; eassumption.
    + apply IH. cbn in Hp. now apply orb_false_elim in Hp as [_ Hp].
Qed.

(** X10. Whenever the hover text has the keyword [procedure] - with no
    letter p before it - followed by white space and an identifier that
    ends the text or is followed by a character other than a letter, a
    digit or an underscore, [_extract_symbol_from_hover] returns that
    identifier. *)
Theorem procedure_name_is_extracted (hover : dict) (before ws name rest : string) :
  hover_text hover = Some (before ++ "procedure" ++ ws ++ name ++ rest)%string ->
  PyStr.contains "p" before = false ->
  ws <> EmptyString -> all_in Re.Space ws ->
  identifier_name name -> ends_name rest ->
  _extract_symbol_from_hover (JObj hover) = Ok name.
Proof.
  intros Htext Hp Hne Hws Hname Hrest.
  destruct (search_finds_procedure before ws name rest Hp Hne Hws Hname Hrest 0)
    as (m & Hm & Hg).
  set (text := (before ++ "procedure" ++ ws ++ name ++ rest)%string) in *.
  assert (Htruthy : Py.truthy (JStr text) = true).
  { unfold text. destruct before; reflexivity. }
  assert (Hfirst : first_match Patterns.patterns text = Some m).
  { unfold Patterns.patterns. cbn [first_match]. unfold Re.search. now rewrite Hm. }
  assert (Hun : unquote_name name = name).
  { unfold unquote_name. now rewrite (identifier_not_quoted _ Hname). }
  unfold _extract_symbol_from_hover. cbn [as_dict obind].
  unfold hover_text in Htext.
  destruct (Py.get_default "contents" (JObj []) hover) as [| | | |s|items|contents];
    try discriminate.
  - injection Htext as ->. cbn [obind]. rewrite Htruthy. cbn [negb].
    now rewrite Hfirst, Hg, Hun.
  - destruct (Py.get_default "value" (JStr EmptyString) contents) as [| | | |s| |];
      try discriminate.
    injection Htext as ->. cbn [obind]. rewrite Htruthy. cbn [negb].
    now rewrite Hfirst, Hg, Hun.
Qed.

Lemma procedure_name_is_extracted_witness :
  _extract_symbol_from_hover
    (JObj [("contents",
            JObj [("kind", JStr "markdown");
                  ("value", JStr "local procedure Translate(var Mail: Text)")])])
  = Ok "Translate".
Proof.
  apply (procedure_name_is_extracted _ "local " " " "Translate" "(var Mail: Text)").
  - reflexivity.
  - reflexivity.
  - discriminate.
  - split; [reflexivity | exact I].
  - exists "T"%char, "ranslate". vm_compute. repeat split.
  - reflexivity.
Defined.

(** ** The handlers of document requests *)

Lemma prelude_has_document (os : Platform) (params : json) (w w' : World) :
  document_prelude os params w w' ->
  exists text_document, subscript "textDocument" params = Ok text_document.
Proof.
  intros (uri & _ & _ & _ & Huri & _). unfold document_uri in Huri.
  destruct (subscript "textDocument" params) as [td|e]; [now exists td | discriminate].
Qed.

(** A handler after its first steps. *)
Lemma after_prelude {A : Type} (os : Platform) (params : json) (w w' : World)
  (k : M A) :
  document_prelude os params w w' ->
  (uri <- lift (document_uri params) ;;
   _ensure_project_initialized os uri ;;
   uri_text <- lift (as_str uri) ;;
   _ensure_file_opened os uri_text ;;
   k) w
  = k w'.
Proof.
  intros (uri & uri_text & root & w0 & Huri & Htext & Hinit & Hopen).
  unfold bind at 1. unfold lift at 1. rewrite Huri.
  unfold bind at 1. rewrite Hinit.
  unfold bind at 1. unfold lift at 1. rewrite Htext.
  unfold bind at 1. rewrite Hopen. reflexivity.
Qed.

(** X11. When [al/gotodefinition] answers with a result that is neither
    null nor an empty list, [handle_definition] returns that response as
    it came, and sends nothing more. *)
Theorem definition_is_passed_on (os : Platform) (params : json) (w w1 w2 : World)
  (text_document position : json) (d : dict) :
  document_prelude os params w w1 ->
  subscript "textDocument" params = Ok text_document ->
  subscript "position" params = Ok position ->
  send_request (JStr "al/gotodefinition") (definition_params text_document position) w1
  = (Ok (Some d), w2) ->
  has_result (Some d) = true ->
  _is_empty_definition_result (Py.get_none "result" d) = false ->
  handle_definition os params w = (Ok d, w2).
Proof.
  intros Hpre Htd Hpos Hdef Hhas Hfull.
  unfold handle_definition. rewrite (after_prelude os params w w1 _ Hpre).
  unfold bind at 1. unfold try_except.
  unfold bind at 1. unfold lift at 1. rewrite Htd.
  unfold bind at 1. unfold lift at 1. rewrite Hpos.
  unfold bind at 1. unfold definition_params in Hdef. rewrite Hdef.
  rewrite Hhas, Hfull. reflexivity.
Qed.

Lemma definition_is_passed_on_witness :
  exists w',
    handle_definition Demo.os Demo.position_params (Demo.world Documents.found)
    = (Ok (Demo.response 2 Documents.location), w').
Proof.
  eexists.
  apply (definition_is_passed_on Demo.os Demo.position_params (Demo.world Documents.found)
           (snd (_ensure_file_opened Demo.os Demo.source_uri
                   (snd (_ensure_project_initialized Demo.os (JStr Demo.source_uri)
                           (Demo.world Documents.found)))))
           _
           (JObj [("uri", JStr Demo.source_uri)])
           (JObj [("line", JInt 9); ("character", JInt 12)])).
  - exists (JStr Demo.source_uri), Demo.source_uri, (Some "/ws/proj"),
      (snd (_ensure_project_initialized Demo.os (JStr Demo.source_uri)
              (Demo.world Documents.found))).
    refine (conj _ (conj _ (conj _ _))); vm_compute; reflexivity.
  - reflexivity.
  - reflexivity.
  - vm_compute. reflexivity.
  - reflexivity.
  - reflexivity.
Defined.

(** X12. When the attempt with [al/gotodefinition] gives nothing to return
    - the parameters have no position, the round trip raises, the AL
    server gives no response, or a response without a result field -
    [handle_definition] asks again with the standard
    [textDocument/definition] and the parameters of the client, and
    returns the response to that, or the empty object when there is none. *)
Theorem definition_falls_back_to_standard (os : Platform) (params : json)
  (w w1 w2 : World) :
  document_prelude os params w w1 ->
  primary_unusable params w1 w2 ->
  handle_definition os params w
  = (response <- send_request (JStr "textDocument/definition") params ;;
     ret (or_empty response)) w2.
Proof.
  intros Hpre Hun.
  unfold handle_definition. rewrite (after_prelude os params w w1 _ Hpre).
  unfold bind at 1. unfold try_except.
  destruct Hun as [td e Htd Hpos ->|td pos r Htd Hpos Hdef Hr].
  - unfold bind at 1. unfold lift at 1. rewrite Htd.
    unfold bind at 1. unfold lift at 1. rewrite Hpos. reflexivity.
  - unfold bind at 1. unfold lift at 1. rewrite Htd.
    unfold bind at 1. unfold lift at 1. rewrite Hpos.
    unfold bind at 1. unfold definition_params in Hdef. rewrite Hdef.
    destruct r as [[d|]|e]; [rewrite Hr| |]; reflexivity.
Qed.

Lemma definition_falls_back_to_standard_witness :
  exists w',
    handle_definition Demo.os Demo.position_params (Demo.world Documents.refused)
    = (Ok (Demo.response 3 Documents.location), w').
Proof.
  eexists.
  rewrite (definition_falls_back_to_standard Demo.os Demo.position_params
             (Demo.world Documents.refused)
             (snd (_ensure_file_opened Demo.os Demo.source_uri
                     (snd (_ensure_project_initialized Demo.os (JStr Demo.source_uri)
                             (Demo.world Documents.refused)))))
             (snd (send_request (JStr "al/gotodefinition")
                     (definition_params (JObj [("uri", JStr Demo.source_uri)])
                        (JObj [("line", JInt 9); ("character", JInt 12)]))
                     (snd (_ensure_file_opened Demo.os Demo.source_uri
                             (snd (_ensure_project_initialized Demo.os
                                     (JStr Demo.source_uri)
                                     (Demo.world Documents.refused)))))))).
  - vm_compute. reflexivity.
  - exists (JStr Demo.source_uri), Demo.source_uri, (Some "/ws/proj"),
      (snd (_ensure_project_initialized Demo.os (JStr Demo.source_uri)
              (Demo.world Documents.refused))).
    refine (conj _ (conj _ (conj _ _))); vm_compute; reflexivity.
  - eapply unusable_answer with (r := Ok (Some _)).
    + reflexivity.
    + reflexivity.
    + vm_compute. reflexivity.
    + reflexivity.
Defined.

Lemma method_known (request : dict) (method : string) :
  Py.get "method" request = Some (JStr method) ->
  Py.get_default "method" (JStr EmptyString) request = JStr method.
Proof. intros H. unfold Py.get_default. now rewrite H. Qed.

(** X13. A hover, document-symbol or references request is forwarded to
    the AL server under its own method and with the parameters of the
    client, once the project is initialized and the document announced.
    The client gets the response of the AL server with the id of its
    request; when the AL server gives no response the answer is the empty
    object, which [main] does not write. *)
Theorem document_request_is_forwarded (os : Platform) (request : dict)
  (method : string) (w w1 w2 : World) (r : outcome (option dict)) :
  Py.get "method" request = Some (JStr method) ->
  In method forwarded_methods ->
  document_prelude os (Py.get_default "params" (JObj []) request) w w1 ->
  send_request (JStr method) (Py.get_default "params" (JObj []) request) w1 = (r, w2) ->
  process_request os (JObj request) w
  = (forwarded_answer (Py.get_none "id" request) r, w2).
Proof.
  intros Hm Hin Hpre Hsend.
  unfold process_request, bind at 1, lift at 1. cbn [as_dict]. cbv zeta.
  rewrite (method_known _ _ Hm).
  destruct Hin as [<-|[<-|[<-|[]]]]; cbn [is_str String.eqb Ascii.eqb Bool.eqb];
    unfold bind at 1;
    [unfold handle_document_symbol|unfold handle_hover|unfold handle_references];
    rewrite (after_prelude os _ w w1 _ Hpre);
    unfold bind at 1; rewrite Hsend; destruct r as [[d|]|e]; reflexivity.
Qed.

Lemma document_request_is_forwarded_witness :
  exists w',
    process_request Demo.os (JObj Documents.hover_request)
      (Demo.world [JObj (Demo.response 1 JNull); JObj (Demo.response 2 (JStr "text"))])
    = (Ok (JObj (Demo.response 3 (JStr "text"))), w').
Proof.
  eexists.
  apply (document_request_is_forwarded Demo.os Documents.hover_request "textDocument/hover"
           (Demo.world [JObj (Demo.response 1 JNull); JObj (Demo.response 2 (JStr "text"))])
           (snd (_ensure_file_opened Demo.os Demo.source_uri
                   (snd (_ensure_project_initialized Demo.os (JStr Demo.source_uri)
                           (Demo.world [JObj (Demo.response 1 JNull);
                                        JObj (Demo.response 2 (JStr "text"))])))))
           _ (Ok (Some (Demo.response 2 (JStr "text"))))).
  - reflexivity.
  - right. left. reflexivity.
  - exists (JStr Demo.source_uri), Demo.source_uri, (Some "/ws/proj"),
      (snd (_ensure_project_initialized Demo.os (JStr Demo.source_uri)
              (Demo.world [JObj (Demo.response 1 JNull);
                           JObj (Demo.response 2 (JStr "text"))]))).
    refine (conj _ (conj _ (conj _ _))); vm_compute; reflexivity.
  - vm_compute. reflexivity.
Defined.

Lemma document_request_raises (os : Platform) (request : dict)
  (method : string) (w : World) (e : exn) :
  Py.get "method" request = Some (JStr method) ->
  In method document_methods ->
  document_uri (Py.get_default "params" (JObj []) request) = Raise e ->
  process_request os (JObj request) w = (Raise e, w).
Proof.
  intros Hm Hin Huri.
  unfold process_request, bind at 1, lift at 1. cbn [as_dict]. cbv zeta.
  rewrite (method_known _ _ Hm).
  destruct Hin as [<-|[<-|[<-|[<-|[]]]]]; cbn [is_str String.eqb Ascii.eqb Bool.eqb];
    unfold bind at 1;
    [unfold handle_definition|unfold handle_document_symbol
    |unfold handle_hover|unfold handle_references];
    unfold bind at 1; unfold lift at 1; rewrite Huri; reflexivity.
Qed.

(** X14. A definition, document-symbol, hover or references request whose
    parameters do not give the URI of a document - no [textDocument], or
    no [uri] in it - raises out of [process_request] with the state as it
    was: nothing is sent to the AL server. *)
Theorem document_request_without_uri (os : Platform) (request : dict)
  (method : string) (w : World) (e : exn) :
  Py.get "method" request = Some (JStr method) ->
  In method document_methods ->
  document_uri (Py.get_default "params" (JObj []) request) = Raise e ->
  process_request os (JObj request) w = (Raise e, w).
Proof. apply document_request_raises. Qed.

Lemma document_request_without_uri_witness :
  process_request Demo.os (JObj Documents.no_document) (Demo.world [])
  = (Raise KeyError, Demo.world []).
Proof.
  apply (document_request_without_uri Demo.os Documents.no_document "textDocument/hover").
  - reflexivity.
  - right. right. left. reflexivity.
  - reflexivity.
Defined.

(** ** Requests passed through *)

Lemma is_str_other (k method : string) : method <> k -> is_str k (JStr method) = false.
Proof. intros H. cbn. now apply String.eqb_neq. Qed.

Lemma other_branch (os : Platform) (request : dict) (method : string) (w : World) :
  Py.get "method" request = Some (JStr method) ->
  ~ In method routed_methods ->
  process_request os (JObj request) w
  = match Py.get_none "id" request with
    | JNull =>
        (send_notification (JStr method) (Py.get_default "params" (JObj []) request) ;;
         ret JNull) w
    | _ =>
        (response <- send_request (JStr method)
                       (Py.get_default "params" (JObj []) request) ;;
         ret (match response with
              | Some (field :: fields) =>
                  JObj (Py.set_item "id" (Py.get_none "id" request) (field :: fields))
              | _ => JObj [("jsonrpc", JStr "2.0"); ("id", Py.get_none "id" request);
                           ("result", JNull)]
              end)) w
    end.
Proof.
  intros Hm Hn.
  unfold process_request, bind at 1, lift at 1. cbn [as_dict]. cbv zeta.
  rewrite (method_known _ _ Hm).
  unfold routed_methods, call_hierarchy_methods in Hn. cbn [app In] in Hn.
  rewrite !is_str_other by (intros ->; tauto).
  cbn [existsb call_hierarchy_methods orb].
  rewrite !is_str_other by (intros ->; tauto).
  cbn [orb]. destruct (Py.get_none "id" request); reflexivity.
Qed.

(** X15. A request whose method [process_request] has no branch for is
    sent to the AL server under the same method and with the same
    parameters, numbered by the wrapper; the client gets the response of
    the AL server with the id of its own request, or a null result under
    that id when the AL server gives no response or an empty one.  The
    same message without an id is forwarded as a notification and is not
    answered. *)
Theorem other_request_is_passed_through (os : Platform) (request : dict)
  (method : string) (w : World) :
  Py.get "method" request = Some (JStr method) ->
  ~ In method routed_methods ->
  (Py.get_none "id" request <> JNull ->
   process_request os (JObj request) w
   = (passed_answer (Py.get_none "id" request)
        (fst (send_request (JStr method)
                (Py.get_default "params" (JObj []) request) w)),
      snd (send_request (JStr method)
             (Py.get_default "params" (JObj []) request) w)))
  /\ (Py.get_none "id" request = JNull ->
      process_request os (JObj request) w
      = match write_to (notification_message (JStr method)
                          (Py.get_default "params" (JObj []) request)) (process w) with
        | Some p => (Ok JNull, set_process p w)
        | None => (Raise BrokenPipeError, w)
        end).
Proof.
  intros Hm Hn. rewrite (other_branch os _ _ w Hm Hn). split.
  - intros Hid. unfold bind, ret, passed_answer, null_result.
    destruct (send_request _ _ w) as [[[[|f fs]|]|e] w1]; cbn [fst snd];
      destruct (Py.get_none "id" request); try reflexivity; congruence.
  - intros ->. unfold bind, ret, send_notification, send_message, notification_message.
    destruct (write_to _ (process w)); reflexivity.
Qed.

Lemma other_request_is_passed_through_witness :
  process_request Demo.os (JObj Passing.completion)
    (Demo.world [JObj (Demo.response 1 (JArr []))])
  = (Ok (JObj (Demo.response 7 (JArr []))),
     snd (send_request (JStr "textDocument/completion") Demo.position_params
            (Demo.world [JObj (Demo.response 1 (JArr []))]))).
Proof.
  refine (proj1 (other_request_is_passed_through Demo.os Passing.completion
                   "textDocument/completion"
                   (Demo.world [JObj (Demo.response 1 (JArr []))]) eq_refl _) _).
  - vm_compute. intuition discriminate.
  - discriminate.
Defined.

(** ** The project below a directory *)

Lemma search_down_shallowest (os : Platform) (start : PurePath) (found : PurePath)
  (rest : list PurePath) :
  forall remaining first depth,
    first <= depth < first + remaining ->
    manifests_at os start depth = found :: rest ->
    (forall d, first <= d < depth -> manifests_at os start d = []) ->
    search_down os start first remaining = Some (str os (parent found)).
Proof.
  induction remaining as [|remaining IH]; intros first depth Hd Hfound Hnone; [lia|].
  cbn [search_down]. destruct (Nat.eq_dec first depth) as [->|Hne].
  - unfold manifests_at in Hfound. now rewrite Hfound.
  - assert (H : manifests_at os start first = []) by (apply Hnone; lia).
    unfold manifests_at in H. rewrite H.
    apply (IH (S first) depth); [lia | exact Hfound |].
    intros d Hd'. apply Hnone. lia.
Qed.

Lemma search_down_nothing (os : Platform) (start : PurePath) :
  forall remaining first,
    (forall d, first <= d < first + remaining -> manifests_at os start d = []) ->
    search_down os start first remaining = None.
Proof.
  induction remaining as [|remaining IH]; intros first Hnone; [reflexivity|].
  cbn [search_down].
  assert (H : manifests_at os start first = []) by (apply Hnone; lia).
  unfold manifests_at in H. rewrite H. apply IH. intros d Hd. apply Hnone. lia.
Qed.

(** X16. [find_al_project] answers [None] for a start directory that does
    not exist, and the start directory itself when it holds a manifest.
    Otherwise it answers the directory of the first manifest listed at the
    smallest depth, from 1 to [max_depth], at which there is one, and
    [None] when there is none down to [max_depth]. *)
Theorem find_al_project_shallowest (os : Platform) (start_path : string)
  (max_depth : nat) :
  (exists_ os (Path os start_path) = false ->
   find_al_project os start_path max_depth = None)
  /\ (exists_ os (Path os start_path) = true ->
      exists_ os (joinpath (Path os start_path) "app.json") = true ->
      find_al_project os start_path max_depth = Some (str os (Path os start_path)))
  /\ (exists_ os (Path os start_path) = true ->
      exists_ os (joinpath (Path os start_path) "app.json") = false ->
      (forall depth found rest,
          1 <= depth <= max_depth ->
          manifests_at os (Path os start_path) depth = found :: rest ->
          (forall d, 1 <= d < depth -> manifests_at os (Path os start_path) d = []) ->
          find_al_project os start_path max_depth = Some (str os (parent found)))
      /\ ((forall d, 1 <= d <= max_depth ->
                     manifests_at os (Path os start_path) d = []) ->
          find_al_project os start_path max_depth = None)).
Proof.
  unfold find_al_project. split; [|split].
  - now intros ->.
  - now intros -> ->.
  - intros -> ->. cbn [negb]. split.
    + intros depth found rest Hd Hfound Hnone.
      apply (search_down_shallowest os _ found rest max_depth 1 depth);
        [lia | exact Hfound | exact Hnone].
    + intros Hnone. apply search_down_nothing. intros d Hd. apply Hnone. lia.
Qed.

(** ** The path of a file URI *)

Lemma replace_go_skips (old new : string) (a : string) : forall s,
  PyStr.replace_go old new (String.length a) (a ++ s) = PyStr.replace_go old new 0 s.
Proof.
  induction a as [|c a IH]; intros s; [reflexivity|].
  cbn [append String.length PyStr.replace_go]. apply IH.
Qed.

Lemma replace_absent (old new s : string) :
  occurs old s = false -> PyStr.replace old new s = s.
Proof.
  unfold PyStr.replace. induction s as [|c s IH]; [reflexivity|].
  cbn [occurs]. intros H. apply orb_false_elim in H as [Hs Ho].
  cbn [PyStr.replace_go]. rewrite Hs. now rewrite (IH Ho).
Qed.

Lemma replace_prefix (c : ascii) (old new s : string) :
  PyStr.replace (String c old) new (String c old ++ s)
  = (new ++ PyStr.replace (String c old) new s)%string.
Proof.
  unfold PyStr.replace. cbn [append PyStr.replace_go].
  assert (Hs : PyStr.startswith (String c old) (String c (old ++ s)) = true).
  { cbn. rewrite Ascii.eqb_refl. cbn. clear. revert s.
    induction old as [|a old IH]; intros s; [reflexivity|].
    cbn. now rewrite Ascii.eqb_refl, IH. }
  rewrite Hs.
  replace (String.length (String c old) - 1) with (String.length old)
    by (cbn [String.length]; lia).
  now rewrite replace_go_skips.
Qed.

Lemma occurs_longer (old extra s : string) :
  occurs old s = false -> occurs (old ++ extra) s = false.
Proof.
  assert (Hs : forall p t, PyStr.startswith p t = false ->
                           PyStr.startswith (p ++ extra) t = false).
  { induction p as [|a p IHp]; intros [|b t]; cbn; try discriminate; try reflexivity.
    intros H. destruct (Ascii.eqb a b); [cbn in *; now apply IHp | reflexivity]. }
  induction s as [|c s IH]; cbn [occurs]; intros H;
    apply orb_false_elim in H as [H1 H2]; rewrite (Hs _ _ H1); [reflexivity|].
  cbn. now apply IH.
Qed.

(** The two [replace] of [_uri_to_path] remove the scheme. *)
Lemma scheme_removed (rest : string) :
  occurs "file://" rest = false ->
  PyStr.replace "file://" "" (PyStr.replace "file:///" "" ("file:///" ++ rest)) = rest.
Proof.
  intros H. rewrite (replace_prefix "f" "ile:///" "" rest).
  cbn [append]. rewrite (replace_absent "file:///" "" rest).
  - now apply replace_absent.
  - now apply (occurs_longer "file://" "/").
Qed.

(** X17. [_uri_to_path] removes the scheme [file:///] with its three
    slashes and decodes the rest.  Elsewhere than on Windows the result
    is that rest, so the path of [file:///home/u/a.al] is [home/u/a.al],
    without the leading slash; on Windows one leading slash of the
    decoded rest is dropped as well.  A text without [file://] is only
    decoded. *)
Theorem uri_to_path_drops_scheme (os : Platform) (rest : string) :
  occurs "file://" rest = false ->
  (is_windows os = false ->
   _uri_to_path os ("file:///" ++ rest) = unquote os rest
   /\ _uri_to_path os rest = unquote os rest)
  /\ (is_windows os = true ->
      _uri_to_path os ("file:///" ++ rest) = without_leading_slash (unquote os rest)
      /\ _uri_to_path os rest = without_leading_slash (unquote os rest)).
Proof.
  intros H. unfold _uri_to_path, without_leading_slash.
  rewrite (scheme_removed rest H).
  rewrite (replace_absent "file:///" "" rest) by now apply (occurs_longer "file://" "/").
  rewrite (replace_absent "file://" "" rest H).
  split; intros ->; cbn [andb]; split; reflexivity.
Qed.

Lemma uri_to_path_drops_scheme_witness :
  _uri_to_path Demo.os "file:///ws/proj/src/Foo.al" = "ws/proj/src/Foo.al".
Proof.
  exact (proj1 (proj1 (uri_to_path_drops_scheme Demo.os "ws/proj/src/Foo.al" eq_refl)
                  eq_refl)).
Defined.

(** ** The call-hierarchy server *)

Lemma ch_stop_stops (server : CallHierarchyServer) :
  exists server',
    ch_stop server = (Ok tt, server')
    /\ ch_process server' = None
    /\ (ch_process server <> None -> ch_initialized server' = false).
Proof.
  unfold ch_stop. destruct (ch_process server) eqn:E.
  - eexists. split; [reflexivity|]. split; reflexivity.
  - exists server. split; [reflexivity|]. split; [exact E | congruence].
Qed.

(** Shutting the call-hierarchy server down never raises and leaves it
    without a process. *)
Lemma ch_shutdown_run (server : CallHierarchyServer) :
  exists server',
    ch_shutdown server = (Ok tt, server')
    /\ ch_process server' = None
    /\ (ch_process server <> None -> ch_initialized server' = false).
Proof.
  unfold ch_shutdown. unfold bind at 1. cbv beta.
  destruct (ch_is_alive server).
  - unfold try_except, ret.
    destruct ((ch_send_request (JStr "shutdown") JNull ;;
               ch_send_notification (JStr "exit") JNull) server)
      as [[[]|e] s1] eqn:E.
    all: assert (Hkeep : ch_process server = None <-> ch_process s1 = None).
    all: try (unfold bind in E;
              destruct (ch_send_request _ _ server) as [[x|e1] s0] eqn:E0;
              [apply ch_send_request_keeps in E0 as [H0 _];
               apply ch_send_notification_keeps in E as [H1 _]; tauto
              |injection E as _ <-;
               apply ch_send_request_keeps in E0 as [H0 _]; tauto]).
    all: destruct (ch_stop_stops s1) as (s2 & -> & Hp & Hi);
      exists s2; split; [reflexivity|]; split; [exact Hp|];
      intros Hsome; apply Hi; tauto.
  - apply ch_stop_stops.
Qed.

(** X18. [CallHierarchyServer.shutdown] never raises, whatever the server
    answers and whether or not its pipe takes the writes, and it leaves the
    object without a process, so that the object is not alive, its
    handshake is forgotten, and a later request to it is answered by
    [None] without anything being written. *)
Theorem ch_shutdown_leaves_no_process (server : CallHierarchyServer) :
  exists server',
    ch_shutdown server = (Ok tt, server')
    /\ ch_process server' = None
    /\ ch_is_alive server' = false
    /\ (ch_process server <> None -> ch_initialized server' = false)
    /\ (forall method params, ch_request method params server' = (Ok JNull, server')).
Proof.
  destruct (ch_shutdown_run server) as (server' & Hrun & Hp & Hi).
  exists server'. split; [exact Hrun|]. split; [exact Hp|].
  assert (Halive : ch_is_alive server' = false) by (unfold ch_is_alive; now rewrite Hp).
  split; [exact Halive|]. split; [exact Hi|].
  intros method params. unfold ch_request. now rewrite Halive.
Qed.

Lemma get_default_field (k : string) (default v : json) (d : dict) :
  Py.get k d = Some v -> Py.get_default k default d = v.
Proof. intros H. unfold Py.get_default. now rewrite H. Qed.

(** The handshake with a server that announces the capability. *)
Lemma ch_initialize_succeeds (os : Platform) (root_uri : string)
  (workspace_folders : json) (server : CallHierarchyServer) (child : Process)
  (answer : dict) (rest : list json) :
  ch_initialized server = false ->
  ch_process server = Some child ->
  running child = true ->
  writes_left child = None ->
  stdout child = JObj answer :: rest ->
  announces_call_hierarchy answer ->
  exists server' p,
    ch_initialize os root_uri workspace_folders server = (Ok true, server')
    /\ ch_initialized server' = true
    /\ ch_root_uri server' = Some root_uri
    /\ ch_process server' = Some p
    /\ running p = true
    /\ stdout p = rest
    /\ stdin p
       = stdin child
         ++ [ch_initialize_message os (ch_request_id server + 1) root_uri
               workspace_folders;
             notification_message (JStr "initialized") (JObj [])].
Proof.
  intros Hinit Hp Hrun Hwr Hout (result & caps & provider & Hres & Hcaps & Hprov & Htrue).
  unfold ch_initialize. rewrite Hinit.
  set (server0 := ch_set_root_uri (Some root_uri) server).
  assert (Hw : exists p1,
             write_to (ch_initialize_message os (ch_request_id server0 + 1) root_uri
                         workspace_folders) child = Some p1
             /\ writes_left p1 = None).
  { unfold write_to. rewrite Hwr. eexists. split; reflexivity. }
  destruct Hw as (p1 & Hw & Hwr1).
  destruct (write_to_some _ _ _ Hw) as (Hin1 & Hout1 & Hrun1).
  rewrite Hrun in Hrun1.
  unfold bind at 1.
  rewrite (ch_send_request_run _ _ server0 child p1 Hp Hrun Hw).
  unfold read_from. rewrite Hout1, Hout. cbn [fst snd].
  assert (Hanswer : answer <> []) by (intros ->; discriminate).
  unfold bind at 1. unfold lift at 1. unfold truthy_and_has.
  assert (Py.truthy (JObj answer) = true) as -> by (destruct answer; [congruence|reflexivity]).
  cbn [py_in]. unfold Py.has_key. rewrite Hres.
  unfold bind at 1. unfold lift at 1. cbn [subscript]. rewrite Hres.
  unfold bind at 1. unfold lift at 1. cbn [as_dict].
  unfold bind at 1. unfold lift at 1.
  rewrite (get_default_field _ _ _ _ Hcaps). cbn [as_dict].
  unfold Py.get_none. rewrite (get_default_field _ _ _ _ Hprov), Htrue.
  unfold bind at 1. unfold ch_send_notification, bind, ch_send_message, ret.
  cbn [ch_process ch_set_process ch_set_request_id with_stdout running].
  rewrite Hrun1.
  unfold write_to. cbn [writes_left with_stdout]. rewrite Hwr1.
  eexists _, _. split; [reflexivity|].
  split; [reflexivity|]. split; [reflexivity|]. split; [reflexivity|].
  split; [exact Hrun1|]. split; [reflexivity|].
  unfold with_stdout. cbn [stdin]. rewrite Hin1. rewrite <- app_assoc. reflexivity.
Qed.

(** X19. When the executable is found, the process starts, and the first
    frame it delivers announces the call-hierarchy capability,
    [_start_call_hierarchy_server] returns with an initialized server.
    The handshake carries the URI of the workspace root the client
    asked for - the detected project root only when there is none - and
    is followed by the [initialized] notification; nothing is sent to the
    AL server. *)
Theorem call_hierarchy_server_starts (os : Platform) (w : World) (exe path : string)
  (child : Process) (answer : dict) (rest : list json) :
  find_call_hierarchy_executable os = Some exe -> exe <> EmptyString ->
  spawn w = Some child ->
  workspace_path w = JStr path -> path <> EmptyString ->
  is_absolute os (Path os path) = true ->
  running child = true ->
  writes_left child = None ->
  stdout child = JObj answer :: rest ->
  announces_call_hierarchy answer ->
  exists server p,
    _start_call_hierarchy_server os w
    = (Ok tt, set_call_hierarchy_server (Some server) w)
    /\ ch_initialized server = true
    /\ ch_root_uri server = Some (uri_text os (Path os path))
    /\ ch_process server = Some p
    /\ running p = true
    /\ stdin p
       = stdin child
         ++ [ch_initialize_message os 1 (uri_text os (Path os path))
               (workspace_folders_of os path);
             notification_message (JStr "initialized") (JObj [])].
Proof.
  intros Hexe Hne Hspawn Hpath Hpne Habs Hrun Hwr Hout Hann.
  destruct (ch_initialize_succeeds os (uri_text os (Path os path))
              (workspace_folders_of os path)
              (ch_set_process (Some child) ch_fresh) child answer rest
              eq_refl eq_refl Hrun Hwr Hout Hann)
    as (server & p & Hinit & Hi & Hroot & Hp & Hrunp & _ & Hin).
  exists server, p.
  unfold _start_call_hierarchy_server.
  rewrite Hexe, Hspawn. destruct exe; [congruence|]. cbn [PyStr.truthy negb].
  unfold ch_start. cbv zeta.
  cbn [workspace_root root_path set_call_hierarchy_server].
  unfold workspace_path in Hpath. rewrite Hpath.
  assert (Htruthy : Py.truthy (JStr path) = true) by (destruct path; [congruence|reflexivity]).
  rewrite Htruthy. cbn [path_arg obind].
  unfold as_uri. rewrite Habs. cbn [obind].
  unfold workspace_folders_of in Hinit. rewrite Hinit.
  split; [reflexivity|].
  split; [exact Hi|]. split; [exact Hroot|]. split; [exact Hp|].
  split; [exact Hrunp | exact Hin].
Qed.

Lemma call_hierarchy_server_starts_witness :
  exists server,
    _start_call_hierarchy_server Demo.with_call_hierarchy Handshake.world
    = (Ok tt, set_call_hierarchy_server (Some server) Handshake.world)
    /\ ch_initialized server = true
    /\ ch_root_uri server = Some "file:///ws".
Proof.
  destruct (call_hierarchy_server_starts Demo.with_call_hierarchy Handshake.world
              "/opt/al-call-hierarchy" "/ws" Handshake.capable
              [("jsonrpc", JStr "2.0"); ("id", JInt 1);
               ("result",
                JObj [("capabilities", JObj [("callHierarchyProvider", jtrue)])])]
              [])
    as (server & p & Hrun & Hinit & Hroot & _).
  - reflexivity.
  - discriminate.
  - reflexivity.
  - reflexivity.
  - discriminate.
  - reflexivity.
  - reflexivity.
  - reflexivity.
  - reflexivity.
  - exists [("capabilities", JObj [("callHierarchyProvider", jtrue)])],
      [("callHierarchyProvider", jtrue)], jtrue.
    refine (conj _ (conj _ (conj _ _))); reflexivity.
  - exists server. refine (conj Hrun (conj Hinit _)). exact Hroot.
Defined.

(** ** The loop of [main] *)

(** X20. However the session goes, [main] ends with the AL server
    terminated and with no call-hierarchy process left: the shutdown of
    the call-hierarchy server in the [finally] block does not raise. *)
Theorem main_leaves_no_process (os : Platform) (requests : list json) (c : Client)
  (w : World) :
  terminated (main_session os requests c w) = true
  /\ forall server,
       call_hierarchy_server (wrapper (main_session os requests c w)) = Some server ->
       ch_process server = None /\ ch_is_alive server = false.
Proof.
  unfold main_session. destruct (main_loop os requests c w) as [c' w'].
  unfold main_finally. destruct (call_hierarchy_server w') as [server|] eqn:E.
  - destruct (ch_shutdown_run server) as (server' & -> & Hp & _).
    cbn. split; [reflexivity|]. intros s H. injection H as <-.
    split; [exact Hp|]. unfold ch_is_alive. now rewrite Hp.
  - cbn. split; [reflexivity|]. intros s H. congruence.
Qed.

(** What [process_request] returns is an object or [None]. *)
Lemma process_request_shape (os : Platform) (request response : json) (w w' : World) :
  process_request os request w = (Ok response, w') ->
  response = JNull \/ exists d, response = JObj d.
Proof.
  assert (Hh : forall (m : M dict) (request_id : json),
             (bind m (fun r => ret (JObj (with_id request_id r)))) w = (Ok response, w') ->
             response = JNull \/ exists d, response = JObj d).
  { intros m request_id. unfold bind, ret.
    destruct (m w) as [[r|e] w1]; [|discriminate].
    intros H. injection H as <- _. right. eexists; reflexivity. }
  unfold process_request. unfold bind at 1. unfold lift.
  destruct request as [| | | | | |request]; try discriminate.
  cbn [as_dict]. cbv zeta.
  repeat match goal with
    | |- context [if ?c then _ else _] =>
        match c with
        | is_str _ _ => destruct c; [apply Hh|]
        end
    end.
  destruct (is_str "initialized" _).
  { unfold bind, ret. destruct (send_notification _ _ w) as [[[]|e] w1]; [|discriminate].
    intros H. injection H as <- _. now left. }
  destruct (existsb _ call_hierarchy_methods).
  - unfold route_call_hierarchy.
    destruct (call_hierarchy_server w) as [server|].
    + destruct (ch_initialized server).
      * destruct (ch_request _ _ server) as [[r|e] s']; [|discriminate].
        destruct (Py.truthy r).
        -- destruct r; try discriminate. intros H. injection H as <- _.
           right. eexists; reflexivity.
        -- intros H. injection H as <- _. right. eexists; reflexivity.
      * intros H. injection H as <- _. right. eexists; reflexivity.
    + intros H. injection H as <- _. right. eexists; reflexivity.
  - destruct (Py.get_none "id" request);
      try (unfold bind, ret;
           destruct (send_request _ _ w) as [[[[|fld flds]|]|e0] w1]; try discriminate;
           intros H; injection H as <- _; right; eexists; reflexivity).
    unfold bind, ret. destruct (send_notification _ _ w) as [[[]|e] w1]; [|discriminate].
    intros H. injection H as <- _. now left.
Qed.

Lemma write_client_message_writes (msg : json) (c c' : Client) :
  write_client_message msg c = Some c' -> written c' = written c ++ [msg].
Proof.
  unfold write_client_message. destruct (client_writes_left c) as [[|n]|];
    try discriminate; intros H; injection H as <-; reflexivity.
Qed.

Lemma answers_one_of_later (request : json) (requests : list json) (answer : json) :
  answers_one_of requests answer -> answers_one_of (request :: requests) answer.
Proof.
  intros (r & d & Hin & H). exists r, d. split; [now right | exact H].
Qed.

Lemma main_loop_in_order (os : Platform) (requests : list json) : forall c w,
  exists answers,
    written (fst (main_loop os requests c w)) = written c ++ answers
    /\ answered_in_order requests answers.
Proof.
  induction requests as [|request later IH]; intros c w.
  - exists []. cbn. rewrite app_nil_r. split; constructor.
  - assert (Hstop : forall c0 : Client, written c0 = written c ->
              exists answers,
                written c0 = written c ++ answers
                /\ answered_in_order (request :: later) answers).
    { intros c0 H. exists []. rewrite app_nil_r. split; [exact H | constructor]. }
    assert (Hgo : forall w1,
              exists answers,
                written (fst (main_loop os later c w1)) = written c ++ answers
                /\ answered_in_order (request :: later) answers).
    { intros w1. destruct (IH c w1) as (answers & Hw & Hord).
      exists answers. split; [exact Hw | now apply answered_skip]. }
    cbn [main_loop].
    destruct (process_request os request w) as [[response|e] w1] eqn:E.
    2: { destruct request; apply Hstop; reflexivity. }
    destruct (process_request_shape _ _ _ _ _ E) as [->|(d & ->)].
    { cbn [Py.truthy]. destruct request; try apply Hgo. apply Hstop; reflexivity. }
    assert (Hreq : exists r, request = JObj r).
    { destruct request; try discriminate. eexists; reflexivity. }
    destruct Hreq as (r & ->).
    destruct (Py.truthy (JObj d)) eqn:Ht; [|apply Hgo].
    destruct (write_client_message (JObj d) c) as [c1|] eqn:Hwc;
      [|apply Hstop; reflexivity].
    destruct (IH c1 w1) as (answers & Hw & Hord).
    exists (JObj d :: answers). split.
    + rewrite Hw, (write_client_message_writes _ _ _ Hwc), <- app_assoc. reflexivity.
    + assert (Hne : d <> []) by (intros ->; discriminate).
      apply answered_next; [exact Hne | | exact Hord].
      eapply process_request_id; eassumption.
Qed.

Lemma answered_in_order_bound (requests answers : list json) :
  answered_in_order requests answers ->
  Forall (answers_one_of requests) answers /\ length answers <= length requests.
Proof.
  induction 1 as [requests|request requests answers _ [IHall IHlen]
                  |request response requests answers Hne Hid _ [IHall IHlen]].
  - split; [constructor | cbn; lia].
  - split; [|cbn [length]; lia].
    eapply Forall_impl; [|exact IHall]. intros a. apply answers_one_of_later.
  - split; [|cbn [length]; lia]. constructor.
    + exists request, response. split; [now left|]. now repeat split.
    + eapply Forall_impl; [|exact IHall]. intros a. apply answers_one_of_later.
Qed.

(** X21. What [main] writes to the client is, in order, the answers to
    the messages it read: each answer is a non-empty object that carries
    the id of its own request, the answers come in the order of their
    requests, and no message is answered twice. *)
Theorem main_answers_carry_ids (os : Platform) (requests : list json) (c : Client)
  (w : World) :
  exists answers,
    written (client (main_session os requests c w)) = written c ++ answers
    /\ answered_in_order requests answers
    /\ Forall (answers_one_of requests) answers
    /\ length answers <= length requests.
Proof.
  destruct (main_loop_in_order os requests c w) as (answers & Hw & Hord).
  destruct (answered_in_order_bound _ _ Hord) as [Hall Hlen].
  exists answers. split; [|split; [|split]; assumption].
  unfold main_session. destruct (main_loop os requests c w) as [c' w'].
  cbn [fst] in Hw. unfold main_finally.
  destruct (call_hierarchy_server w'); [destruct (ch_shutdown c0) as [[[]|e] s]|]; exact Hw.
Qed.

(** X22. A definition, document-symbol, hover or references request whose
    parameters do not give the URI of a document ends the session: the
    exception leaves the loop of [main], nothing is written to the client,
    the messages that follow are not read, and [main] goes on with its
    [finally] block. *)
Theorem main_stops_at_request_without_uri (os : Platform) (request : dict)
  (method : string) (e : exn) (later : list json) (c : Client) (w : World) :
  Py.get "method" request = Some (JStr method) ->
  In method document_methods ->
  document_uri (Py.get_default "params" (JObj []) request) = Raise e ->
  main_session os (JObj request :: later) c w = main_finally c w.
Proof.
  intros Hm Hin Huri. unfold main_session. cbn [main_loop].
  now rewrite (document_request_raises os request method w e Hm Hin Huri).
Qed.

Lemma main_stops_at_request_without_uri_witness :
  main_session Demo.os [JObj Documents.no_document; JObj Passing.completion] Session.client
    (Demo.world [])
  = main_finally Session.client (Demo.world []).
Proof.
  apply (main_stops_at_request_without_uri Demo.os Documents.no_document
           "textDocument/hover" KeyError).
  - reflexivity.
  - right. right. left. reflexivity.
  - reflexivity.
Defined.

(** ** [initialize] *)

Lemma same_setup_refl (w : World) : same_setup w w.
Proof. repeat split. Qed.

Lemma same_setup_trans (a b c : World) :
  same_setup a b -> same_setup b c -> same_setup a c.
Proof.
  intros (H1 & H2 & H3 & H4) (K1 & K2 & K3 & K4).
  repeat split; congruence.
Qed.

Lemma send_message_setup (msg : json) : True -> evolves same_setup (send_message msg).
Proof.
  intros _ w r w' H. unfold send_message in H.
  destruct (write_to msg (process w)); injection H as _ <-; repeat split.
Qed.

Lemma send_request_setup (method params : json) :
  (forall id : Z, True) -> evolves same_setup (send_request method params).
Proof.
  intros _ w r w' H. rewrite send_request_run in H.
  destruct (write_to _ (process w)); injection H as _ <-; repeat split.
Qed.

Lemma open_manifest_setup (os : Platform) (project_root : string) :
  evolves same_setup (open_manifest os project_root).
Proof.
  apply open_manifest_evolves with (Q := fun _ => True);
    auto using same_setup_refl, send_message_setup, send_request_setup.
  apply same_setup_trans.
Qed.

Lemma set_active_workspace_setup (os : Platform) (project_root : string) :
  evolves same_setup (set_active_workspace os project_root).
Proof.
  apply set_active_workspace_evolves with (Q := fun _ => True);
    auto using same_setup_refl, send_message_setup, send_request_setup.
  apply same_setup_trans.
Qed.

Lemma wait_for_project_load_setup : evolves same_setup _wait_for_project_load.
Proof.
  apply wait_for_project_load_evolves with (Q := fun _ => True);
    auto using same_setup_refl, send_message_setup, send_request_setup.
  - apply same_setup_trans.
  - intros; repeat split.
Qed.

(** Starting the call-hierarchy server touches that server only. *)
Lemma start_call_hierarchy_server_setup (os : Platform) (w w' : World)
  (r : outcome unit) :
  _start_call_hierarchy_server os w = (r, w') ->
  same_setup w w' /\ initialized_projects w' = initialized_projects w
  /\ process w' = process w.
Proof.
  unfold _start_call_hierarchy_server.
  destruct (find_call_hierarchy_executable os) as [exe|].
  2: { intros H; injection H as _ <-. repeat split. }
  destruct (negb (PyStr.truthy exe)).
  { intros H; injection H as _ <-. repeat split. }
  destruct (ch_start (spawn w) ch_fresh) as [[[|]|e] server].
  2,3: intros H; injection H as _ <-; repeat split.
  cbv zeta.
  match goal with |- context [if ?c then _ else (Ok tt, ?x)] => destruct c end.
  2: { intros H; injection H as _ <-. repeat split. }
  match goal with |- context [match ?x with Ok _ => _ | Raise _ => _ end] =>
    destruct x as [[workspace_uri workspace_name]|e] end.
  2: { intros H; injection H as _ <-. repeat split. }
  destruct (ch_initialize os _ _ server) as [[[|]|e] server1].
  - intros H; injection H as _ <-. repeat split.
  - destruct (ch_shutdown server1) as [[[]|e] server2];
      intros H; injection H as _ <-; repeat split.
  - intros H; injection H as _ <-. repeat split.
Qed.

(** [_post_initialize], when it returns, has recorded the root project. *)
Lemma post_initialize_records (os : Platform) (w w' : World) :
  _post_initialize os w = (Ok tt, w') ->
  same_setup w w' /\ root_is_recorded os w'.
Proof.
  unfold _post_initialize, root_is_recorded.
  destruct (root_path_set w) as [root|] eqn:Hroot.
  2: { intros H; injection H as <-. split; [apply same_setup_refl|].
       intros root Hr. congruence. }
  intros H.
  apply bind_ok in H as ([] & w1 & H1 & H).
  apply bind_ok in H as ([] & w2 & H2 & H).
  apply bind_ok in H as ([] & w3 & H3 & H).
  apply bind_ok in H as (loaded & w4 & H4 & H).
  apply bind_ok in H as ([] & w5 & H5 & H).
  injection H5 as <-.
  apply (send_message_setup _ I) in H1.
  apply open_manifest_setup in H2.
  apply set_active_workspace_setup in H3.
  apply wait_for_project_load_setup in H4.
  apply start_call_hierarchy_server_setup in H as (H6 & Hp & _).
  assert (Hs : same_setup w w').
  { apply (same_setup_trans _ _ _ H1). apply (same_setup_trans _ _ _ H2).
    apply (same_setup_trans _ _ _ H3). apply (same_setup_trans _ _ _ H4).
    eapply same_setup_trans; [|exact H6]. repeat split. }
  split; [exact Hs|].
  intros root' Hr. rewrite Hp. cbn [initialized_projects set_initialized_projects].
  assert (root' = root) as ->.
  { destruct Hs as (Hrp & _). unfold root_path_set in *. rewrite Hrp in Hr. congruence. }
  apply mem_add_same.
Qed.

Lemma build_initialize_params_state (os : Platform) (params : dict) (w w' : World)
  (r : outcome json) :
  _build_initialize_params os params w = (r, w') -> w' = w.
Proof.
  unfold _build_initialize_params, bind, lift, ret.
  destruct (as_uri os _); intros H; now injection H as _ <-.
Qed.

(** X23. When [initialize] returns, the wrapper remembers the root the
    client asked for as its workspace root, and as its root path the
    project detected below that root, or else the root itself.  The
    response is never empty.  The wrapper counts as initialized only if
    the response has a result, and then the root project is recorded as
    initialized. *)
Theorem initialize_records_roots (os : Platform) (params : dict) (requested : json)
  (w w' : World) (response : dict) :
  requested_root params = Ok requested ->
  initialized w = false ->
  initialize os (JObj params) w = (Ok response, w') ->
  workspace_root w' = requested
  /\ (forall path,
        requested = JStr path -> path <> EmptyString ->
        root_path w'
        = Some (match detected_project os path with
                | Some project => project
                | None => path
                end))
  /\ response <> []
  /\ (initialized w' = true ->
      Py.has_key "result" response = true /\ root_is_recorded os w').
Proof.
  intros Hreq Hinit H. unfold initialize in H.
  apply bind_ok in H as (params' & w0 & H0 & H). injection H0 as <- <-.
  apply bind_ok in H as (requested' & w0 & H0 & H).
  unfold lift in H0. rewrite Hreq in H0. injection H0 as <- <-.
  apply bind_ok in H as ([] & w1 & H1 & H). injection H1 as <-.
  apply bind_ok in H as (al_project & w2 & H2 & H).
  apply bind_ok in H as ([] & w3 & H3 & H).
  apply bind_ok in H as (al_params & w4 & H4 & H).
  apply bind_ok in H as (r & w5 & H5 & H).
  apply bind_ok in H as ([] & w6 & H6 & H).
  injection H as <- <-.
  (* the detection changes no state *)
  assert (Hdet : w2 = set_roots (root_path w) (root_uri w) requested w
                 /\ forall path, requested = JStr path -> path <> EmptyString ->
                                 al_project = find_al_project os path 5).
  { destruct (Py.truthy requested) eqn:Ht.
    - apply bind_ok in H2 as (start_path & w2' & Hp & H2). injection H2 as <- <-.
      unfold lift in Hp. destruct requested; try discriminate. injection Hp as <- <-.
      split; [reflexivity|]. intros path Hpath _. now injection Hpath as <-.
    - injection H2 as <- <-. split; [reflexivity|].
      intros path -> Hne. destruct path; [congruence | discriminate]. }
  destruct Hdet as [-> Hproject].
  (* the roots *)
  assert (Hroots : workspace_root w3 = requested
                   /\ initialized w3 = initialized w
                   /\ forall path, requested = JStr path -> path <> EmptyString ->
                        root_path w3
                        = Some (match detected_project os path with
                                | Some project => project
                                | None => path
                                end)).
  { destruct (match al_project with
              | Some project => if PyStr.truthy project then Some project else None
              | None => None
              end) as [project|] eqn:Hal.
    - apply bind_ok in H3 as ([] & w3' & Ha & H3). injection Ha as <-.
      apply bind_ok in H3 as (uri & w3' & Hu & H3).
      unfold lift in Hu. destruct (as_uri os (Path os project)); [|discriminate].
      injection Hu as <- <-. injection H3 as <-.
      split; [reflexivity|]. split; [reflexivity|].
      intros path Hpath Hne. cbn. unfold detected_project.
      rewrite <- (Hproject path Hpath Hne), Hal. reflexivity.
    - apply bind_ok in H3 as ([] & w3' & Ha & H3). injection Ha as <-.
      assert (Hstate : workspace_root w3 = requested
                       /\ initialized w3 = initialized w
                       /\ root_path w3 = string_of requested).
      { cbv beta in H3.
        destruct (root_path_set _) as [root|].
        - destruct (negb (Py.truthy _)).
          + apply bind_ok in H3 as (uri & w3' & Hu & H3).
            unfold lift in Hu. destruct (as_uri os (Path os root)); [|discriminate].
            injection Hu as <- <-. injection H3 as <-. repeat split.
          + injection H3 as <-. repeat split.
        - injection H3 as <-. repeat split. }
      destruct Hstate as (Hw & Hi & Hr). split; [exact Hw|]. split; [exact Hi|].
      intros path Hpath Hne. rewrite Hr, Hpath. cbn. unfold detected_project.
      rewrite <- (Hproject path Hpath Hne), Hal. reflexivity. }
  destruct Hroots as (Hw3 & Hi3 & Hr3).
  apply build_initialize_params_state in H4. subst w4.
  pose proof (send_request_setup _ _ (fun _ => I) _ _ _ H5) as (Hr5 & _ & Hw5 & Hi5).
  (* what follows the handshake *)
  assert (Hanswer : match r with
                    | Some (field :: fields) => field :: fields
                    | _ => [("jsonrpc", JStr "2.0");
                            ("id", Py.get_default "id" (JInt 0) params);
                            ("result", JObj [])]
                    end <> []).
  { destruct r as [[|field fields]|]; discriminate. }
  destruct (has_result r) eqn:Hhas.
  - apply bind_ok in H6 as ([] & w7 & H7 & H6). injection H7 as <-.
    apply bind_ok in H6 as ([] & w8 & H8 & H6).
    apply (send_message_setup _ I) in H8 as (Hr8 & _ & Hw8 & Hi8).
    apply post_initialize_records in H6 as ((Hr' & _ & Hw' & Hi') & Hrec).
    cbn in Hr8, Hw8, Hi8.
    split; [congruence|]. split.
    { intros path Hpath Hne. rewrite <- (Hr3 path Hpath Hne). congruence. }
    split; [exact Hanswer|]. intros _. split; [|exact Hrec].
    destruct r as [[|field fields]|]; try discriminate.
    unfold has_result in Hhas. now apply andb_prop in Hhas as [_ Hhas].
  - injection H6 as <-.
    split; [congruence|]. split.
    { intros path Hpath Hne. rewrite <- (Hr3 path Hpath Hne). congruence. }
    split; [exact Hanswer|]. intros Htrue. congruence.
Qed.

Lemma initialize_records_roots_witness :
  workspace_root (snd (initialize Demo.os (JObj Startup.initialize_params) Startup.fresh))
  = JStr "/ws"
  /\ root_path (snd (initialize Demo.os (JObj Startup.initialize_params) Startup.fresh))
     = Some "/ws/proj".
Proof.
  destruct (initialize_records_roots Demo.os Startup.initialize_params (JStr "/ws")
              Startup.fresh
              (snd (initialize Demo.os (JObj Startup.initialize_params) Startup.fresh))
              (Demo.response 1 (JObj [("capabilities", JObj [])])))
    as (Hw & Hr & _).
  - reflexivity.
  - reflexivity.
  - vm_compute. reflexivity.
  - split; [exact Hw|]. apply (Hr "/ws" eq_refl). discriminate.
Defined.

(** ** The messages that initialize a project *)

Lemma write_to_unbroken (msg : json) (p : Process) :
  writes_left p = None ->
  write_to msg p
  = Some {| stdin := stdin p ++ [msg]; stdout := stdout p;
            writes_left := None; running := running p |}.
Proof. intros H. unfold write_to. now rewrite H. Qed.

Lemma send_notification_unbroken (method params : json) (w : World) :
  writes_left (process w) = None ->
  send_notification method params w
  = (Ok tt,
     set_process {| stdin := stdin (process w) ++ [notification_message method params];
                    stdout := stdout (process w);
                    writes_left := None; running := running (process w) |} w).
Proof.
  intros H. unfold send_notification, send_message.
  fold (notification_message method params). now rewrite (write_to_unbroken _ _ H).
Qed.

(** X24. The first time a project is needed, [_ensure_project_initialized]
    writes to the AL server, in this order, the configuration of the
    workspace with the project root, the [didOpen] of the project's
    manifest with its text, and the request that makes the project the
    active workspace; it then records the project and returns its root,
    whatever the AL server answers. *)
Theorem project_initialization_sequence (os : Platform) (file_uri root text : string)
  (w : World) :
  resolved_project_root os file_uri = Some root ->
  mem root (initialized_projects w) = false ->
  writes_left (process w) = None ->
  exists_ os (joinpath (Path os root) "app.json") = true ->
  read_text os (joinpath (Path os root) "app.json") = Some text ->
  is_absolute os (joinpath (Path os root) "app.json") = true ->
  is_absolute os (resolve os (Path os root)) = true ->
  exists w',
    _ensure_project_initialized os (JStr file_uri) w = (Ok (Some root), w')
    /\ stdin (process w')
       = stdin (process w)
         ++ [configuration_message root;
             manifest_message (uri_text os (joinpath (Path os root) "app.json")) text;
             activation_message os (request_id w + 1) root]
    /\ initialized_projects w' = initialized_projects w ++ [root]
    /\ request_id w' = (request_id w + 1)%Z.
Proof.
  intros Hroot Hmem Hwr Hex Hread Habs Habs'.
  unfold _ensure_project_initialized.
  unfold bind at 1. unfold lift at 1. cbn [as_str]. rewrite Hroot, Hmem.
  unfold bind at 1. rewrite (send_notification_unbroken _ _ _ Hwr).
  set (w1 := set_process _ w).
  assert (Hwr1 : writes_left (process w1) = None) by reflexivity.
  unfold bind at 1. unfold open_manifest. rewrite Hex, Hread.
  unfold try_except, bind at 1, ret at 1. unfold bind at 1, lift at 1, as_uri.
  rewrite Habs. rewrite (send_notification_unbroken _ _ _ Hwr1).
  set (w2 := set_process _ w1).
  assert (Hwr2 : writes_left (process w2) = None) by reflexivity.
  unfold bind at 1. unfold set_active_workspace, try_except.
  unfold bind at 1, lift at 1, as_uri. rewrite Habs'.
  unfold bind at 1. rewrite send_request_run. rewrite (write_to_unbroken _ _ Hwr2).
  cbv beta iota.
  match goal with |- context [fst ?x] => destruct (fst x) as [r|e] end.
  all: eexists; split; [reflexivity|]; cbn; unfold add; rewrite Hmem;
    split; [|split; reflexivity]; rewrite <- !app_assoc; reflexivity.
Qed.

Lemma project_initialization_sequence_witness :
  exists w',
    _ensure_project_initialized Demo.os (JStr Demo.source_uri) (Demo.world [])
    = (Ok (Some "/ws/proj"), w')
    /\ initialized_projects w' = ["/ws/proj"].
Proof.
  destruct (project_initialization_sequence Demo.os Demo.source_uri "/ws/proj" "{}"
              (Demo.world []))
    as (w' & Hrun & _ & Hrec & _); try reflexivity.
  exists w'. split; [exact Hrun | exact Hrec].
Defined.

(** ** The newest extension *)

Lemma tuple_ltb_irrefl (a : list Z) : tuple_ltb a a = false.
Proof.
  induction a as [|x a IH]; [reflexivity|]. cbn.
  now rewrite Z.ltb_irrefl.
Qed.

(** If [a < c] then [a < b] or [b < c]. *)
Lemma tuple_ltb_between (a b c : list Z) :
  tuple_ltb a c = true -> tuple_ltb a b = true \/ tuple_ltb b c = true.
Proof.
  revert b c. induction a as [|x a IH]; intros [|y b] [|z c]; cbn [tuple_ltb];
    try discriminate; try (intros _; now left); try (intros _; now right).
  destruct (Z.ltb_spec x z), (Z.ltb_spec z x), (Z.ltb_spec x y), (Z.ltb_spec y x),
    (Z.ltb_spec y z), (Z.ltb_spec z y);
    try discriminate; try lia; try (intros _; now left); try (intros _; now right).
  apply IH.
Qed.

Lemma tuple_ltb_asym (a b : list Z) :
  tuple_ltb a b = true -> tuple_ltb b a = false.
Proof.
  revert b. induction a as [|x a IH]; intros [|y b]; cbn [tuple_ltb];
    try discriminate; try reflexivity.
  destruct (Z.ltb_spec x y), (Z.ltb_spec y x); try discriminate; try reflexivity; try lia.
  apply IH.
Qed.

Lemma sort_desc_first (py : Builtins) (candidates : list PurePath) :
  match sort_desc py candidates with
  | [] => candidates = []
  | newest :: _ => first_newest py candidates newest
  end.
Proof.
  induction candidates as [|x l IH]; [reflexivity|].
  cbn [sort_desc fold_right]. fold (sort_desc py l).
  destruct (sort_desc py l) as [|y rest].
  - subst l. cbn. exists [], []. split; [reflexivity|]. split.
    + intros c [<-|[]]. apply tuple_ltb_irrefl.
    + intros c [].
  - cbn [insert_desc]. destruct IH as (before & after & Hl & Hmax & Hfirst).
    destruct (tuple_ltb (version_key py x) (version_key py y)) eqn:E.
    + exists (x :: before), after. split; [cbn; now f_equal|]. split.
      * intros c [<-|Hc]; [|now apply Hmax].
        now apply tuple_ltb_asym.
      * intros c [<-|Hc]; [exact E | now apply Hfirst].
    + exists [], l. split; [reflexivity|]. split.
      * intros c [<-|Hc]; [apply tuple_ltb_irrefl|].
        destruct (tuple_ltb (version_key py x) (version_key py c)) eqn:Ec; [|reflexivity].
        destruct (tuple_ltb_between _ (version_key py y) _ Ec) as [H|H]; [congruence|].
        now rewrite (Hmax c Hc) in H.
      * intros c [].
Qed.

Lemma collect_candidates (os : Platform) (inst : Installation) :
  forall bases candidates,
    collect os inst bases = Ok candidates ->
    forall c, In c candidates -> is_al_extension inst c = true.
Proof.
  induction bases as [|base bases IH]; intros candidates H c Hc.
  - injection H as <-. contradiction.
  - cbn [collect] in H.
    destruct (exists_ os base).
    + destruct (iterdir inst base) as [items|]; [|discriminate]. cbn [obind] in H.
      destruct (collect os inst bases) as [more|]; [|discriminate].
      injection H as <-. apply in_app_or in Hc as [Hc|Hc].
      * now apply filter_In in Hc as [_ Hc].
      * now apply (IH more eq_refl).
    + cbn [obind] in H. destruct (collect os inst bases) as [more|]; [|discriminate].
      injection H as <-. now apply (IH more eq_refl).
Qed.

(** X25. [find_al_extension] answers [None] when no extension directory
    holds a directory named [ms-dynamics-smb.al-...], and otherwise the
    candidate with the greatest version, versions being compared as
    tuples of integers - so 16.10.0 is newer than 16.9.5 - and a version
    that is not made of integers counting as 0; among candidates of the
    same greatest version it answers the one listed first. *)
Theorem find_al_extension_newest (os : Platform) (inst : Installation)
  (py : Builtins) (candidates : list PurePath) :
  collect os inst (possible_paths os inst) = Ok candidates ->
  (forall c, In c candidates ->
     is_dir inst c = true
     /\ PyStr.startswith "ms-dynamics-smb.al-" (Pathlib.name c) = true)
  /\ (candidates = [] -> find_al_extension os inst py = Ok None)
  /\ (candidates <> [] ->
      exists newest,
        find_al_extension os inst py = Ok (Some (str os newest))
        /\ first_newest py candidates newest).
Proof.
  intros H. split; [|split].
  - intros c Hc. apply andb_prop. apply (collect_candidates os inst _ _ H c Hc).
  - intros ->. unfold find_al_extension. now rewrite H.
  - intros Hne. unfold find_al_extension. rewrite H. cbn [obind].
    pose proof (sort_desc_first py candidates) as Hs.
    destruct (sort_desc py candidates) as [|newest rest]; [contradiction|].
    exists newest. split; [reflexivity | exact Hs].
Qed.

Lemma find_al_extension_newest_witness :
  exists newest,
    find_al_extension Installed.os Installed.inst Installed.py
    = Ok (Some (str Installed.os newest))
    /\ first_newest Installed.py [Installed.older; Installed.newer] newest.
Proof.
  destruct (find_al_extension_newest Installed.os Installed.inst Installed.py
              [Installed.older; Installed.newer])
    as (_ & _ & Hnewest).
  - vm_compute. reflexivity.
  - apply Hnewest. discriminate.
Defined.

(** In the example the newer version wins, although its name comes
    after in the listing and before in the order of the alphabet. *)
Lemma newer_version_is_found :
  find_al_extension Installed.os Installed.inst Installed.py
  = Ok (Some "/home/u/.vscode/extensions/ms-dynamics-smb.al-16.10.0").
Proof. vm_compute. reflexivity. Qed.

(** ** Frames *)

Lemma decimal_at_digits (fuel : nat) : forall n acc,
  digits_only acc -> digits_only (decimal_at fuel n acc).
Proof.
  induction fuel as [|fuel IH]; intros n acc Hacc; [exact Hacc|].
  cbn [decimal_at].
  assert (Hd : digits_only (String (ascii_of_nat (48 + n mod 10)) acc)).
  { split; [|exact Hacc]. unfold digit. rewrite nat_ascii_embedding.
    - pose proof (Nat.mod_upper_bound n 10). lia.
    - pose proof (Nat.mod_upper_bound n 10). lia. }
  destruct (n / 10 =? 0); [exact Hd | now apply IH].
Qed.

Lemma decimal_at_keeps (fuel : nat) : forall n acc,
  acc <> EmptyString -> decimal_at fuel n acc <> EmptyString.
Proof.
  induction fuel as [|fuel IH]; intros n acc Hacc; [exact Hacc|].
  cbn [decimal_at]. destruct (n / 10 =? 0); [discriminate|].
  apply IH. discriminate.
Qed.

Lemma decimal_of_digits (n : nat) :
  digits_only (decimal_of n) /\ decimal_of n <> EmptyString.
Proof.
  unfold decimal_of. split; [now apply decimal_at_digits|].
  cbn [decimal_at]. destruct (n / 10 =? 0); [discriminate|].
  apply decimal_at_keeps. discriminate.
Qed.

Lemma digit_is_plain (c : ascii) :
  digit c ->
  nat_of_ascii c < 128 /\ PyStr.isspace c = false /\ Ascii.eqb c newline = false.
Proof.
  intros [Hlo Hhi]. split; [lia|]. split.
  - unfold PyStr.isspace. cbv zeta.
    repeat match goal with
      | |- context [?a <=? ?b] => destruct (Nat.leb_spec a b); try lia
      | |- context [?a =? ?b] => destruct (Nat.eqb_spec a b); try lia
      end; reflexivity.
  - destruct (Ascii.eqb c newline) eqn:E; [|reflexivity].
    apply Ascii.eqb_eq in E. subst c. cbn in Hlo. lia.
Qed.

Lemma ascii_text_app (a b : string) :
  ascii_text a -> ascii_text b -> ascii_text (a ++ b).
Proof.
  induction a as [|c a IH]; [auto|]. intros [Hc Ha] Hb. split; [exact Hc | auto].
Qed.

Lemma digits_are_ascii (s : string) : digits_only s -> ascii_text s.
Proof.
  induction s as [|c s IH]; [auto|]. intros [Hc Hs].
  split; [apply (digit_is_plain c Hc) | auto].
Qed.

(** A line is read up to its end. *)
Lemma readline_line (a b : string) :
  PyStr.contains newline a = false ->
  readline (a ++ crlf ++ b) = ((a ++ crlf)%string, b).
Proof.
  induction a as [|c a IH]; cbn [PyStr.contains append readline].
  - intros _. reflexivity.
  - intros H. apply orb_false_elim in H as [Hc Ha]. rewrite Hc, (IH Ha). reflexivity.
Qed.

Lemma digits_have_no_newline (s : string) :
  digits_only s -> PyStr.contains newline s = false.
Proof.
  induction s as [|c s IH]; [reflexivity|]. intros [Hc Hs].
  cbn [PyStr.contains]. rewrite (IH Hs).
  now destruct (digit_is_plain c Hc) as (_ & _ & ->).
Qed.

Lemma contains_app (c : ascii) (a b : string) :
  PyStr.contains c (a ++ b) = PyStr.contains c a || PyStr.contains c b.
Proof.
  induction a as [|x a IH]; [reflexivity|]. cbn. rewrite IH. apply orb_assoc.
Qed.

(** The value of the header, stripped, is the digits. *)
Lemma rstrip_digits (d : string) :
  digits_only d -> PyStr.rstrip (d ++ crlf) = d.
Proof.
  induction d as [|c d IH]; [reflexivity|]. intros [Hc Hd].
  cbn [append PyStr.rstrip]. rewrite (IH Hd).
  destruct (digit_is_plain c Hc) as (_ & Hs & _).
  destruct d; [now rewrite Hs | reflexivity].
Qed.

Lemma strip_value (d : string) :
  digits_only d -> d <> EmptyString ->
  PyStr.strip (String " " (d ++ crlf)) = d.
Proof.
  intros Hd Hne. unfold PyStr.strip. cbn [PyStr.lstrip].
  replace (PyStr.isspace " ") with true by reflexivity.
  destruct d as [|c d]; [congruence|]. cbn [append PyStr.lstrip].
  destruct Hd as [Hc Hd]. destruct (digit_is_plain c Hc) as (_ & Hs & _).
  rewrite Hs. apply (rstrip_digits (String c d)). now split.
Qed.

(** The headers of a frame, read back. *)
Lemma read_headers_of_frame (py : Builtins) (eof_fails : bool)
    (d rest : string) (fuel : nat) :
  (forall data, ascii_text data -> decode py data = Some data) ->
  digits_only d -> d <> EmptyString ->
  read_headers py eof_fails (S (S fuel))
    (("Content-Length: " ++ d) ++ crlf ++ crlf ++ rest) []
  = (Some [("Content-Length", d)], rest).
Proof.
  intros Hdecode Hd Hne.
  assert (Hline : decode_line py (("Content-Length: " ++ d) ++ crlf)
                  = Some (("Content-Length: " ++ d) ++ crlf)%string).
  { change (decode py (("Content-Length: " ++ d) ++ crlf)
            = Some (("Content-Length: " ++ d) ++ crlf)%string).
    apply Hdecode. apply ascii_text_app.
    - apply (ascii_text_app "Content-Length: ");
        [cbn; repeat split; lia | now apply digits_are_ascii].
    - cbn; repeat split; lia. }
  cbn [read_headers]. rewrite readline_line.
  2: { rewrite contains_app, (digits_have_no_newline d Hd). reflexivity. }
  rewrite Hline.
  replace (negb (PyStr.truthy (("Content-Length: " ++ d) ++ crlf)))
    with false by reflexivity.
  replace (String.eqb (("Content-Length: " ++ d) ++ crlf) crlf)
    with false by reflexivity.
  replace (PyStr.contains ":" (("Content-Length: " ++ d) ++ crlf))
    with true by reflexivity.
  replace (PyStr.split ":" (Some 1) (("Content-Length: " ++ d) ++ crlf))
    with ["Content-Length"; String " " (d ++ crlf)] by reflexivity.
  rewrite (strip_value d Hd Hne).
  replace (PyStr.strip "Content-Length") with "Content-Length" by reflexivity.
  replace (readline (crlf ++ rest)) with (crlf, rest) by reflexivity.
  replace (decode_line py crlf) with (Some crlf)
    by (symmetry; apply Hdecode; cbn; repeat split; lia).
  reflexivity.
Qed.

Lemma readline_splits (data : string) :
  String.length (fst (readline data)) + String.length (snd (readline data))
  = String.length data
  /\ (fst (readline data) = EmptyString -> data = EmptyString).
Proof.
  induction data as [|c data [IHlen IHnil]]; [now split|].
  cbn [readline]. destruct (Ascii.eqb c newline).
  - split; [reflexivity | discriminate].
  - destruct (readline data) as [line rest']. cbn [fst snd String.length] in *.
    split; [lia | discriminate].
Qed.

(** The loop over the headers ends before its fuel does. *)
Lemma read_headers_fuel (py : Builtins) (eof_fails : bool) (fuel : nat) :
  forall more data headers,
    String.length data < fuel -> String.length data < more ->
    read_headers py eof_fails fuel data headers
    = read_headers py eof_fails more data headers.
Proof.
  induction fuel as [|fuel IH]; intros more data headers Hfuel Hmore; [lia|].
  destruct more as [|more]; [lia|]. cbn [read_headers].
  destruct (readline_splits data) as [Hlen Hnil].
  destruct (readline data) as [raw rest]. cbn [fst snd] in Hlen, Hnil.
  destruct raw as [|c raw]; [reflexivity|].
  assert (Hrest : String.length rest < String.length data)
    by (cbn [String.length] in Hlen; lia).
  destruct (decode_line py (String c raw)) as [line|]; [|reflexivity].
  destruct (negb (PyStr.truthy line)); [reflexivity|].
  destruct (String.eqb line crlf); [reflexivity|].
  destruct (PyStr.contains ":" line).
  - destruct (PyStr.split ":" (Some 1) line) as [|key [|value [|x xs]]];
      try reflexivity.
    apply IH; lia.
  - apply IH; lia.
Qed.

(** X26. Framing round trip: what a writer ([write_client_message], the two
    [send_message]) puts on a stream, a reader ([read_client_message], the
    two [read_message]) takes off it again.  When UTF-8 leaves ASCII text
    as it is, [json.dumps] gives ASCII text, [int] reads the decimal
    digits of its length and a buffer of that length can be allocated,
    the reader hands [json.loads] exactly the text [json.dumps] gave and
    leaves exactly the bytes that follow the frame on the stream. *)
Theorem frame_round_trip (py : Builtins) (eof_fails : bool) (msg : json)
    (rest : string) :
  utf8_on_ascii py ->
  ascii_text (dumps py msg) ->
  int_ py (decimal_of (String.length (dumps py msg)))
    = Some (Z.of_nat (String.length (dumps py msg))) ->
  fits py (Z.of_nat (String.length (dumps py msg))) = true ->
  read_frame py eof_fails (frame py msg ++ rest)
  = (loads py (dumps py msg), rest).
Proof.
  intros [Hencode Hdecode] Hascii Hint Hfits.
  set (content := dumps py msg) in *.
  destruct (decimal_of_digits (String.length content)) as [Hd Hne].
  unfold frame. cbv zeta. fold content.
  rewrite Hencode.
  2: { apply (ascii_text_app "Content-Length: "); [cbn; repeat split; lia|].
       apply ascii_text_app; [now apply digits_are_ascii|].
       apply (ascii_text_app crlf); [cbn; repeat split; lia|].
       apply (ascii_text_app crlf); [cbn; repeat split; lia | exact Hascii]. }
  replace (("Content-Length: " ++ decimal_of (String.length content)
            ++ crlf ++ crlf ++ content) ++ rest)%string
    with (("Content-Length: " ++ decimal_of (String.length content))
          ++ crlf ++ crlf ++ content ++ rest)%string
    by (now rewrite !append_assoc).
  unfold read_frame.
  rewrite (read_headers_fuel py eof_fails _
             (S (S (String.length
                      (("Content-Length: " ++ decimal_of (String.length content))
                       ++ crlf ++ crlf ++ content ++ rest)))));
    [|lia|lia].
  rewrite (read_headers_of_frame py eof_fails _ _ _ Hdecode Hd Hne).
  cbn [header]. replace ("Content-Length" =? "Content-Length")%string with true
    by reflexivity.
  rewrite Hint.
  destruct (Z.ltb_spec (Z.of_nat (String.length content)) (-1)); [lia|].
  destruct (Z.eqb_spec (Z.of_nat (String.length content)) (-1)); [lia|].
  rewrite Hfits, Nat2Z.id, take_append, skip_append, (Hdecode _ Hascii).
  reflexivity.
Qed.

Lemma frame_round_trip_witness :
  utf8_on_ascii Installed.py
  /\ ascii_text (dumps Installed.py JNull)
  /\ read_frame Installed.py false
       (frame Installed.py JNull ++ frame Installed.py JNull)
     = (Some JNull, frame Installed.py JNull).
Proof.
  refine (conj _ (conj _ _)).
  - split; intros; reflexivity.
  - cbn; repeat split; lia.
  - apply (frame_round_trip Installed.py false JNull (frame Installed.py JNull)).
    + split; intros; reflexivity.
    + cbn; repeat split; lia.
    + reflexivity.
    + reflexivity.
Defined.

